(** * grovetccfg: the remap-rule compiler of grove/grovetccfg/grovetccfg.go

    A shallow embedding of the rule-compilation core of
    [grove/grovetccfg/grovetccfg.go]: [getParents], [getQueryStringRule],
    [makeAllowIP], [makeACL], [makeModHdrs] and [createRulesOld], together
    with the parts of Go's [strings] and [net] packages they call.

    Go strings are byte sequences: they are modelled by [string], one
    [ascii] per byte.  Go [int]s are modelled by [Z]; every integer the
    compiler computes with stays far below the 64-bit range.  Go maps are
    [gmap]s.  A function returning [(T, error)] returns an [outcome T]. *)

From Stdlib Require Import ZArith Lia Ascii String List Bool DecimalString.
From stdpp Require Import base option list strings gmap.

Local Open Scope string_scope.
Local Open Scope list_scope.
Local Open Scope Z_scope.

(** ** Results of fallible code *)

(** [Ok v] is [(v, nil)], [Err msg] is a non-nil [error] whose text is [msg],
    [Panic msg] is a run-time panic, which ends the program.  [OutOfFuel] is
    not a Go value: it is what a bounded unrolling of a [for] loop returns
    when the bound is reached before the loop exits. *)
Inductive outcome (A : Type) : Type :=
  | Ok (a : A)
  | Err (msg : string)
  | Panic (msg : string)
  | OutOfFuel.
Arguments Ok {A} a.
Arguments Err {A} msg.
Arguments Panic {A} msg.
Arguments OutOfFuel {A}.

Definition obind {A B : Type} (m : outcome A) (k : A -> outcome B) : outcome B :=
  match m with
  | Ok a => k a
  | Err msg => Err msg
  | Panic msg => Panic msg
  | OutOfFuel => OutOfFuel
  end.

#[global] Instance outcome_ret : MRet outcome := fun A a => Ok a.
#[global] Instance outcome_bind : MBind outcome := fun A B k m => obind m k.

Definition isOk {A : Type} (m : outcome A) : bool :=
  match m with Ok _ => true | _ => false end.

Definition isErr {A : Type} (m : outcome A) : bool :=
  match m with Err _ => true | _ => false end.

(** ** Go's [strings] package, on byte strings *)

Module strings.

(** The byte at index [i], or [-1] past the end. *)
Definition byteAt (s : string) (i : nat) : Z :=
  match String.get i s with
  | Some c => Z.of_N (N_of_ascii c)
  | None => -1
  end.

(** [strings.HasPrefix(s, prefix)] *)
Fixpoint HasPrefix (s prefix : string) : bool :=
  match prefix, s with
  | EmptyString, _ => true
  | String _ _, EmptyString => false
  | String p prefix', String c s' => Ascii.eqb c p && HasPrefix s' prefix'
  end.

Fixpoint rev_onto (s acc : string) : string :=
  match s with
  | EmptyString => acc
  | String c s' => rev_onto s' (String c acc)
  end.

Definition reverse (s : string) : string := rev_onto s EmptyString.

(** [strings.HasSuffix(s, suffix)] *)
Definition HasSuffix (s suffix : string) : bool :=
  HasPrefix (reverse s) (reverse suffix).

(** [strings.Contains(s, substr)] *)
Fixpoint Contains (s substr : string) : bool :=
  HasPrefix s substr ||
  match s with
  | EmptyString => false
  | String _ s' => Contains s' substr
  end.

Fixpoint drop (n : nat) (s : string) : string :=
  match n, s with
  | O, _ => s
  | S n', String _ s' => drop n' s'
  | S _, EmptyString => EmptyString
  end.

Fixpoint take (n : nat) (s : string) : string :=
  match n, s with
  | S n', String c s' => String c (take n' s')
  | _, _ => EmptyString
  end.

(** [strings.TrimPrefix(s, prefix)] *)
Definition TrimPrefix (s prefix : string) : string :=
  if HasPrefix s prefix then drop (String.length prefix) s else s.

(** [strings.TrimSuffix(s, suffix)] *)
Definition TrimSuffix (s suffix : string) : string :=
  if HasSuffix s suffix
  then take (String.length s - String.length suffix) s
  else s.

(** [strings.Split(s, sep)] for a non-empty [sep] (the compiler only splits
    on [","], [" "], ["-"] and ["__RETURN__"]): the pieces between the
    non-overlapping occurrences of [sep], found left to right.  [skip] counts
    the bytes of a separator that is being stepped over. *)
Fixpoint splitFrom (sep : string) (skip : nat) (s : string) : list string :=
  match s with
  | EmptyString => [EmptyString]
  | String c s' =>
      match skip with
      | S k => splitFrom sep k s'
      | O =>
          if HasPrefix s sep
          then EmptyString :: splitFrom sep (String.length sep - 1) s'
          else match splitFrom sep 0 s' with
               | piece :: pieces => String c piece :: pieces
               | [] => [String c EmptyString]
               end
      end
  end.

Definition Split (s sep : string) : list string := splitFrom sep 0 s.

(** [strings.Join(a, sep)] *)
Fixpoint Join (a : list string) (sep : string) : string :=
  match a with
  | [] => EmptyString
  | [x] => x
  | x :: rest => x +:+ sep +:+ Join rest sep
  end.

(** [strings.Replace(s, old, new, -1)] for a non-empty [old]: every
    non-overlapping occurrence of [old], left to right, becomes [new]. *)
Definition ReplaceAll (s old new : string) : string := Join (Split s old) new.

(** White space as [unicode.IsSpace] sees it, read off the UTF-8 bytes at
    the head of [s]: the width in bytes of the white-space rune that starts
    there, [0] when none does.  The runes are U+0009..U+000D, U+0020, U+0085,
    U+00A0, U+1680, U+2000..U+200A, U+2028, U+2029, U+202F, U+205F, U+3000.
    Each encoding starts with a byte that is no continuation byte, so Go's
    rune-by-rune scan reaches every place where one of them occurs. *)
Definition spaceWidth (s : string) : nat :=
  let b0 := byteAt s 0 in
  let b1 := byteAt s 1 in
  let b2 := byteAt s 2 in
  if (b0 =? 32) || ((9 <=? b0) && (b0 <=? 13)) then 1%nat
  else if (b0 =? 194) && ((b1 =? 133) || (b1 =? 160)) then 2%nat
  else if (b0 =? 225) && (b1 =? 154) && (b2 =? 128) then 3%nat
  else if (b0 =? 226) && (b1 =? 128)
          && (((128 <=? b2) && (b2 <=? 138)) || (b2 =? 168) || (b2 =? 169) || (b2 =? 175))
       then 3%nat
  else if (b0 =? 226) && (b1 =? 129) && (b2 =? 159) then 3%nat
  else if (b0 =? 227) && (b1 =? 128) && (b2 =? 128) then 3%nat
  else 0%nat.

(** The same for the white-space rune that ends at the head of the reversed
    string [r], as [utf8.DecodeLastRuneInString] finds it. *)
Definition spaceWidthRev (r : string) : nat :=
  let e0 := byteAt r 0 in
  let e1 := byteAt r 1 in
  let e2 := byteAt r 2 in
  if (e0 =? 32) || ((9 <=? e0) && (e0 <=? 13)) then 1%nat
  else if (e1 =? 194) && ((e0 =? 133) || (e0 =? 160)) then 2%nat
  else if (e2 =? 225) && (e1 =? 154) && (e0 =? 128) then 3%nat
  else if (e2 =? 226) && (e1 =? 128)
          && (((128 <=? e0) && (e0 <=? 138)) || (e0 =? 168) || (e0 =? 169) || (e0 =? 175))
       then 3%nat
  else if (e2 =? 226) && (e1 =? 129) && (e0 =? 159) then 3%nat
  else if (e2 =? 227) && (e1 =? 128) && (e0 =? 128) then 3%nat
  else 0%nat.

Definition flush (cur : string) (fields : list string) : list string :=
  match cur with
  | EmptyString => fields
  | _ => cur :: fields
  end.

(** [strings.Fields(s)]: the maximal runs of bytes between white space, in
    order; none of them is empty.  [cur] is the field being read, [skip] the
    bytes of a white-space rune still to step over. *)
Fixpoint fieldsFrom (skip : nat) (cur : string) (s : string) : list string :=
  match s with
  | EmptyString => flush cur []
  | String c s' =>
      match skip with
      | S k => fieldsFrom k cur s'
      | O =>
          match spaceWidth s with
          | O => fieldsFrom 0 (cur +:+ String c EmptyString) s'
          | S w => flush cur (fieldsFrom w EmptyString s')
          end
      end
  end.

Definition Fields (s : string) : list string := fieldsFrom 0 EmptyString s.

(** White space stripped from the head of [s]; [width] finds the rune at
    the head and [skip] counts its bytes still to step over. *)
Fixpoint trimHead (width : string -> nat) (skip : nat) (s : string) : string :=
  match s with
  | EmptyString => EmptyString
  | String _ s' =>
      match skip with
      | S k => trimHead width k s'
      | O =>
          match width s with
          | O => s
          | S w => trimHead width w s'
          end
      end
  end.

(** [strings.TrimSpace(s)] *)
Definition TrimSpace (s : string) : string :=
  reverse (trimHead spaceWidthRev 0 (reverse (trimHead spaceWidth 0 s))).

Definition inCutset (cutset : string) (c : ascii) : bool :=
  existsb (Ascii.eqb c) (list_ascii_of_string cutset).

Fixpoint trimLeftCutset (cutset : string) (s : string) : string :=
  match s with
  | EmptyString => EmptyString
  | String c s' => if inCutset cutset c then trimLeftCutset cutset s' else s
  end.

(** [strings.Trim(s, cutset)] for a cutset of ASCII bytes: every leading and
    trailing byte that occurs in [cutset] is removed. *)
Definition Trim (s cutset : string) : string :=
  reverse (trimLeftCutset cutset (reverse (trimLeftCutset cutset s))).

Definition lowerByte (c : ascii) : ascii :=
  let n := N_of_ascii c in
  if ((65 <=? n) && (n <=? 90))%N then ascii_of_N (n + 32) else c.

(** [strconv.Itoa(n)] *)
Definition Itoa (n : Z) : string := NilZero.string_of_int (Z.to_int n).

End strings.

(** ** Go's [net] package: addresses, masks and their parsers *)

Module net.
Import strings.

(** An [IP] and an [IPMask] are byte slices; the nil slice is [[]]. *)
Abbreviation IP := (list Z).
Abbreviation IPMask := (list Z).

Record IPNet : Type := mkIPNet { ipnetIP : IP; ipnetMask : IPMask }.

Definition IPv4len : nat := 4.
Definition IPv6len : nat := 16.

Definition v4InV6Prefix : list Z := [0; 0; 0; 0; 0; 0; 0; 0; 0; 0; 255; 255].

(** [net.IPv4(a, b, c, d)]: the 16-byte form of an IPv4 address. *)
Definition IPv4 (a b c d : Z) : IP := v4InV6Prefix ++ [a; b; c; d].

Definition big : Z := 16777215.

Definition byteOf (c : ascii) : Z := Z.of_N (N_of_ascii c).

(** [dtoi(s)]: the decimal number at the head of [s], what follows it, and
    whether there was one (below [big]). *)
Fixpoint dtoiFrom (n : Z) (seen : bool) (s : string) : Z * string * bool :=
  match s with
  | String c s' =>
      let d := byteOf c in
      if (48 <=? d) && (d <=? 57) then
        let n' := n * 10 + (d - 48) in
        if big <=? n' then (big, s, false) else dtoiFrom n' true s'
      else if seen then (n, s, true) else (0, s, false)
  | EmptyString => if seen then (n, s, true) else (0, s, false)
  end.

Definition dtoi (s : string) : Z * string * bool := dtoiFrom 0 false s.

Definition hexDigit (c : ascii) : option Z :=
  let d := byteOf c in
  if (48 <=? d) && (d <=? 57) then Some (d - 48)
  else if (97 <=? d) && (d <=? 102) then Some (d - 97 + 10)
  else if (65 <=? d) && (d <=? 70) then Some (d - 65 + 10)
  else None.

(** [xtoi(s)]: the same for a hexadecimal number. *)
Fixpoint xtoiFrom (n : Z) (seen : bool) (s : string) : Z * string * bool :=
  match s with
  | String c s' =>
      match hexDigit c with
      | Some d =>
          let n' := n * 16 + d in
          if big <=? n' then (0, s, false) else xtoiFrom n' true s'
      | None => if seen then (n, s, true) else (0, s, false)
      end
  | EmptyString => if seen then (n, s, true) else (0, s, false)
  end.

Definition xtoi (s : string) : Z * string * bool := xtoiFrom 0 false s.

(** The loop of [parseIPv4] over the four octets; [k] octets remain, [i] is
    the index of the next one. *)
Fixpoint parseIPv4Loop (k i : nat) (s : string) (p : list Z) : option (string * list Z) :=
  match k with
  | O => Some (s, p)
  | S k' =>
      match s with
      | EmptyString => None
      | String c s1 =>
          let afterDot :=
            match i with
            | O => Some s
            | S _ => if Ascii.eqb c "."%char then Some s1 else None
            end in
          match afterDot with
          | None => None
          | Some s2 =>
              let '(n, rest, ok) := dtoi s2 in
              if negb ok || (255 <? n) then None
              else parseIPv4Loop k' (S i) rest (<[i := n]> p)
          end
      end
  end.

(** [parseIPv4(s)], as in the Go releases this program was written for: an
    octet may have leading zeros. *)
Definition parseIPv4 (s : string) : option IP :=
  match parseIPv4Loop 4 0 s [0; 0; 0; 0] with
  | Some (EmptyString, p) =>
      Some (IPv4 (p !!! 0%nat) (p !!! 1%nat) (p !!! 2%nat) (p !!! 3%nat))
  | _ => None
  end.

(** The main loop of [parseIPv6]: hexadecimal groups separated by colons, at
    most one [::], possibly a trailing dotted IPv4 address.  [i] is the next
    byte index, which grows by two in every iteration that does not leave
    the loop, so the eight iterations of [k] are never used up. *)
Fixpoint parseIPv6Loop (k : nat) (s : string) (i : nat) (ip : IP) (ellipsis : option nat)
  : option (string * nat * IP * option nat) :=
  if (IPv6len <=? i)%nat then Some (s, i, ip, ellipsis)
  else
  match k with
  | O => Some (s, i, ip, ellipsis)
  | S k' =>
      let '(n, rest, ok) := xtoi s in
      if negb ok || (65535 <? n) then None
      else if HasPrefix rest "." then
        if (match ellipsis with None => true | Some _ => false end) && negb (i =? IPv6len - IPv4len)%nat
        then None
        else if (IPv6len <? i + IPv4len)%nat then None
        else match parseIPv4 s with
             | None => None
             | Some ip4 =>
                 let ip := <[i := ip4 !!! 12%nat]> ip in
                 let ip := <[(i + 1)%nat := ip4 !!! 13%nat]> ip in
                 let ip := <[(i + 2)%nat := ip4 !!! 14%nat]> ip in
                 let ip := <[(i + 3)%nat := ip4 !!! 15%nat]> ip in
                 Some (EmptyString, (i + IPv4len)%nat, ip, ellipsis)
             end
      else
        let ip := <[i := Z.shiftr n 8]> ip in
        let ip := <[(i + 1)%nat := Z.land n 255]> ip in
        let i := (i + 2)%nat in
        match rest with
        | EmptyString => Some (rest, i, ip, ellipsis)
        | String c s1 =>
            if negb (Ascii.eqb c ":"%char) then None
            else
            match s1 with
            | EmptyString => None
            | String c1 s2 =>
                if Ascii.eqb c1 ":"%char then
                  match ellipsis with
                  | Some _ => None
                  | None =>
                      match s2 with
                      | EmptyString => Some (s2, i, ip, Some i)
                      | _ => parseIPv6Loop k' s2 i ip (Some i)
                      end
                  end
                else parseIPv6Loop k' s1 i ip ellipsis
            end
        end
  end.

(** [for j := i - 1; j >= ellipsis; j-- { ip[j+n] = ip[j] }], [c] iterations
    left. *)
Fixpoint moveUp (c e n : nat) (ip : IP) : IP :=
  match c with
  | O => ip
  | S c' => let j := (e + c')%nat in moveUp c' e n (<[(j + n)%nat := ip !!! j]> ip)
  end.

(** [for j := ellipsis + n - 1; j >= ellipsis; j-- { ip[j] = 0 }] *)
Fixpoint zeroFill (c e : nat) (ip : IP) : IP :=
  match c with
  | O => ip
  | S c' => zeroFill c' e (<[(e + c')%nat := 0]> ip)
  end.

(** [parseIPv6(s, false)] *)
Definition parseIPv6 (s : string) : option IP :=
  let ip0 : IP := replicate IPv6len 0 in
  let start :=
    if HasPrefix s "::" then (drop 2 s, Some 0%nat) else (s, None) in
  match start with
  | (EmptyString, Some _) => Some ip0
  | (s1, ellipsis0) =>
      match parseIPv6Loop 8 s1 0 ip0 ellipsis0 with
      | None => None
      | Some (rest, i, ip, ellipsis) =>
          match rest with
          | String _ _ => None
          | EmptyString =>
              if (i <? IPv6len)%nat then
                match ellipsis with
                | None => None
                | Some e =>
                    let n := (IPv6len - i)%nat in
                    Some (zeroFill n e (moveUp (i - e) e n ip))
                end
              else
                match ellipsis with
                | Some _ => None
                | None => Some ip
                end
          end
      end
  end.

(** The scan of [net.ParseIP] for the first ['.'] or [':']. *)
Fixpoint parseIPScan (s rest : string) : option IP :=
  match rest with
  | EmptyString => None
  | String c rest' =>
      if Ascii.eqb c "."%char then parseIPv4 s
      else if Ascii.eqb c ":"%char then parseIPv6 s
      else parseIPScan s rest'
  end.

(** [net.ParseIP(s)]; [None] is the nil address. *)
Definition ParseIP (s : string) : option IP := parseIPScan s s.

Fixpoint cidrMaskBytes (l : nat) (n : Z) : list Z :=
  match l with
  | O => []
  | S l' =>
      if 8 <=? n then 255 :: cidrMaskBytes l' (n - 8)
      else Z.lxor 255 (Z.shiftr 255 n) :: cidrMaskBytes l' 0
  end.

(** [net.CIDRMask(ones, bits)] *)
Definition CIDRMask (ones bits : Z) : IPMask :=
  if negb (bits =? 32) && negb (bits =? 128) then []
  else if (ones <? 0) || (bits <? ones) then []
  else cidrMaskBytes (Z.to_nat (bits / 8)) ones.

Definition bytesEqual (x y : list Z) : bool := bool_decide (x = y).

Definition allFF (b : list Z) : bool := forallb (Z.eqb 255) b.

Fixpoint andBytes (ip mask : list Z) : list Z :=
  match ip, mask with
  | b :: ip', m :: mask' => Z.land b m :: andBytes ip' mask'
  | _, _ => []
  end.

(** [ip.Mask(mask)] *)
Definition Mask (ip : IP) (mask : IPMask) : IP :=
  let mask :=
    if (length mask =? IPv6len)%nat && (length ip =? IPv4len)%nat && allFF (firstn 12 mask)
    then skipn 12 mask else mask in
  let ip :=
    if (length mask =? IPv4len)%nat && (length ip =? IPv6len)%nat
       && bytesEqual (firstn 12 ip) v4InV6Prefix
    then skipn 12 ip else ip in
  if negb (length ip =? length mask)%nat then [] else andBytes ip mask.

(** [ip.Equal(x)] *)
Definition Equal (ip x : IP) : bool :=
  if (length ip =? length x)%nat then bytesEqual ip x
  else if (length ip =? IPv4len)%nat && (length x =? IPv6len)%nat
  then bytesEqual (firstn 12 x) v4InV6Prefix && bytesEqual ip (skipn 12 x)
  else if (length ip =? IPv6len)%nat && (length x =? IPv4len)%nat
  then bytesEqual (firstn 12 ip) v4InV6Prefix && bytesEqual (skipn 12 ip) x
  else false.

(** [ip.To4()] *)
Definition To4 (ip : IP) : IP :=
  if (length ip =? IPv4len)%nat then ip
  else if (length ip =? IPv6len)%nat && bytesEqual (firstn 12 ip) v4InV6Prefix
  then skipn 12 ip
  else [].

Definition networkNumberAndMask (n : IPNet) : IP * IPMask :=
  let ip4 := To4 (ipnetIP n) in
  let ip := match ip4 with [] => ipnetIP n | _ => ip4 end in
  if match ip4 with [] => negb (length ip =? IPv6len)%nat | _ => false end then ([], [])
  else
    let m := ipnetMask n in
    if (length m =? IPv4len)%nat then
      if negb (length ip =? IPv4len)%nat then ([], []) else (ip, m)
    else if (length m =? IPv6len)%nat then
      if (length ip =? IPv4len)%nat then (ip, skipn 12 m) else (ip, m)
    else ([], []).

(** [n.Contains(ip)] *)
Definition IPNet_Contains (n : IPNet) (ip : IP) : bool :=
  let '(nn, m) := networkNumberAndMask n in
  let ip := match To4 ip with [] => ip | x => x end in
  if negb (length ip =? length nn)%nat then false
  else bytesEqual (andBytes nn m) (andBytes ip m).

(** [net.ParseCIDR(s)], its network result. *)
Definition ParseCIDR (s : string) : option IPNet :=
  if negb (strings.Contains s "/") then None
  else
    match Split s "/" with
    | addr :: _ =>
        let mask := drop (String.length addr + 1) s in
        let '(ip, iplen) :=
          match parseIPv4 addr with
          | Some ip => (Some ip, IPv4len)
          | None => (parseIPv6 addr, IPv6len)
          end in
        let '(n, rest, ok) := dtoi mask in
        match ip with
        | None => None
        | Some ip =>
            if negb ok || negb (rest =? "")%string || (n <? 0) || (8 * Z.of_nat iplen <? n)
            then None
            else
              let m := CIDRMask n (8 * Z.of_nat iplen) in
              Some (mkIPNet (Mask ip m) m)
        end
    | [] => None
    end.

End net.

(** ** The records of Traffic Ops ([lib/go-tc]) and of grove that the
    compiler reads and writes, with the fields it uses *)

Module tc.

Record Server : Type := mkServer {
  HostName : string;
  DomainName : string;
  TCPPort : Z;
  Cachegroup : string;
  ServerCDNName : string;
  Status : string
}.

Record CacheGroup : Type := mkCacheGroup {
  CacheGroupName : string;
  ParentName : string
}.

Record DeliveryService : Type := mkDeliveryService {
  XMLID : string;
  CDNName : string;
  Protocol : Z;
  QStringIgnore : Z;
  Type_ : string;
  EdgeHeaderRewrite : string;
  RemapText : string;
  OrgServerFQDN : string;
  DSCP : Z
}.

Record DeliveryServiceRegex : Type := mkDeliveryServiceRegex {
  Pattern : string
}.

Record CDN : Type := mkCDN {
  CDNDomainName : string
}.

Record CDNSSLKeys : Type := mkCDNSSLKeys {
  Hostname : string;
  Crt : string;
  Key : string
}.

Record Parameter_ : Type := mkParameter {
  ParamName : string;
  ConfigFile : string;
  Value : string
}.

(** The regexes of one delivery service, as Traffic Ops lists them. *)
Record DeliveryServiceRegexes : Type := mkDeliveryServiceRegexes {
  DSName : string;
  Regexes : list DeliveryServiceRegex
}.

(** An assignment of a delivery service to a server; both fields are
    pointers to an [int], [None] is nil. *)
Record DeliveryServiceServer : Type := mkDeliveryServiceServer {
  DssServer : option Z;
  DssDeliveryService : option Z
}.

End tc.

Module web.

Record Hdr : Type := mkHdr { HdrName : string; HdrValue : string }.

Record ModHdrs : Type := mkModHdrs { Set_ : list Hdr; Drop : list string }.

Definition noModHdrs : ModHdrs := mkModHdrs [] [].

End web.

Module remapdata.

Record QueryStringRule : Type := mkQueryStringRule { Remap : bool; Cache : bool }.

(** The only parent-selection strategy the compiler ever names. *)
Inductive ParentSelectionType : Type := ParentSelectionTypeConsistentHash.

Record RemapRuleTo : Type := mkRemapRuleTo {
  ToURL : string;
  ToWeight : option Z;
  ToRetryNum : option Z;
  ToProxyURL : string;
  ToRetryCodes : gset Z;
  ToTimeout : option Z
}.

(** A pointer field is an [option]: [None] is the nil pointer of a rule that
    never had the field set.  A nil map and an empty map are both [∅]. *)
Record RemapRule : Type := mkRemapRule {
  Name : string;
  From : string;
  CertificateFile : string;
  CertificateKeyFile : string;
  To : list RemapRuleTo;
  RetryNum : option Z;
  Timeout : option Z;
  RetryCodes : gset Z;
  QueryString : QueryStringRule;
  DSCP : Z;
  ConnectionClose : bool;
  ParentSelection : option ParentSelectionType;
  Allow : list net.IPNet;
  Plugins : gmap string web.ModHdrs;
  PluginsShared : gmap string string
}.

Record RemapRules : Type := mkRemapRules {
  Rules : list RemapRule;
  RulesRetryCodes : gset Z;
  RulesTimeout : option Z;
  RulesParentSelection : option ParentSelectionType;
  StatsAllow : list net.IPNet;
  RulesPlugins : gmap string web.ModHdrs
}.

End remapdata.

(** ** What the compiler calls outside this repository and outside the
    packages above *)

(** [strings.ToLower] (which lowers every Unicode letter), [url.Parse] (the
    parsed URL is kept as a string, [None] is a parse error),
    [json.Marshal] of a string (which cannot fail) and the constant
    [web.RemapTextKey]. *)
Class External : Type := mkExternal {
  ToLower : string -> string;
  url_Parse : string -> option string;
  json_Marshal : string -> string;
  RemapTextKey : string
}.

(** ** grovetccfg.go *)

Module grovetccfg.
Import strings.

(** [for _, server := range servers] visits the servers in an order that Go
    leaves open; the model visits them in the order of [map_to_list]. *)
Definition getParents (hostname : string) (servers : gmap string tc.Server)
    (cachegroups : gmap string tc.CacheGroup) : outcome (list tc.Server) :=
  match servers !! hostname with
  | None => Err "hostname not found in Servers"
  | Some server =>
      match cachegroups !! tc.Cachegroup server with
      | None =>
          Err ("server cachegroup '" +:+ tc.Cachegroup server +:+ "' not found in Cachegroups")
      | Some cachegroup =>
          Ok (filter (fun server => tc.Cachegroup server = tc.ParentName cachegroup)
                     (snd <$> map_to_list servers))
      end
  end.

Definition filterParents (parents : list tc.Server) (include : tc.Server -> bool)
  : list tc.Server :=
  List.filter include parents.

Definition ProtocolHTTP : Z := 0.
Definition ProtocolHTTPS : Z := 1.
Definition ProtocolHTTPAndHTTPS : Z := 2.
Definition ProtocolHTTPToHTTPS : Z := 3.

Record ProtocolStr : Type := mkProtocolStr { PFrom : string; PTo : string }.

(** The [switch protocol] of [createRulesOld]. *)
Definition protocolStrs (protocol : Z) : list ProtocolStr :=
  if protocol =? ProtocolHTTP then [mkProtocolStr "http" "http"]
  else if protocol =? ProtocolHTTPS then [mkProtocolStr "https" "https"]
  else if protocol =? ProtocolHTTPAndHTTPS
  then [mkProtocolStr "http" "http"; mkProtocolStr "https" "https"]
  else if protocol =? ProtocolHTTPToHTTPS
  then [mkProtocolStr "http" "https"; mkProtocolStr "https" "https"]
  else [].

(** [s[len(prefix) : len(s)-len(suffix)]] panics when the prefix and the
    suffix overlap in [s]. *)
Definition trimLiteralRegex (s : string) : outcome (string * bool) :=
  let prefix := ".*\." in
  let suffix := "\..*" in
  if HasPrefix s prefix && HasSuffix s suffix then
    if (String.length s - String.length suffix <? String.length prefix)%nat
    then Panic "runtime error: slice bounds out of range"
    else Ok (take (String.length s - String.length suffix - String.length prefix)
                  (drop (String.length prefix) s), true)
  else Ok (s, false).

Definition buildFrom (protocol pattern : string) (patternLiteralRegex : bool)
    (host dsType cdnDomain : string) : string :=
  if negb patternLiteralRegex then protocol +:+ "://" +:+ pattern
  else if HasPrefix dsType "http"
  then protocol +:+ "://" +:+ host +:+ "." +:+ pattern +:+ "." +:+ cdnDomain
  else protocol +:+ "://" +:+ "edge." +:+ pattern +:+ "." +:+ cdnDomain.

Definition DeliveryServiceQueryStringCacheAndRemap : Z := 0.
Definition DeliveryServiceQueryStringNoCacheRemap : Z := 1.
Definition DeliveryServiceQueryStringNoCacheNoRemap : Z := 2.

Definition getQueryStringRule (dsQstringIgnore : Z) : outcome remapdata.QueryStringRule :=
  if dsQstringIgnore =? DeliveryServiceQueryStringCacheAndRemap
  then Ok (remapdata.mkQueryStringRule true true)
  else if dsQstringIgnore =? DeliveryServiceQueryStringNoCacheRemap
  then Ok (remapdata.mkQueryStringRule true true)
  else if dsQstringIgnore =? DeliveryServiceQueryStringNoCacheNoRemap
  then Ok (remapdata.mkQueryStringRule false false)
  else Err ("unknown delivery service qstringIgnore value '" +:+ Itoa dsQstringIgnore +:+ "'").

Definition DefaultRetryCodes : gset Z := ∅.

(** [DefaultRuleWeight] is the float [1.0]; [DefaultTimeout] is
    [time.Millisecond * 5000], in nanoseconds. *)
Definition DefaultRuleWeight : Z := 1.
Definition DefaultRetryNum : Z := 5.
Definition DefaultTimeout : Z := 1000000 * 5000.
Definition DefaultRuleConnectionClose : bool := false.
Definition DefaultRuleParentSelection : remapdata.ParentSelectionType :=
  remapdata.ParentSelectionTypeConsistentHash.

Fixpoint makeAllowIPLoop (ips : list string) : outcome (list net.IPNet) :=
  match ips with
  | [] => Ok []
  | ip :: rest =>
      let ip := TrimSpace ip in
      let ip :=
        if negb (Contains ip "/") then
          if Contains ip ":" then ip +:+ "/128" else ip +:+ "/32"
        else ip in
      match net.ParseCIDR ip with
      | None => Err ("error parsing CIDR '" +:+ ip +:+ "': invalid CIDR address: " +:+ ip)
      | Some cidrnet => cidrs ← makeAllowIPLoop rest; Ok (cidrnet :: cidrs)
      end
  end.

Definition makeAllowIP (ips : list string) : outcome (list net.IPNet) :=
  makeAllowIPLoop ips.

Definition getAllowIP (params : list tc.Parameter_) : outcome (list net.IPNet) :=
  makeAllowIP
    (flat_map
       (fun param =>
          if ((tc.ParamName param =? "allow_ip")%string || (tc.ParamName param =? "allow_ip6")%string)
             && (tc.ConfigFile param =? "astats.config")%string
          then Split (tc.Value param) ","
          else [])
       params).

Definition getCertFileName (cert : tc.CDNSSLKeys) (dir : string) : string :=
  dir +:+ "/" +:+ ReplaceAll (tc.Hostname cert) "*." "" +:+ ".crt".

Definition getCertKeyFileName (cert : tc.CDNSSLKeys) (dir : string) : string :=
  dir +:+ "/" +:+ ReplaceAll (tc.Hostname cert) "*." "" +:+ ".key".

(** *** makeACL *)

(** The loop [for !start.Mask(mask).Equal(end.Mask(mask)) { maskBits--; mask
    = net.CIDRMask(maskBits, allBits) }], unrolled at most [fuel] times: the
    prefix length it stops at, [None] when [fuel] tests of the condition
    were not enough. *)
Fixpoint maskLoop (fuel : nat) (allBits maskBits : Z) (start end_ : net.IP) : option Z :=
  match fuel with
  | O => None
  | S fuel' =>
      let mask := net.CIDRMask maskBits allBits in
      if negb (net.Equal (net.Mask start mask) (net.Mask end_ mask))
      then maskLoop fuel' allBits (maskBits - 1) start end_
      else Some maskBits
  end.

(** [allBits] of the loop body. *)
Definition allBitsOf (allowStr : string) : Z :=
  if Contains allowStr ":" then 128 else 32.

(** The body of [for _, allowStr := range remaps[1:]]: the network that one
    token adds to [allow]. *)
Definition aclEntry (fuel : nat) (remapTxt allowStr : string) : outcome net.IPNet :=
  let allBits := allBitsOf allowStr in
  if Contains allowStr "-" then
    match Split (TrimPrefix allowStr "@src_ip=") "-" with
    | startAddrStr :: endAddrStr :: _ =>
        match net.ParseIP startAddrStr, net.ParseIP endAddrStr with
        | Some start, Some end_ =>
            match maskLoop fuel allBits allBits start end_ with
            | None => OutOfFuel
            | Some maskBits =>
                let mask := net.CIDRMask maskBits allBits in
                Ok (net.mkIPNet (net.Mask start mask) mask)
            end
        | _, _ => Err ("error parsing allow string: " +:+ allowStr +:+ ", " +:+ remapTxt)
        end
    | _ => Err ("malformed remapTxt '" +:+ remapTxt +:+ "'")
    end
  else
    let addrStr := Trim allowStr "@src_ip=" in
    match net.ParseIP addrStr with
    | None => Err ("error parsing allow string: " +:+ allowStr +:+ ", " +:+ remapTxt)
    | Some addr =>
        let mask := net.CIDRMask allBits allBits in
        Ok (net.mkIPNet (net.Mask addr mask) mask)
    end.

Fixpoint aclLoop (fuel : nat) (remapTxt : string) (remaps : list string)
    (allow : list net.IPNet) : outcome (list net.IPNet) :=
  match remaps with
  | [] => Ok allow
  | allowStr :: rest =>
      ipnet ← aclEntry fuel remapTxt allowStr;
      aclLoop fuel remapTxt rest (allow ++ [ipnet])
  end.

Definition makeACLWithin (fuel : nat) (remapTxt : string) : outcome (list net.IPNet) :=
  let remapTxt := Join (Fields remapTxt) " " in
  if HasPrefix remapTxt "@action=allow" then
    let remaps := Split remapTxt " " in
    if (length remaps <? 2)%nat then Err ("malformed remapTxt '" +:+ remapTxt +:+ "'")
    else aclLoop fuel remapTxt (skipn 1 remaps) []
  else Ok [].

(** One test of the loop condition for every prefix length from 128 down to
    0; no input needs more, as is proved below. *)
Definition maskLoopBound : nat := 129.

Definition makeACL (remapTxt : string) : outcome (list net.IPNet) :=
  makeACLWithin maskLoopBound remapTxt.

(** *** makeModHdrs *)

(** The variables the line loop of [makeModHdrs] updates. *)
Record hdrState : Type := mkHdrState {
  toOrigin : bool;
  toClientList : web.ModHdrs;
  toOriginList : web.ModHdrs
}.

Definition malformedLine (line : string) : string :=
  "edge header rewrite: malformed line '" +:+ line +:+ "'".

Definition addSet (hdr : web.Hdr) (l : web.ModHdrs) : web.ModHdrs :=
  web.mkModHdrs (web.Set_ l ++ [hdr]) (web.Drop l).

Definition addDrop (name : string) (l : web.ModHdrs) : web.ModHdrs :=
  web.mkModHdrs (web.Set_ l) (web.Drop l ++ [name]).

(** One iteration of [for _, line := range strings.Split(edgeHRW,
    "__RETURN__")]. *)
Definition hdrLine (line : string) (st : hdrState) : outcome hdrState :=
  let line := TrimSuffix line "[L]" in
  match Fields line with
  | [] => Ok st
  | [_] => Err (malformedLine line)
  | part0 :: part1 :: more =>
      if (part0 =? "cond")%string then
        let st :=
          if (part1 =? "%{SEND_RESPONSE_HDR_HOOK}")%string
          then mkHdrState false (toClientList st) (toOriginList st) else st in
        let st :=
          if (part1 =? "%{SEND_REQUEST_HDR_HOOK}")%string
          then mkHdrState true (toClientList st) (toOriginList st) else st in
        Ok st
      else if (part0 =? "set-header")%string || (part0 =? "add-header")%string then
        match more with
        | [] => Err (malformedLine line)
        | _ =>
            let hdr := web.mkHdr part1 (Join more " ") in
            if toOrigin st
            then Ok (mkHdrState (toOrigin st) (toClientList st) (addSet hdr (toOriginList st)))
            else Ok (mkHdrState (toOrigin st) (addSet hdr (toClientList st)) (toOriginList st))
        end
      else if (part0 =? "rm-header")%string then
        if toOrigin st
        then Ok (mkHdrState (toOrigin st) (toClientList st) (addDrop part1 (toOriginList st)))
        else Ok (mkHdrState (toOrigin st) (addDrop part1 (toClientList st)) (toOriginList st))
      else Ok st
  end.

Fixpoint hdrLines (lines : list string) (st : hdrState) : outcome hdrState :=
  match lines with
  | [] => Ok st
  | line :: rest => st' ← hdrLine line st; hdrLines rest st'
  end.

(** Returns the client header modifications and the origin header
    modifications.  (The source also normalizes the white space of
    [remapTXT], and does not read it afterwards.) *)
Definition makeModHdrs (edgeHRW remapTXT : string) : outcome (web.ModHdrs * web.ModHdrs) :=
  if (edgeHRW =? "")%string && (remapTXT =? "")%string then Ok (web.noModHdrs, web.noModHdrs)
  else
    let edgeHRW := Join (Fields edgeHRW) " " in
    if Contains edgeHRW "-header" then
      st ← hdrLines (Split edgeHRW "__RETURN__") (mkHdrState true web.noModHdrs web.noModHdrs);
      Ok (toClientList st, toOriginList st)
    else Ok (web.noModHdrs, web.noModHdrs).

(** *** createRulesOld *)

Section assembler.
Context `{External}.

Definition dsTypeSkipsMid (ttype : string) : bool :=
  let ttype := ToLower ttype in
  if (ttype =? "http_no_cache")%string || (ttype =? "http_live")%string
     || (ttype =? "dns_live")%string
  then true
  else if Contains ttype "live" && negb (Contains ttype "natnl") then true
  else false.

(** Returns the to URL, and the Proxy URL (if any). *)
Definition buildTo (parentServer : tc.Server) (protocol originURI dsType : string)
  : string * string :=
  let to := originURI in
  let proxy :=
    if negb (dsTypeSkipsMid dsType)
    then "http://" +:+ tc.HostName parentServer +:+ "." +:+ tc.DomainName parentServer
         +:+ ":" +:+ Itoa (tc.TCPPort parentServer)
    else "" in
  (to, proxy).

(** The arguments of [createRulesOld] that its loops only read. *)
Variable hostname : string.
Variable parents : list tc.Server.
Variable dsRegexes : gmap string (list tc.DeliveryServiceRegex).
Variable cdns : gmap string tc.CDN.
Variable dsCerts : gmap string tc.CDNSSLKeys.
Variable certDir : string.

(** What the delivery-service loop has computed when it reaches the rules
    of one delivery service. *)
Record dsContext : Type := mkDsContext {
  ctxDs : tc.DeliveryService;
  ctxQueryStringRule : remapdata.QueryStringRule;
  ctxCdn : tc.CDN;
  ctxCert : option tc.CDNSSLKeys;
  ctxDsType : string;
  ctxToClientHeaders : web.ModHdrs;
  ctxToOriginHeaders : web.ModHdrs;
  ctxAcl : list net.IPNet
}.

(** The assignments to [rule] in the body of [for _, parent := range
    parents], after [ruleTo] has been built. *)
Definition addParent (ctx : dsContext) (ruleTo : remapdata.RemapRuleTo)
    (rule : remapdata.RemapRule) : remapdata.RemapRule :=
  {| remapdata.Name := remapdata.Name rule;
     remapdata.From := remapdata.From rule;
     remapdata.CertificateFile := remapdata.CertificateFile rule;
     remapdata.CertificateKeyFile := remapdata.CertificateKeyFile rule;
     remapdata.To := remapdata.To rule ++ [ruleTo];
     remapdata.RetryNum := Some DefaultRetryNum;
     remapdata.Timeout := Some DefaultTimeout;
     remapdata.RetryCodes := DefaultRetryCodes;
     remapdata.QueryString := ctxQueryStringRule ctx;
     remapdata.DSCP := tc.DSCP (ctxDs ctx);
     remapdata.ConnectionClose := DefaultRuleConnectionClose;
     remapdata.ParentSelection := Some DefaultRuleParentSelection;
     remapdata.Allow := ctxAcl ctx;
     remapdata.Plugins :=
       <["modify_parent_request_headers" := ctxToOriginHeaders ctx]>
         (<["modify_headers" := ctxToClientHeaders ctx]> ∅);
     remapdata.PluginsShared :=
       <[RemapTextKey := json_Marshal (tc.RemapText (ctxDs ctx))]>
         (remapdata.PluginsShared rule) |}.

Fixpoint parentLoop (ctx : dsContext) (protocolStr : ProtocolStr)
    (ps : list tc.Server) (rule : remapdata.RemapRule) : outcome remapdata.RemapRule :=
  match ps with
  | [] => Ok rule
  | parent :: rest =>
      let '(to, proxyURLStr) :=
        buildTo parent (PTo protocolStr) (tc.OrgServerFQDN (ctxDs ctx)) (ctxDsType ctx) in
      match url_Parse proxyURLStr with
      | None =>
          Err ("error parsing deliveryservice " +:+ tc.XMLID (ctxDs ctx) +:+ " parent "
               +:+ tc.HostName parent +:+ " proxy_url: " +:+ proxyURLStr)
      | Some proxyURL =>
          let ruleTo :=
            {| remapdata.ToURL := to;
               remapdata.ToWeight := Some DefaultRuleWeight;
               remapdata.ToRetryNum := Some DefaultRetryNum;
               remapdata.ToProxyURL := proxyURL;
               remapdata.ToRetryCodes := DefaultRetryCodes;
               remapdata.ToTimeout := Some DefaultTimeout |} in
          parentLoop ctx protocolStr rest (addParent ctx ruleTo rule)
      end
  end.

(** [rule] as it is when the parent loop starts: the zero [RemapRule] with
    its name, its [From], its certificate files and an empty
    [PluginsShared]. *)
Definition newRule (ctx : dsContext) (protocolStr : ProtocolStr)
    (pattern : string) (patternLiteralRegex : bool) : remapdata.RemapRule :=
  let useCert :=
    match ctxCert ctx with
    | Some cert => if (PFrom protocolStr =? "https")%string then Some cert else None
    | None => None
    end in
  {| remapdata.Name :=
       tc.XMLID (ctxDs ctx) +:+ "." +:+ PFrom protocolStr +:+ "." +:+ PTo protocolStr
       +:+ "." +:+ pattern;
     remapdata.From :=
       buildFrom (PFrom protocolStr) pattern patternLiteralRegex hostname (ctxDsType ctx)
                 (tc.CDNDomainName (ctxCdn ctx));
     remapdata.CertificateFile :=
       match useCert with Some cert => getCertFileName cert certDir | None => "" end;
     remapdata.CertificateKeyFile :=
       match useCert with Some cert => getCertKeyFileName cert certDir | None => "" end;
     remapdata.To := [];
     remapdata.RetryNum := None;
     remapdata.Timeout := None;
     remapdata.RetryCodes := ∅;
     remapdata.QueryString := remapdata.mkQueryStringRule false false;
     remapdata.DSCP := 0;
     remapdata.ConnectionClose := false;
     remapdata.ParentSelection := None;
     remapdata.Allow := [];
     remapdata.Plugins := ∅;
     remapdata.PluginsShared := ∅ |}.

(** The body of [for _, dsRegex := range regexes]: the rule it appends. *)
Definition regexRule (ctx : dsContext) (protocolStr : ProtocolStr)
    (dsRegex : tc.DeliveryServiceRegex) : outcome remapdata.RemapRule :=
  '(pattern, patternLiteralRegex) ← trimLiteralRegex (tc.Pattern dsRegex);
  parentLoop ctx protocolStr parents (newRule ctx protocolStr pattern patternLiteralRegex).

Fixpoint regexLoop (ctx : dsContext) (protocolStr : ProtocolStr)
    (regexes : list tc.DeliveryServiceRegex) : outcome (list remapdata.RemapRule) :=
  match regexes with
  | [] => Ok []
  | dsRegex :: rest =>
      rule ← regexRule ctx protocolStr dsRegex;
      rules ← regexLoop ctx protocolStr rest;
      Ok (rule :: rules)
  end.

Fixpoint protocolLoop (ctx : dsContext) (pstrs : list ProtocolStr)
  : outcome (list remapdata.RemapRule) :=
  match pstrs with
  | [] => Ok []
  | protocolStr :: rest =>
      match dsRegexes !! tc.XMLID (ctxDs ctx) with
      | None => Err ("deliveryservice '" +:+ tc.XMLID (ctxDs ctx) +:+ "' has no regexes")
      | Some regexes =>
          rules ← regexLoop ctx protocolStr regexes;
          rules' ← protocolLoop ctx rest;
          Ok (rules ++ rules')
      end
  end.

Definition typeRecognized (dsType : string) : bool :=
  HasPrefix dsType "http" || HasPrefix dsType "dns".

(** The body of [for _, ds := range dses]: the rules it appends to [rules];
    [continue] appends none, [return] of an error ends the run.  The
    certificate files the body writes and the lines it prints do not reach
    the value [createRulesOld] returns (a failed write is only printed) and
    are left out. *)
Definition dsRules (ds : tc.DeliveryService) : outcome (list remapdata.RemapRule) :=
  match getQueryStringRule (tc.QStringIgnore ds) with
  | Ok queryStringRule =>
      match cdns !! tc.CDNName ds with
      | None =>
          Err ("deliveryservice '" +:+ tc.XMLID ds +:+ "' CDN '" +:+ tc.CDNName ds
               +:+ "' not found")
      | Some cdn =>
          let dsType := ToLower (tc.Type_ ds) in
          if negb (typeRecognized dsType) then Ok []
          else
            match makeModHdrs (tc.EdgeHeaderRewrite ds) (tc.RemapText ds) with
            | Ok (toClientHeaders, toOriginHeaders) =>
                match makeACL (tc.RemapText ds) with
                | Ok acl =>
                    protocolLoop
                      (mkDsContext ds queryStringRule cdn (dsCerts !! tc.XMLID ds) dsType
                                   toClientHeaders toOriginHeaders acl)
                      (protocolStrs (tc.Protocol ds))
                | Err _ => Ok []
                | Panic msg => Panic msg
                | OutOfFuel => OutOfFuel
                end
            | Err msg =>
                Err ("Making headers for delivery service '" +:+ tc.XMLID ds +:+ "':" +:+ msg)
            | Panic msg => Panic msg
            | OutOfFuel => OutOfFuel
            end
      end
  | Err msg =>
      Err ("getting deliveryservice " +:+ tc.XMLID ds +:+ " Query String Rule: " +:+ msg)
  | Panic msg => Panic msg
  | OutOfFuel => OutOfFuel
  end.

Fixpoint dsLoop (dses : list tc.DeliveryService) (rules : list remapdata.RemapRule)
  : outcome (list remapdata.RemapRule) :=
  match dses with
  | [] => Ok rules
  | ds :: rest =>
      new ← dsRules ds;
      dsLoop rest (rules ++ new)
  end.

Definition globalPlugins : gmap string web.ModHdrs :=
  <["modify_response_headers_global" := web.mkModHdrs [web.mkHdr "Server" "Grove/0.33"] []]> ∅.

Definition createRulesOld_ (dses : list tc.DeliveryService) (hostParams : list tc.Parameter_)
  : outcome remapdata.RemapRules :=
  match getAllowIP hostParams with
  | Ok allowedIPs =>
      rules ← dsLoop dses [];
      Ok {| remapdata.Rules := rules;
            remapdata.RulesRetryCodes := DefaultRetryCodes;
            remapdata.RulesTimeout := Some DefaultTimeout;
            remapdata.RulesParentSelection := Some DefaultRuleParentSelection;
            remapdata.StatsAllow := allowedIPs;
            remapdata.RulesPlugins := globalPlugins |}
  | Err msg => Err ("getting allowed IPs: " +:+ msg)
  | Panic msg => Panic msg
  | OutOfFuel => OutOfFuel
  end.

End assembler.

Definition createRulesOld `{External} (hostname : string) (dses : list tc.DeliveryService)
    (parents : list tc.Server) (dsRegexes : gmap string (list tc.DeliveryServiceRegex))
    (cdns : gmap string tc.CDN) (hostParams : list tc.Parameter_)
    (dsCerts : gmap string tc.CDNSSLKeys) (certDir : string)
  : outcome remapdata.RemapRules :=
  createRulesOld_ hostname parents dsRegexes cdns dsCerts certDir dses hostParams.

(** *** The entity index and the parents of the target host *)

Definition AvailableStatuses : gset string := {[ "reported"; "online" ]}.

Definition makeServersHostnameMap (servers : list tc.Server) : gmap string tc.Server :=
  foldl (fun m server => <[tc.HostName server := server]> m) ∅ servers.

Definition makeCachegroupsNameMap (cgs : list tc.CacheGroup) : gmap string tc.CacheGroup :=
  foldl (fun m cg => <[tc.CacheGroupName cg := cg]> m) ∅ cgs.

Definition makeDeliveryservicesXMLIDMap (dses : list tc.DeliveryService)
  : gmap string tc.DeliveryService :=
  foldl (fun m ds => <[tc.XMLID ds := ds]> m) ∅ dses.

Definition makeDeliveryserviceRegexMap (dsrs : list tc.DeliveryServiceRegexes)
  : gmap string (list tc.DeliveryServiceRegex) :=
  foldl (fun m dsr => <[tc.DSName dsr := tc.Regexes dsr]> m) ∅ dsrs.

(** The records above leave out the fields [ID] of a delivery service and of
    a server, [Name] of a CDN and [DeliveryService] of an SSL key record.
    The functions that read nothing else of a record take the record type
    and the field as arguments. *)
Definition makeDeliveryservicesIDMap {DS : Type} (ID : DS -> Z) (dses : list DS) : gmap Z DS :=
  foldl (fun m ds => <[ID ds := ds]> m) ∅ dses.

Definition makeCDNMap {CDN : Type} (Name : CDN -> string) (cdns : list CDN) : gmap string CDN :=
  foldl (fun m cdn => <[Name cdn := cdn]> m) ∅ cdns.

Definition makeDSCertMap {Keys : Type} (DeliveryService : Keys -> string) (sslKeys : list Keys)
  : gmap string Keys :=
  foldl (fun m sslkey => <[DeliveryService sslkey := sslkey]> m) ∅ sslKeys.

(** The loop of [getServerDeliveryservices] over the assignments.
    [pointerText dssrv] is what [%v] prints for the pointer
    [dssrv.DeliveryService] in the error message: an address, which the
    run decides. *)
Fixpoint serverDsesLoop {DS : Type} (pointerText : tc.DeliveryServiceServer -> string)
    (dsByID : gmap Z DS) (serverID : Z)
    (dssrvs : list tc.DeliveryServiceServer) (serverDses : list DS) : outcome (list DS) :=
  match dssrvs with
  | [] => Ok serverDses
  | dssrv :: rest =>
      match tc.DssServer dssrv, tc.DssDeliveryService dssrv with
      | None, _ => serverDsesLoop pointerText dsByID serverID rest serverDses
      | Some _, None => serverDsesLoop pointerText dsByID serverID rest serverDses
      | Some dssrvServer, Some dssrvDeliveryService =>
          if negb (dssrvServer =? serverID)
          then serverDsesLoop pointerText dsByID serverID rest serverDses
          else
            match dsByID !! dssrvDeliveryService with
            | None =>
                Err ("delivery service ID " +:+ pointerText dssrv
                     +:+ " not found in Traffic Ops DeliveryServices")
            | Some ds =>
                serverDsesLoop pointerText dsByID serverID rest (serverDses ++ [ds])
            end
      end
  end.

Definition getServerDeliveryservices {Server DS : Type} (ServerID : Server -> Z) (ID : DS -> Z)
    (pointerText : tc.DeliveryServiceServer -> string) (hostname : string)
    (servers : gmap string Server) (dssrvs : list tc.DeliveryServiceServer) (dses : list DS)
  : outcome (list DS) :=
  match servers !! hostname with
  | None => Err ("server " +:+ hostname +:+ " not found in Traffic Ops Servers")
  | Some server =>
      serverDsesLoop pointerText (makeDeliveryservicesIDMap ID dses) (ServerID server) dssrvs []
  end.

(** The two filters of [createRulesOldAPI]. *)
Definition sameCDN (hostServer s : tc.Server) : bool :=
  (tc.ServerCDNName s =? tc.ServerCDNName hostServer)%string.

Definition serverAvailable `{External} (s : tc.Server) : bool :=
  let status := ToLower (tc.Status s) in
  bool_decide (status ∈ AvailableStatuses).

End grovetccfg.

(** ** A sample environment, for running the compiler on concrete inputs *)

Module sample.
Import strings.

Fixpoint asciiToLower (s : string) : string :=
  match s with
  | EmptyString => EmptyString
  | String c s' => String (lowerByte c) (asciiToLower s')
  end.

(** [strings.ToLower] on ASCII text; every proxy URL parses; the JSON text of
    a string is the string itself. *)
Definition external : External :=
  {| ToLower := asciiToLower;
     url_Parse := fun s => Some s;
     json_Marshal := fun s => s;
     RemapTextKey := "remap_text" |}.

Definition ds (xmlid cdn : string) (protocol qstring : Z) (type hdr remap : string)
  : tc.DeliveryService :=
  tc.mkDeliveryService xmlid cdn protocol qstring type hdr remap "http://origin.example" 0.

Definition cdns : gmap string tc.CDN := {[ "cdn1" := tc.mkCDN "cdn.example" ]}.

Definition regexes : gmap string (list tc.DeliveryServiceRegex) :=
  {[ "ds1" := [tc.mkDeliveryServiceRegex ".*\.one\..*"; tc.mkDeliveryServiceRegex "two.example"];
     "ds2" := [tc.mkDeliveryServiceRegex ".*\.three\..*"] ]}.

Definition mid : tc.Server := tc.mkServer "mid0" "example" 80 "mids" "cdn1" "REPORTED".
Definition edge : tc.Server := tc.mkServer "edge0" "example" 80 "edges" "cdn1" "REPORTED".

Definition servers : gmap string tc.Server := {[ "edge0" := edge; "mid0" := mid ]}.

Definition cachegroups : gmap string tc.CacheGroup :=
  {[ "edges" := tc.mkCacheGroup "edges" "mids"; "mids" := tc.mkCacheGroup "mids" "origins" ]}.

Definition dir : string := "/etc/grove/ssl".

Definition run (dses : list tc.DeliveryService) (parents : list tc.Server)
  : outcome remapdata.RemapRules :=
  @grovetccfg.createRulesOld external "edge0" dses parents regexes cdns [] ∅ dir.

Definition dsRules (parents : list tc.Server) (d : tc.DeliveryService)
  : outcome (list remapdata.RemapRule) :=
  @grovetccfg.dsRules external "edge0" parents regexes cdns ∅ dir d.

Definition dsLoop (parents : list tc.Server) (dses : list tc.DeliveryService)
  : outcome (list remapdata.RemapRule) :=
  @grovetccfg.dsLoop external "edge0" parents regexes cdns ∅ dir dses [].

(** Delivery services: two that compile, and one for each way to fail. *)
Definition dual : tc.DeliveryService := ds "ds1" "cdn1" 2 0 "HTTP" "" "".
Definition upgrade : tc.DeliveryService := ds "ds2" "cdn1" 3 2 "DNS" "" "".
Definition unknownType : tc.DeliveryService := ds "ds1" "cdn1" 2 0 "UNKNOWN_TYPE" "" "".
Definition unknownTypeBadHeader : tc.DeliveryService :=
  ds "ds1" "cdn1" 2 0 "UNKNOWN_TYPE" "set-header X-Only" "".
Definition badACL : tc.DeliveryService := ds "ds1" "cdn1" 2 0 "HTTP" "" "@action=allow 10.0.0.300".
Definition badHeader : tc.DeliveryService := ds "ds1" "cdn1" 2 0 "HTTP" "set-header X-Only" "".
Definition badQString : tc.DeliveryService := ds "ds1" "cdn1" 2 3 "HTTP" "" "".
Definition noCDN : tc.DeliveryService := ds "ds1" "nocdn" 2 0 "HTTP" "" "".
Definition noRegexes : tc.DeliveryService := ds "ds9" "cdn1" 2 0 "HTTP" "" "".

Definition ruleNames (r : outcome remapdata.RemapRules) : outcome (list string) :=
  rules ← r; Ok (map remapdata.Name (remapdata.Rules rules)).

End sample.

(** ** Vocabulary of the statements below *)

(** [occurs c s]: the byte [c] occurs in [s]. *)
Fixpoint occurs (c : ascii) (s : string) : bool :=
  match s with
  | EmptyString => false
  | String a s' => Ascii.eqb a c || occurs c s'
  end.

(** [start] and [end_] fall into one network of prefix length [q]: the
    negation of the loop condition at [maskBits = q]. *)
Definition sameNet (allBits : Z) (start end_ : net.IP) (q : Z) : bool :=
  net.Equal (net.Mask start (net.CIDRMask q allBits)) (net.Mask end_ (net.CIDRMask q allBits)).

(** [malformed line]: what is left of [line] when a trailing [[L]] is cut
    off has exactly one token, or has exactly two and the first is
    [set-header] or [add-header]. *)
Definition malformed (line : string) : bool :=
  match strings.Fields (strings.TrimSuffix line "[L]") with
  | [_] => true
  | [part0; _] => (part0 =? "set-header")%string || (part0 =? "add-header")%string
  | _ => false
  end.

(** [isPrefixOf p s]: [s] starts with [p]; [isSubstringOf t s]: [t] occurs
    in [s]. *)
Definition isPrefixOf (p s : string) : Prop := exists b, s = p +:+ b.
Definition isSubstringOf (t s : string) : Prop := exists a b, s = a +:+ t +:+ b.

(** [assignedTo serverID dssrv]: the assignment names the server and a
    delivery service, so [getServerDeliveryservices] does not step over
    it. *)
Definition assignedTo (serverID : Z) (dssrv : tc.DeliveryServiceServer) : Prop :=
  tc.DssServer dssrv = Some serverID /\ tc.DssDeliveryService dssrv <> None.

#[global] Instance assignedTo_dec (serverID : Z) (dssrv : tc.DeliveryServiceServer) :
  Decision (assignedTo serverID dssrv).
Proof. unfold assignedTo. apply _. Defined.

(** [overlapping regexes]: one of the regexes is the pattern on which
    [trimLiteralRegex] slices out of range. *)
Definition overlapping (regexes : list tc.DeliveryServiceRegex) : Prop :=
  exists dsRegex, dsRegex ∈ regexes /\ tc.Pattern dsRegex = ".*\..*".

(** [responseHook line]: the line is a [cond] line that names the response
    hook, after which the directives are client-bound. *)
Definition responseHook (line : string) : bool :=
  match strings.Fields (strings.TrimSuffix line "[L]") with
  | part0 :: part1 :: _ =>
      (part0 =? "cond")%string && (part1 =? "%{SEND_RESPONSE_HDR_HOOK}")%string
  | _ => false
  end.

(** [allowParam param]: [getAllowIP] reads the parameter. *)
Definition allowParam (param : tc.Parameter_) : bool :=
  ((tc.ParamName param =? "allow_ip")%string || (tc.ParamName param =? "allow_ip6")%string)
  && (tc.ConfigFile param =? "astats.config")%string.

(** [cidrText ip]: the text that [makeAllowIP] hands to [net.ParseCIDR] for
    the entry [ip]. *)
Definition cidrText (ip : string) : string :=
  let ip := strings.TrimSpace ip in
  if negb (strings.Contains ip "/") then
    if strings.Contains ip ":" then ip +:+ "/128" else ip +:+ "/32"
  else ip.

(** [isDigit c]: a decimal digit; [ipv4Byte c]: a decimal digit or a
    dot. *)
Definition isDigit (c : ascii) : bool := (48 <=? net.byteOf c) && (net.byteOf c <=? 57).
Definition ipv4Byte (c : ascii) : bool := isDigit c || Ascii.eqb c "."%char.

(** [octet x]: [x] is the value of a byte. *)
Definition octet (x : Z) : Prop := 0 <= x <= 255.

(** ** The model on concrete inputs *)

Section examples.
Import strings net grovetccfg.

Example Fields_ex : Fields "  a b   c  " = ["a"; "b"; "c"].
Proof. reflexivity. Qed.

Example Split_ex :
  Split "a__RETURN__b__RETURN__" "__RETURN__" = ["a"; "b"; ""] /\ Split "" "-" = [""].
Proof. split; reflexivity. Qed.

Example Trim_ex :
  Trim "@src_ip=2001:db8::c" "@src_ip=" = "2001:db8::"
  /\ TrimPrefix "@src_ip=2001:db8::c" "@src_ip=" = "2001:db8::c".
Proof. split; reflexivity. Qed.

Example TrimSuffix_ex : TrimSuffix "set-header a b [L]" "[L]" = "set-header a b ".
Proof. reflexivity. Qed.

Example ReplaceAll_ex : ReplaceAll "*.foo.*.bar" "*." "" = "foo.bar".
Proof. reflexivity. Qed.

Example Itoa_ex : Itoa 8080 = "8080" /\ Itoa 0 = "0" /\ Itoa (-5) = "-5".
Proof. repeat split; reflexivity. Qed.

Example TrimSpace_ex : TrimSpace "  1.2.3.4  " = "1.2.3.4".
Proof. reflexivity. Qed.

Example ParseIP_ex :
  ParseIP "192.168.1.5" = Some (IPv4 192 168 1 5)
  /\ ParseIP "2001:db8::1" = Some [32; 1; 13; 184; 0; 0; 0; 0; 0; 0; 0; 0; 0; 0; 0; 1]
  /\ ParseIP "::ffff:10.0.0.1" = Some (IPv4 10 0 0 1)
  /\ ParseIP "1::2:3" = Some [0; 1; 0; 0; 0; 0; 0; 0; 0; 0; 0; 0; 0; 2; 0; 3]
  /\ ParseIP "::" = Some (replicate 16 0)
  /\ ParseIP "1:2:3:4:5:6:7:8" = Some [0; 1; 0; 2; 0; 3; 0; 4; 0; 5; 0; 6; 0; 7; 0; 8]
  /\ ParseIP "1:2:3:4:5:6:7::" = Some [0; 1; 0; 2; 0; 3; 0; 4; 0; 5; 0; 6; 0; 7; 0; 0]
  /\ ParseIP "1:2:3:4:5:6:1.2.3.4" = Some [0; 1; 0; 2; 0; 3; 0; 4; 0; 5; 0; 6; 1; 2; 3; 4].
Proof. repeat split; reflexivity. Qed.

Example ParseIP_rejects :
  ParseIP "1.2.3" = None /\ ParseIP "1:2" = None /\ ParseIP "1:2:3:4:5:6:7:8::" = None
  /\ ParseIP "256.1.1.1" = None /\ ParseIP "1.2.3.4.5" = None /\ ParseIP "10.0.0.300" = None.
Proof. repeat split; reflexivity. Qed.

Example CIDRMask_ex :
  CIDRMask 29 32 = [255; 255; 255; 248] /\ CIDRMask 0 32 = [0; 0; 0; 0]
  /\ CIDRMask (-1) 32 = [] /\ CIDRMask 33 32 = [].
Proof. repeat split; reflexivity. Qed.

Example ParseCIDR_ex : ParseCIDR "10.1.2.3/8" = Some (mkIPNet [10; 0; 0; 0] [255; 0; 0; 0]).
Proof. reflexivity. Qed.

Example makeACL_ex :
  makeACL "@action=allow" = Err "malformed remapTxt '@action=allow'"
  /\ makeACL "foo" = Ok []
  /\ makeACL "@action=allow 1.2.3" = Err "error parsing allow string: 1.2.3, @action=allow 1.2.3".
Proof. vm_compute. auto. Qed.

Example makeModHdrs_ex :
  makeModHdrs
    "cond %{SEND_RESPONSE_HDR_HOOK} __RETURN__ set-header X-Test foo [L]__RETURN__rm-header Y" ""
  = Ok (web.mkModHdrs [web.mkHdr "X-Test" "foo"] ["Y"], web.noModHdrs).
Proof. vm_compute. reflexivity. Qed.

Example getParents_ex :
  getParents "edge0" sample.servers sample.cachegroups = Ok [sample.mid]
  /\ getParents "mid0" sample.servers sample.cachegroups = Ok [].
Proof. vm_compute. auto. Qed.

(** The one pattern in which the literal prefix and suffix overlap. *)
Example trimLiteralRegex_ex :
  trimLiteralRegex ".*\..*" = Panic "runtime error: slice bounds out of range"
  /\ trimLiteralRegex ".*\.\..*" = Ok ("", true)
  /\ trimLiteralRegex ".*\.one\..*" = Ok ("one", true)
  /\ trimLiteralRegex "two.example" = Ok ("two.example", false).
Proof. vm_compute. auto. Qed.

Example run_names :
  sample.ruleNames (sample.run [sample.dual; sample.upgrade] [sample.mid])
  = Ok ["ds1.http.http.one"; "ds1.http.http.two.example"; "ds1.https.https.one";
        "ds1.https.https.two.example"; "ds2.http.https.three"; "ds2.https.https.three"].
Proof. vm_compute. reflexivity. Qed.

(** With a parent the rule has its proxy URL and the compiled query-string
    policy; without any parent it has no destination and keeps the zero
    policy. *)
Example run_parents :
  (rules ← sample.dsRules [sample.mid] (sample.ds "ds2" "cdn1" 0 0 "HTTP" "" "");
   Ok (map (fun r => (remapdata.From r, map remapdata.ToProxyURL (remapdata.To r),
                      remapdata.QueryString r)) rules))
  = Ok [("http://edge0.three.cdn.example", ["http://mid0.example:80"],
         remapdata.mkQueryStringRule true true)]
  /\ (rules ← sample.dsRules [] (sample.ds "ds2" "cdn1" 0 0 "HTTP" "" "");
      Ok (map (fun r => (remapdata.From r, map remapdata.ToProxyURL (remapdata.To r),
                         remapdata.QueryString r)) rules))
     = Ok [("http://edge0.three.cdn.example", [], remapdata.mkQueryStringRule false false)].
Proof. split; vm_compute; reflexivity. Qed.

(** A delivery service whose type is not recognized is skipped before its
    header policy is looked at. *)
Example run_unknown_type :
  isErr (makeModHdrs (tc.EdgeHeaderRewrite sample.unknownTypeBadHeader)
                     (tc.RemapText sample.unknownTypeBadHeader)) = true
  /\ sample.dsRules [sample.mid] sample.unknownTypeBadHeader = Ok []
  /\ sample.run [sample.unknownTypeBadHeader; sample.upgrade] [sample.mid]
     = sample.run [sample.upgrade] [sample.mid].
Proof. repeat split; vm_compute; reflexivity. Qed.

End examples.

(** ** Facts about addresses and masks *)

Section net_facts.
Import strings net.

Lemma cidrMaskBytes_length (l : nat) (n : Z) : length (cidrMaskBytes l n) = l.
Proof.
  revert n. induction l as [|l IH]; intros n; simpl; [done|].
  destruct (8 <=? n); simpl; by rewrite IH.
Qed.

Lemma cidrMaskBytes_zero (l : nat) : cidrMaskBytes l 0 = replicate l 0.
Proof. induction l as [|l IH]; simpl; [done|]. by rewrite IH. Qed.

Lemma CIDRMask_zero (bits : Z) :
  bits = 32 \/ bits = 128 -> CIDRMask 0 bits = replicate (Z.to_nat (bits / 8)) 0.
Proof.
  intros [-> | ->]; reflexivity.
Qed.

Lemma andBytes_zero (ip : list Z) : andBytes ip (replicate (length ip) 0) = replicate (length ip) 0.
Proof.
  induction ip as [|b ip IH]; simpl; [done|]. by rewrite Z.land_0_r, IH.
Qed.

Lemma andBytes_length (ip mask : list Z) :
  length ip = length mask -> length (andBytes ip mask) = length ip.
Proof.
  revert mask. induction ip as [|b ip IH]; intros [|m mask]; simpl; try done.
  intros Hl. f_equal. apply IH. lia.
Qed.

(** The all-zero mask of 128 bits sends every 16-byte address to zero. *)
Lemma Mask_zero_128 (ip : IP) :
  length ip = 16%nat -> Mask ip (CIDRMask 0 128) = replicate 16 0.
Proof.
  intros Hl.
  do 16 (destruct ip as [|? ip]; [simpl in Hl; lia|]).
  destruct ip; [|simpl in Hl; lia].
  unfold Mask, CIDRMask. simpl. by rewrite !Z.land_0_r.
Qed.

(** The all-zero mask of 32 bits sends every IPv4 address to zero. *)
Lemma Mask_zero_32 (a b c d : Z) : Mask (IPv4 a b c d) (CIDRMask 0 32) = replicate 4 0.
Proof.
  unfold Mask, CIDRMask, IPv4. simpl. by rewrite !Z.land_0_r.
Qed.

Lemma Equal_refl (ip : IP) : Equal ip ip = true.
Proof.
  unfold Equal. rewrite Nat.eqb_refl. unfold bytesEqual. by apply bool_decide_eq_true.
Qed.

(** *** What the parsers return *)

Lemma parseIPv4_form (s : string) (ip : IP) :
  parseIPv4 s = Some ip -> exists a b c d, ip = IPv4 a b c d.
Proof.
  unfold parseIPv4. intros Hp.
  destruct (parseIPv4Loop 4 0 s [0; 0; 0; 0]) as [[[|] p]|]; simplify_eq.
  eauto.
Qed.

Lemma IPv4_length (a b c d : Z) : length (IPv4 a b c d) = 16%nat.
Proof. reflexivity. Qed.

Lemma moveUp_length (c e n : nat) (ip : IP) : length (moveUp c e n ip) = length ip.
Proof.
  revert ip. induction c as [|c IH]; intros ip; cbn [moveUp]; [done|].
  rewrite IH. apply length_insert.
Qed.

Lemma zeroFill_length (c e : nat) (ip : IP) : length (zeroFill c e ip) = length ip.
Proof.
  revert ip. induction c as [|c IH]; intros ip; cbn [zeroFill]; [done|].
  rewrite IH. apply length_insert.
Qed.

Lemma parseIPv6Loop_length (k : nat) (s : string) (i : nat) (ip : IP) (ellipsis : option nat)
    (rest : string) (i' : nat) (ip' : IP) (ellipsis' : option nat) :
  parseIPv6Loop k s i ip ellipsis = Some (rest, i', ip', ellipsis') ->
  length ip' = length ip.
Proof.
  revert s i ip ellipsis.
  induction k as [|k IH]; intros s i ip ellipsis Hl; cbn [parseIPv6Loop] in Hl.
  - destruct (IPv6len <=? i)%nat; by simplify_eq.
  - destruct (IPv6len <=? i)%nat; [by simplify_eq|].
    destruct (xtoi s) as [[n r] ok].
    destruct (negb ok || (65535 <? n)); [done|].
    destruct (HasPrefix r ".").
    + repeat case_match; simplify_eq; by rewrite !length_insert.
    + repeat case_match; simplify_eq;
        try (by rewrite !length_insert);
        try (apply IH in Hl; by rewrite Hl, !length_insert).
Qed.

Lemma parseIPv6_length (s : string) (ip : IP) :
  parseIPv6 s = Some ip -> length ip = 16%nat.
Proof.
  unfold parseIPv6. intros Hp.
  repeat case_match; simplify_eq; try done;
    match goal with
    | Hl : parseIPv6Loop _ _ _ _ _ = Some _ |- _ => apply parseIPv6Loop_length in Hl
    end;
    rewrite ?zeroFill_length, ?moveUp_length; done.
Qed.

Lemma parseIPScan_length (s rest : string) (ip : IP) :
  parseIPScan s rest = Some ip -> length ip = 16%nat.
Proof.
  induction rest as [|c rest IH]; simpl; [done|].
  intros Hp. repeat case_match.
  - apply parseIPv4_form in Hp as (a & b & c' & d & ->). reflexivity.
  - by eapply parseIPv6_length.
  - by apply IH.
Qed.

(** Every address [net.ParseIP] returns has 16 bytes. *)
Lemma ParseIP_length (s : string) (ip : IP) : ParseIP s = Some ip -> length ip = 16%nat.
Proof. apply parseIPScan_length. Qed.

End net_facts.

(** ** Bytes of a string and of its pieces *)

Section byte_facts.
Import strings net.

Lemma Contains_byte (c : ascii) (s : string) :
  Contains s (String c EmptyString) = occurs c s.
Proof.
  induction s as [|a s IH]; simpl; [done|].
  rewrite IH. assert (HasPrefix s "" = true) as -> by (by destruct s).
  by rewrite andb_true_r.
Qed.

Lemma occurs_drop (c : ascii) (n : nat) (s : string) :
  occurs c (drop n s) = true -> occurs c s = true.
Proof.
  revert s. induction n as [|n IH]; intros [|a s]; simpl; try done.
  intros Ho. rewrite (IH _ Ho). apply orb_true_r.
Qed.

Lemma occurs_TrimPrefix (c : ascii) (s prefix : string) :
  occurs c (TrimPrefix s prefix) = true -> occurs c s = true.
Proof.
  unfold TrimPrefix. destruct (HasPrefix s prefix); [apply occurs_drop|done].
Qed.

Lemma occurs_splitFrom (c : ascii) (sep : string) (s : string) :
  forall (skip : nat) (piece : string),
    In piece (splitFrom sep skip s) -> occurs c piece = true -> occurs c s = true.
Proof.
  induction s as [|a s IH]; intros skip piece.
  - simpl. intros [<- | []]. done.
  - cbn [splitFrom]. destruct skip as [|k].
    + destruct (HasPrefix (String a s) sep).
      * intros [<- | Hin] Ho; [done|]. simpl. rewrite (IH _ _ Hin Ho). apply orb_true_r.
      * pose proof (IH 0%nat) as IH0.
        destruct (splitFrom sep 0 s) as [|p ps].
        -- intros [<- | []]. simpl. rewrite orb_false_r. by intros ->.
        -- intros [<- | Hin] Ho.
           ++ simpl in Ho. simpl. destruct (Ascii.eqb a c); [done|]. simpl in *.
              apply (IH0 p); [by left|done].
           ++ simpl. rewrite (IH0 piece); [apply orb_true_r|by right|done].
    + intros Hin Ho. simpl. rewrite (IH _ _ Hin Ho). apply orb_true_r.
Qed.

Lemma occurs_Split (c : ascii) (s sep piece : string) :
  In piece (Split s sep) -> occurs c piece = true -> occurs c s = true.
Proof. apply occurs_splitFrom. Qed.

(** Without a colon in [rest], the scan of [ParseIP] hands [s] to
    [parseIPv4]. *)
Lemma parseIPScan_no_colon (s rest : string) (ip : IP) :
  occurs ":"%char rest = false -> parseIPScan s rest = Some ip -> parseIPv4 s = Some ip.
Proof.
  induction rest as [|a rest IH]; simpl; [done|].
  intros [Ha Hr]%orb_false_elim.
  destruct (Ascii.eqb a "."%char); [done|].
  rewrite Ha. by apply IH.
Qed.

Lemma ParseIP_no_colon (s : string) (ip : IP) :
  occurs ":"%char s = false -> ParseIP s = Some ip -> exists a b c d, ip = IPv4 a b c d.
Proof.
  intros Hc Hp. apply parseIPScan_no_colon in Hp; [|done].
  by apply parseIPv4_form in Hp.
Qed.

End byte_facts.

(** ** The mask-widening loop of makeACL *)

Section widening.
Import strings net grovetccfg.

(** If the loop condition fails [n] steps below [m], the loop started at [m]
    stops within [n + 1] tests, at the first prefix length (counting down
    from [m]) where it fails. *)
Lemma maskLoop_stops (allBits : Z) (start end_ : IP) (n : nat) :
  forall (fuel : nat) (m : Z),
    sameNet allBits start end_ (m - Z.of_nat n) = true ->
    (n < fuel)%nat ->
    exists p, maskLoop fuel allBits m start end_ = Some p
              /\ m - Z.of_nat n <= p <= m
              /\ sameNet allBits start end_ p = true
              /\ forall q, p < q <= m -> sameNet allBits start end_ q = false.
Proof.
  induction n as [|n IH]; intros fuel m Hsame Hfuel;
    (destruct fuel as [|fuel]; [lia|]); cbn [maskLoop]; fold (sameNet allBits start end_ m).
  - replace (m - Z.of_nat 0) with m in Hsame by lia. rewrite Hsame. simpl.
    exists m. split; [done|]. split; [lia|]. split; [done|]. intros q Hq; lia.
  - destruct (sameNet allBits start end_ m) eqn:Hm; simpl.
    + exists m. split; [done|]. split; [lia|]. split; [done|]. intros q Hq; lia.
    + destruct (IH fuel (m - 1)) as (p & Hp & Hr & Hs & Hall); [|lia|].
      { replace (m - 1 - Z.of_nat n) with (m - Z.of_nat (S n)) by lia. done. }
      exists p. split; [done|]. split; [lia|]. split; [done|].
      intros q Hq. destruct (decide (q = m)) as [->|]; [done|]. apply Hall. lia.
Qed.

Lemma maskLoop_mono (allBits : Z) (start end_ : IP) (fuel fuel' : nat) :
  forall (m p : Z),
    maskLoop fuel allBits m start end_ = Some p -> (fuel <= fuel')%nat ->
    maskLoop fuel' allBits m start end_ = Some p.
Proof.
  revert fuel'. induction fuel as [|fuel IH]; intros fuel' m p; [done|].
  destruct fuel' as [|fuel']; [lia|]. cbn [maskLoop].
  destruct (negb _); [|done]. intros Hl Hle. apply IH; [done|lia].
Qed.

(** At prefix length 0 the two addresses of a range token are in one
    network: both are 16 bytes long, and when the token has no colon both are
    IPv4 addresses. *)
Lemma sameNet_zero (allowStr startAddrStr endAddrStr : string) (more : list string)
    (start end_ : IP) :
  Split (TrimPrefix allowStr "@src_ip=") "-" = startAddrStr :: endAddrStr :: more ->
  ParseIP startAddrStr = Some start ->
  ParseIP endAddrStr = Some end_ ->
  sameNet (allBitsOf allowStr) start end_ 0 = true.
Proof.
  intros Hsplit Hs He. unfold sameNet, allBitsOf.
  destruct (Contains allowStr ":") eqn:Hc.
  - rewrite !Mask_zero_128 by eauto using ParseIP_length. apply Equal_refl.
  - assert (Hno : forall piece, In piece [startAddrStr; endAddrStr] ->
                    occurs ":"%char piece = false).
    { intros piece Hin. destruct (occurs ":"%char piece) eqn:Ho; [|done].
      rewrite <- Hc. symmetry. change ":" with (String ":"%char EmptyString).
      rewrite Contains_byte. apply occurs_TrimPrefix with (prefix := "@src_ip=").
      apply occurs_Split with (sep := "-") (piece := piece); [|done].
      rewrite Hsplit. destruct Hin as [<- | [<- | []]]; [by left|by right; left]. }
    apply ParseIP_no_colon in Hs as (a & b & c & d & ->); [|apply Hno; by left].
    apply ParseIP_no_colon in He as (a' & b' & c' & d' & ->); [|apply Hno; by right; left].
    rewrite !Mask_zero_32. apply Equal_refl.
Qed.

Lemma allBitsOf_cases (allowStr : string) :
  allBitsOf allowStr = 32 \/ allBitsOf allowStr = 128.
Proof. unfold allBitsOf. destruct (Contains allowStr ":"); auto. Qed.

(** The loop of a range token stops, at a prefix length between 0 and
    [allBits], within [allBits + 1] tests of its condition. *)
Lemma maskLoop_range (allowStr startAddrStr endAddrStr : string) (more : list string)
    (start end_ : IP) (fuel : nat) :
  Split (TrimPrefix allowStr "@src_ip=") "-" = startAddrStr :: endAddrStr :: more ->
  ParseIP startAddrStr = Some start ->
  ParseIP endAddrStr = Some end_ ->
  (maskLoopBound <= fuel)%nat ->
  exists p, maskLoop fuel (allBitsOf allowStr) (allBitsOf allowStr) start end_ = Some p
            /\ 0 <= p <= allBitsOf allowStr
            /\ sameNet (allBitsOf allowStr) start end_ p = true
            /\ forall q, p < q <= allBitsOf allowStr ->
                         sameNet (allBitsOf allowStr) start end_ q = false.
Proof.
  intros Hsplit Hs He Hfuel.
  pose proof (sameNet_zero _ _ _ _ _ _ Hsplit Hs He) as H0.
  destruct (maskLoop_stops (allBitsOf allowStr) start end_
              (Z.to_nat (allBitsOf allowStr)) fuel (allBitsOf allowStr))
    as (p & Hp & Hr & Hrest).
  - destruct (allBitsOf_cases allowStr) as [Hb | Hb]; rewrite Hb in *; exact H0.
  - unfold maskLoopBound in Hfuel. destruct (allBitsOf_cases allowStr) as [-> | ->]; lia.
  - exists p. split; [done|]. split; [|done].
    destruct (allBitsOf_cases allowStr) as [Hb | Hb]; rewrite Hb in *; lia.
Qed.

End widening.

(** ** makeACL *)

Section makeACL_facts.
Import strings net grovetccfg.

Lemma aclEntry_range (fuel : nat) (remapTxt allowStr startAddrStr endAddrStr : string)
    (more : list string) (start end_ : IP) :
  strings.Contains allowStr "-" = true ->
  Split (TrimPrefix allowStr "@src_ip=") "-" = startAddrStr :: endAddrStr :: more ->
  ParseIP startAddrStr = Some start ->
  ParseIP endAddrStr = Some end_ ->
  (maskLoopBound <= fuel)%nat ->
  exists p, 0 <= p <= allBitsOf allowStr
            /\ aclEntry fuel remapTxt allowStr
               = Ok (mkIPNet (Mask start (CIDRMask p (allBitsOf allowStr)))
                             (CIDRMask p (allBitsOf allowStr)))
            /\ sameNet (allBitsOf allowStr) start end_ p = true
            /\ forall q, p < q <= allBitsOf allowStr ->
                         sameNet (allBitsOf allowStr) start end_ q = false.
Proof.
  intros Hdash Hsplit Hs He Hfuel.
  destruct (maskLoop_range _ _ _ _ _ _ fuel Hsplit Hs He Hfuel) as (p & Hp & Hr & Hsame & Hall).
  exists p. split; [done|]. split; [|done].
  unfold aclEntry. by rewrite Hdash, Hsplit, Hs, He, Hp.
Qed.

(** With [maskLoopBound] tests or more, one token never exhausts the
    loop bound, and more fuel does not change what it yields. *)
Lemma aclEntry_fuel (fuel : nat) (remapTxt allowStr : string) :
  (maskLoopBound <= fuel)%nat ->
  aclEntry fuel remapTxt allowStr = aclEntry maskLoopBound remapTxt allowStr
  /\ ((exists ipnet, aclEntry maskLoopBound remapTxt allowStr = Ok ipnet)
      \/ (exists msg, aclEntry maskLoopBound remapTxt allowStr = Err msg)).
Proof.
  intros Hfuel. unfold aclEntry.
  destruct (strings.Contains allowStr "-") eqn:Hdash.
  - destruct (Split (TrimPrefix allowStr "@src_ip=") "-") as [|a [|b more]] eqn:Hsplit;
      [eauto..|].
    destruct (ParseIP a) as [start|] eqn:Hs; [|eauto].
    destruct (ParseIP b) as [end_|] eqn:He; [|eauto].
    destruct (maskLoop_range _ _ _ _ _ _ maskLoopBound Hsplit Hs He (Nat.le_refl _))
      as (p & Hp & _).
    rewrite (maskLoop_mono _ _ _ _ fuel _ _ Hp Hfuel), Hp. eauto.
  - destruct (ParseIP (Trim allowStr "@src_ip=")); eauto.
Qed.

Lemma aclLoop_fuel (fuel : nat) (remapTxt : string) (remaps : list string) :
  (maskLoopBound <= fuel)%nat ->
  forall allow,
    aclLoop fuel remapTxt remaps allow = aclLoop maskLoopBound remapTxt remaps allow
    /\ ((exists nets, aclLoop maskLoopBound remapTxt remaps allow = Ok nets)
        \/ (exists msg, aclLoop maskLoopBound remapTxt remaps allow = Err msg)).
Proof.
  intros Hfuel. induction remaps as [|allowStr rest IH]; intros allow; cbn [aclLoop].
  - eauto.
  - destruct (aclEntry_fuel fuel remapTxt allowStr Hfuel) as [-> [[ipnet ->] | [msg ->]]];
      simpl; [apply IH|eauto].
Qed.

(** The networks a successful token loop returns: those it started with,
    then one per token, in order. *)
Lemma aclLoop_Ok (fuel : nat) (remapTxt : string) (remaps : list string) :
  forall allow nets,
    aclLoop fuel remapTxt remaps allow = Ok nets ->
    exists news, nets = allow ++ news
                 /\ Forall2 (fun allowStr ipnet => aclEntry fuel remapTxt allowStr = Ok ipnet)
                            remaps news.
Proof.
  induction remaps as [|allowStr rest IH]; intros allow nets; cbn [aclLoop].
  - intros [= <-]. exists []. by rewrite app_nil_r.
  - destruct (aclEntry fuel remapTxt allowStr) as [ipnet| | |] eqn:He; simpl; try done.
    intros (news & -> & Hall)%IH. exists (ipnet :: news).
    split; [by rewrite <- app_assoc|by constructor].
Qed.

Lemma makeACL_Ok_tokens (remapTxt : string) (nets : list IPNet) :
  makeACL remapTxt = Ok nets ->
  HasPrefix (Join (Fields remapTxt) " ") "@action=allow" = true ->
  Forall2 (fun allowStr ipnet =>
             aclEntry maskLoopBound (Join (Fields remapTxt) " ") allowStr = Ok ipnet)
          (skipn 1 (Split (Join (Fields remapTxt) " ") " ")) nets.
Proof.
  unfold makeACL, makeACLWithin. intros Hm Hpre. rewrite Hpre in Hm.
  destruct (_ <? 2)%nat; [done|].
  by apply aclLoop_Ok in Hm as (news & -> & Hall).
Qed.

End makeACL_facts.

(** ** The ACL compiler: range tokens, single addresses, termination *)

Section acl_claims.
Import strings net grovetccfg.

(** C5.  A range token [start-end] of an [@action=allow] directive whose two
    addresses parse compiles to the network found by starting from the host
    mask of the token's bit width (32, or 128 when the token has a colon)
    and lowering the prefix length one bit at a time until [start] and [end],
    both masked, are equal: [makeACL] emits, at the token's place, [start]
    masked with the mask of a prefix length [p] at which the two masked
    addresses are equal while they differ at every longer prefix length up
    to the width.  In particular [10.0.0.1-10.0.0.6] compiles to
    [10.0.0.0/29]: 29 is the largest prefix length at which the masked
    addresses agree, and the block contains [10.0.0.1]. *)
Theorem makeACL_range :
  (forall (remapTxt : string) (nets : list IPNet) (i : nat)
          (allowStr startAddrStr endAddrStr : string) (more : list string)
          (start end_ : IP),
      makeACL remapTxt = Ok nets ->
      HasPrefix (Join (Fields remapTxt) " ") "@action=allow" = true ->
      skipn 1 (Split (Join (Fields remapTxt) " ") " ") !! i = Some allowStr ->
      strings.Contains allowStr "-" = true ->
      Split (TrimPrefix allowStr "@src_ip=") "-" = startAddrStr :: endAddrStr :: more ->
      ParseIP startAddrStr = Some start ->
      ParseIP endAddrStr = Some end_ ->
      exists p,
        0 <= p <= allBitsOf allowStr
        /\ nets !! i = Some (mkIPNet (Mask start (CIDRMask p (allBitsOf allowStr)))
                                     (CIDRMask p (allBitsOf allowStr)))
        /\ sameNet (allBitsOf allowStr) start end_ p = true
        /\ forall q, p < q <= allBitsOf allowStr ->
                     sameNet (allBitsOf allowStr) start end_ q = false)
  /\ (makeACL "@action=allow @src_ip=10.0.0.1-10.0.0.6"
        = Ok [mkIPNet [10; 0; 0; 0] (CIDRMask 29 32)]
      /\ makeACL "@action=allow 10.0.0.1-10.0.0.6"
        = Ok [mkIPNet [10; 0; 0; 0] (CIDRMask 29 32)]
      /\ ParseIP "10.0.0.1" = Some (IPv4 10 0 0 1)
      /\ ParseIP "10.0.0.6" = Some (IPv4 10 0 0 6)
      /\ sameNet 32 (IPv4 10 0 0 1) (IPv4 10 0 0 6) 29 = true
      /\ (forall q, 29 < q <= 32 -> sameNet 32 (IPv4 10 0 0 1) (IPv4 10 0 0 6) q = false)
      /\ IPNet_Contains (mkIPNet [10; 0; 0; 0] (CIDRMask 29 32)) (IPv4 10 0 0 1) = true).
Proof.
  split.
  - intros remapTxt nets i allowStr startAddrStr endAddrStr more start end_
           Hm Hpre Hi Hdash Hsplit Hs He.
    pose proof (makeACL_Ok_tokens _ _ Hm Hpre) as Hall.
    destruct (Forall2_lookup_l _ _ _ _ _ Hall Hi) as (ipnet & Hnet & Hentry).
    destruct (aclEntry_range maskLoopBound (Join (Fields remapTxt) " ") _ _ _ _ _ _
                Hdash Hsplit Hs He (Nat.le_refl _)) as (p & Hr & Hp & Hsame & Hlonger).
    exists p. rewrite Hp in Hentry. injection Hentry as <-. done.
  - repeat split; try (vm_compute; reflexivity).
    intros q Hq. assert (q = 30 \/ q = 31 \/ q = 32) as [-> | [-> | ->]] by lia;
      vm_compute; reflexivity.
Qed.

Lemma makeACL_range_witness :
  makeACL "@action=allow @src_ip=10.0.0.1-10.0.0.6 172.16.0.0-172.16.255.255"
    = Ok [mkIPNet [10; 0; 0; 0] [255; 255; 255; 248]; mkIPNet [172; 16; 0; 0] [255; 255; 0; 0]]
  /\ exists p,
       0 <= p <= allBitsOf "172.16.0.0-172.16.255.255"
       /\ [mkIPNet [10; 0; 0; 0] [255; 255; 255; 248]; mkIPNet [172; 16; 0; 0] [255; 255; 0; 0]]
            !! 1%nat
          = Some (mkIPNet (Mask (IPv4 172 16 0 0)
                                (CIDRMask p (allBitsOf "172.16.0.0-172.16.255.255")))
                          (CIDRMask p (allBitsOf "172.16.0.0-172.16.255.255")))
       /\ sameNet (allBitsOf "172.16.0.0-172.16.255.255")
                  (IPv4 172 16 0 0) (IPv4 172 16 255 255) p = true
       /\ forall q, p < q <= allBitsOf "172.16.0.0-172.16.255.255" ->
                    sameNet (allBitsOf "172.16.0.0-172.16.255.255")
                            (IPv4 172 16 0 0) (IPv4 172 16 255 255) q = false.
Proof.
  split; [vm_compute; reflexivity|].
  apply (proj1 makeACL_range
           "@action=allow @src_ip=10.0.0.1-10.0.0.6 172.16.0.0-172.16.255.255"
           [mkIPNet [10; 0; 0; 0] [255; 255; 255; 248]; mkIPNet [172; 16; 0; 0] [255; 255; 0; 0]]
           1%nat "172.16.0.0-172.16.255.255" "172.16.0.0" "172.16.255.255" []
           (IPv4 172 16 0 0) (IPv4 172 16 255 255));
    vm_compute; reflexivity.
Defined.

(** C10.  For a range token whose two addresses parse, the mask-widening
    loop of [makeACL] stops, and at a prefix length of at least 0, because
    the two masked addresses are equal at prefix length 0: [maskLoopBound]
    tests of the loop condition are enough, for every token.  So [makeACL]
    returns, a network list or an error, on every input string, and more
    fuel does not change what it returns. *)
Theorem makeACL_total :
  (forall (allowStr startAddrStr endAddrStr : string) (more : list string)
          (start end_ : IP) (fuel : nat),
      Split (TrimPrefix allowStr "@src_ip=") "-" = startAddrStr :: endAddrStr :: more ->
      ParseIP startAddrStr = Some start ->
      ParseIP endAddrStr = Some end_ ->
      (maskLoopBound <= fuel)%nat ->
      sameNet (allBitsOf allowStr) start end_ 0 = true
      /\ exists p, maskLoop fuel (allBitsOf allowStr) (allBitsOf allowStr) start end_ = Some p
                   /\ 0 <= p <= allBitsOf allowStr)
  /\ (forall (remapTxt : string) (fuel : nat),
         (maskLoopBound <= fuel)%nat ->
         makeACLWithin fuel remapTxt = makeACL remapTxt)
  /\ (forall remapTxt : string,
         (exists nets, makeACL remapTxt = Ok nets) \/ (exists msg, makeACL remapTxt = Err msg)).
Proof.
  split; [|split].
  - intros allowStr startAddrStr endAddrStr more start end_ fuel Hsplit Hs He Hfuel.
    split; [by eapply sameNet_zero|].
    destruct (maskLoop_range _ _ _ _ _ _ fuel Hsplit Hs He Hfuel) as (p & Hp & Hr & _).
    eauto.
  - intros remapTxt fuel Hfuel. unfold makeACL, makeACLWithin.
    destruct (HasPrefix _ _); [|done]. destruct (_ <? 2)%nat; [done|].
    by destruct (aclLoop_fuel fuel (Join (Fields remapTxt) " ")
                   (skipn 1 (Split (Join (Fields remapTxt) " ") " ")) Hfuel []) as [-> _].
  - intros remapTxt. unfold makeACL, makeACLWithin.
    destruct (HasPrefix _ _); [|eauto]. destruct (_ <? 2)%nat; [eauto|].
    by destruct (aclLoop_fuel maskLoopBound (Join (Fields remapTxt) " ")
                   (skipn 1 (Split (Join (Fields remapTxt) " ") " ")) (Nat.le_refl _) [])
      as [_ ?].
Qed.

Lemma makeACL_total_witness :
  sameNet (allBitsOf "2001:db8::1-2001:db8::ffff")
          [32; 1; 13; 184; 0; 0; 0; 0; 0; 0; 0; 0; 0; 0; 0; 1]
          [32; 1; 13; 184; 0; 0; 0; 0; 0; 0; 0; 0; 0; 0; 255; 255] 0 = true
  /\ exists p,
       maskLoop 129 (allBitsOf "2001:db8::1-2001:db8::ffff")
                (allBitsOf "2001:db8::1-2001:db8::ffff")
                [32; 1; 13; 184; 0; 0; 0; 0; 0; 0; 0; 0; 0; 0; 0; 1]
                [32; 1; 13; 184; 0; 0; 0; 0; 0; 0; 0; 0; 0; 0; 255; 255] = Some p
       /\ 0 <= p <= allBitsOf "2001:db8::1-2001:db8::ffff".
Proof.
  apply (proj1 makeACL_total "2001:db8::1-2001:db8::ffff" "2001:db8::1" "2001:db8::ffff" []
           [32; 1; 13; 184; 0; 0; 0; 0; 0; 0; 0; 0; 0; 0; 0; 1]
           [32; 1; 13; 184; 0; 0; 0; 0; 0; 0; 0; 0; 0; 0; 255; 255] 129%nat);
    vm_compute; first [reflexivity | lia].
Defined.

(** C6, at the input where the code leaves it.  A single-address token goes
    through [strings.Trim(allowStr, "@src_ip=")], which strips every leading
    and trailing byte that is one of [@ s r c _ i p =], where the range
    branch uses [strings.TrimPrefix]: the valid address [2001:db8::c] loses
    its last digit and compiles to the host network of [2001:db8::], another
    address.  The two addresses the claim names compile as it says. *)
Theorem makeACL_single_cutset :
  ParseIP "2001:db8::c" = Some [32; 1; 13; 184; 0; 0; 0; 0; 0; 0; 0; 0; 0; 0; 0; 12]
  /\ makeACL "@action=allow @src_ip=2001:db8::c"
     = Ok [mkIPNet [32; 1; 13; 184; 0; 0; 0; 0; 0; 0; 0; 0; 0; 0; 0; 0] (CIDRMask 128 128)]
  /\ makeACL "@action=allow 2001:db8::c"
     = Ok [mkIPNet [32; 1; 13; 184; 0; 0; 0; 0; 0; 0; 0; 0; 0; 0; 0; 0] (CIDRMask 128 128)]
  /\ makeACL "@action=allow @src_ip=192.168.1.5"
     = Ok [mkIPNet [192; 168; 1; 5] (CIDRMask 32 32)]
  /\ makeACL "@action=allow @src_ip=2001:db8::1"
     = Ok [mkIPNet [32; 1; 13; 184; 0; 0; 0; 0; 0; 0; 0; 0; 0; 0; 0; 1] (CIDRMask 128 128)].
Proof. repeat split; vm_compute; reflexivity. Qed.

End acl_claims.

(** ** The topology resolver *)

Section getParents_claims.
Import grovetccfg.

Lemma filter_none {A : Type} (P : A -> Prop) `{!forall x, Decision (P x)} (l : list A) :
  (forall x, x ∈ l -> ~ P x) -> filter P l = [].
Proof.
  intros Hnone. destruct (filter P l) as [|x l'] eqn:Hf; [done|].
  assert (x ∈ filter P l) as [HP Hin]%list_elem_of_filter by (rewrite Hf; left).
  by destruct (Hnone x Hin).
Qed.

(** C9.  [getParents] returns a lookup error when the target hostname is not
    in the server map, and when it is there but its cache group is not in the
    cache-group map; when both are there and no server's cache group is the
    parent name of that cache group, it returns the empty sequence and no
    error. *)
Theorem getParents_lookup (hostname : string) (servers : gmap string tc.Server)
    (cachegroups : gmap string tc.CacheGroup) :
  (servers !! hostname = None ->
   getParents hostname servers cachegroups = Err "hostname not found in Servers")
  /\ (forall server,
         servers !! hostname = Some server ->
         cachegroups !! tc.Cachegroup server = None ->
         getParents hostname servers cachegroups
         = Err ("server cachegroup '" +:+ tc.Cachegroup server +:+ "' not found in Cachegroups"))
  /\ (forall server cachegroup,
         servers !! hostname = Some server ->
         cachegroups !! tc.Cachegroup server = Some cachegroup ->
         (forall h s, servers !! h = Some s -> tc.Cachegroup s <> tc.ParentName cachegroup) ->
         getParents hostname servers cachegroups = Ok []).
Proof.
  unfold getParents. split; [|split].
  - by intros ->.
  - by intros server -> ->.
  - intros server cachegroup -> -> Hnone. f_equal.
    apply filter_none. intros s [[h s'] [-> Hin]]%list_elem_of_fmap.
    apply elem_of_map_to_list in Hin. simpl. by apply (Hnone h).
Qed.

Lemma getParents_lookup_witness :
  getParents "nohost" sample.servers sample.cachegroups = Err "hostname not found in Servers"
  /\ getParents "edge0" sample.servers (delete "edges" sample.cachegroups)
     = Err "server cachegroup 'edges' not found in Cachegroups"
  /\ getParents "mid0" sample.servers sample.cachegroups = Ok [].
Proof.
  split; [|split].
  - apply (proj1 (getParents_lookup "nohost" sample.servers sample.cachegroups)).
    vm_compute; reflexivity.
  - apply (proj1 (proj2 (getParents_lookup "edge0" sample.servers
                           (delete "edges" sample.cachegroups))) sample.edge);
      vm_compute; reflexivity.
  - apply (proj2 (proj2 (getParents_lookup "mid0" sample.servers sample.cachegroups))
             sample.mid (tc.mkCacheGroup "mids" "origins"));
      [vm_compute; reflexivity..|].
    intros h s. unfold sample.servers.
    intros [[<- <-] | [_ [<- <-]%lookup_singleton_Some]]%lookup_insert_Some;
      discriminate.
Defined.

End getParents_claims.

(** ** Pieces and fields are substrings *)

Section substring_facts.
Import strings.

Lemma append_cons (c : ascii) (a b : string) : String c a +:+ b = String c (a +:+ b).
Proof. reflexivity. Qed.

Lemma append_nil_l (a : string) : "" +:+ a = a.
Proof. reflexivity. Qed.

Lemma append_assoc (a b c : string) : (a +:+ b) +:+ c = a +:+ (b +:+ c).
Proof. induction a as [|x a IH]; [done|]. rewrite !append_cons. by f_equal. Qed.

Lemma append_nil_r (a : string) : a +:+ "" = a.
Proof. induction a as [|x a IH]; [done|]. rewrite append_cons. by f_equal. Qed.

Lemma isSubstringOf_refl (s : string) : isSubstringOf s s.
Proof. exists "", "". simpl. by rewrite append_nil_r. Qed.

Lemma isPrefixOf_substring (p s : string) : isPrefixOf p s -> isSubstringOf p s.
Proof. intros [b ->]. by exists "", b. Qed.

Lemma isSubstringOf_trans (a b c : string) :
  isSubstringOf a b -> isSubstringOf b c -> isSubstringOf a c.
Proof.
  intros (x & y & ->) (u & v & ->). exists (u +:+ x), (y +:+ v).
  by rewrite !append_assoc.
Qed.

Lemma isSubstringOf_app_r (a t s : string) : isSubstringOf t s -> isSubstringOf t (a +:+ s).
Proof.
  intros (x & y & ->). exists (a +:+ x), y. by rewrite !append_assoc.
Qed.

Lemma isSubstringOf_cons (c : ascii) (t s : string) :
  isSubstringOf t s -> isSubstringOf t (String c s).
Proof. apply (isSubstringOf_app_r (String c "")). Qed.

Lemma take_drop (n : nat) (s : string) : s = take n s +:+ drop n s.
Proof.
  revert s. induction n as [|n IH]; intros [|c s]; try done.
  cbn [take drop]. rewrite append_cons. f_equal. apply IH.
Qed.

Lemma isSubstringOf_drop (n : nat) (s : string) : isSubstringOf (drop n s) s.
Proof. exists (take n s), "". rewrite append_nil_r. apply take_drop. Qed.

Lemma isPrefixOf_take (n : nat) (s : string) : isPrefixOf (take n s) s.
Proof. exists (drop n s). apply take_drop. Qed.

Lemma drop_empty (n : nat) : drop n "" = "".
Proof. by destruct n. Qed.

Lemma HasPrefix_app (t b : string) : HasPrefix (t +:+ b) t = true.
Proof.
  induction t as [|c t IH]; simpl; [by destruct b|].
  by rewrite Ascii.eqb_refl, IH.
Qed.

Lemma Contains_unfold (s t : string) :
  Contains s t
  = HasPrefix s t || match s with EmptyString => false | String _ s' => Contains s' t end.
Proof. by destruct s. Qed.

Lemma isSubstringOf_Contains (t s : string) : isSubstringOf t s -> Contains s t = true.
Proof.
  intros (a & b & ->). induction a as [|c a IH].
  - by rewrite append_nil_l, Contains_unfold, HasPrefix_app.
  - rewrite append_cons, Contains_unfold, IH. apply orb_true_r.
Qed.

(** Every field of [strings.Fields] is a substring of the text. *)
Lemma fieldsFrom_substring (s : string) :
  forall (skip : nat) (cur tok : string),
    In tok (fieldsFrom skip cur s) -> isSubstringOf tok (cur +:+ drop skip s).
Proof.
  induction s as [|c s IH]; intros skip cur tok.
  - cbn [fieldsFrom]. rewrite drop_empty, append_nil_r.
    destruct cur; simpl; [done|]. intros [<- | []]. apply isSubstringOf_refl.
  - cbn [fieldsFrom]. destruct skip as [|k]; [|apply IH].
    destruct (spaceWidth (String c s)) as [|w].
    + intros Hin%IH. simpl in Hin. by rewrite append_assoc in Hin.
    + assert (Hrest : In tok (fieldsFrom w "" s) ->
                      isSubstringOf tok (cur +:+ drop 0 (String c s))).
      { intros Hin%IH. simpl in Hin. simpl.
        apply isSubstringOf_app_r, isSubstringOf_cons.
        eapply isSubstringOf_trans; [exact Hin|apply isSubstringOf_drop]. }
      destruct cur as [|x cur]; [exact Hrest|].
      intros [<- | Hin]; [|by apply Hrest].
      apply isPrefixOf_substring. by eexists.
Qed.

Lemma Fields_substring (s tok : string) : In tok (Fields s) -> isSubstringOf tok s.
Proof. apply (fieldsFrom_substring s 0 ""). Qed.

(** The first piece of [strings.Split] is a prefix of the text, the others
    are substrings of it. *)
Lemma splitFrom_pieces (sep : string) (s : string) :
  forall (skip : nat) (p : string) (ps : list string),
    splitFrom sep skip s = p :: ps ->
    isPrefixOf p (drop skip s)
    /\ forall piece, In piece ps -> isSubstringOf piece (drop skip s).
Proof.
  induction s as [|c s IH]; intros skip p ps.
  - cbn [splitFrom]. intros [= <- <-]. rewrite drop_empty. split; [by exists ""|].
    by intros piece [].
  - cbn [splitFrom]. destruct skip as [|k]; [|apply IH].
    destruct (HasPrefix (String c s) sep).
    + intros [= <- <-]. split; [by eexists|].
      intros piece Hin. simpl. apply isSubstringOf_cons.
      destruct (splitFrom sep (String.length sep - 1) s) as [|p' ps'] eqn:Hs; [done|].
      destruct (IH _ _ _ Hs) as [Hp Hps].
      eapply isSubstringOf_trans; [|apply isSubstringOf_drop].
      destruct Hin as [<- | Hin]; [by apply isPrefixOf_substring|by apply Hps].
    + destruct (splitFrom sep 0 s) as [|p' ps'] eqn:Hs.
      * intros [= <- <-]. split; [by exists s|]. by intros piece [].
      * intros [= <- <-]. destruct (IH _ _ _ Hs) as [[b Hp] Hps]. simpl in *. split.
        -- exists b. by rewrite Hp at 1.
        -- intros piece Hin. by apply isSubstringOf_cons, Hps.
Qed.

Lemma Split_substring (s sep piece : string) :
  In piece (Split s sep) -> isSubstringOf piece s.
Proof.
  unfold Split. destruct (splitFrom sep 0 s) as [|p ps] eqn:Hs; [done|].
  destruct (splitFrom_pieces _ _ _ _ _ Hs) as [Hp Hps].
  intros [<- | Hin]; [by apply isPrefixOf_substring|by apply Hps].
Qed.

Lemma TrimSuffix_substring (s suffix : string) : isSubstringOf (TrimSuffix s suffix) s.
Proof.
  unfold TrimSuffix. destruct (HasSuffix s suffix); [|apply isSubstringOf_refl].
  apply isPrefixOf_substring, isPrefixOf_take.
Qed.

(** A token of a line of the text occurs in the text. *)
Lemma line_token_substring (text sep suffix line tok : string) :
  In line (Split text sep) ->
  In tok (Fields (TrimSuffix line suffix)) ->
  isSubstringOf tok text.
Proof.
  intros Hline Htok.
  eapply isSubstringOf_trans; [by apply Fields_substring|].
  eapply isSubstringOf_trans; [apply TrimSuffix_substring|by eapply Split_substring].
Qed.

End substring_facts.

(** ** The header-rewrite compiler *)

Section makeModHdrs_claims.
Import strings grovetccfg.

(** A line of the policy either updates the state or is rejected as
    malformed. *)
Lemma hdrLine_cases (line : string) (st : hdrState) :
  (exists st', hdrLine line st = Ok st')
  \/ hdrLine line st = Err (malformedLine (TrimSuffix line "[L]")).
Proof.
  unfold hdrLine. repeat case_match; eauto.
Qed.

Lemma hdrLine_malformed (line : string) (st : hdrState) :
  malformed line = true ->
  hdrLine line st = Err (malformedLine (TrimSuffix line "[L]")).
Proof.
  unfold malformed, hdrLine.
  destruct (Fields (TrimSuffix line "[L]")) as [|part0 [|part1 [|part2 more]]]; try done.
  intros Hset.
  destruct (decide (part0 = "cond")) as [->|Hcond]; [done|].
  apply String.eqb_neq in Hcond. by rewrite Hcond, Hset.
Qed.

(** One malformed line makes the line loop fail, on that line or on an
    earlier one. *)
Lemma hdrLines_malformed (lines : list string) (line : string) :
  line ∈ lines -> malformed line = true ->
  forall st, exists bad, bad ∈ lines /\ hdrLines lines st = Err (malformedLine (TrimSuffix bad "[L]")).
Proof.
  intros Hin Hbad. induction Hin as [line lines|line other lines Hin IH]; intros st;
    cbn [hdrLines].
  - exists line. split; [left|]. by rewrite hdrLine_malformed.
  - destruct (hdrLine_cases other st) as [[st' ->] | ->]; simpl.
    + destruct (IH Hbad st') as (bad & Hb & ->). exists bad. split; [by right|done].
    + exists other. split; [left|done].
Qed.

(** C4, as amended.  With the condition and the [set-header] directive on
    two lines, separated by [__RETURN__], the policy compiles to the
    client-bound set operation [{X-Test, foo}] and an empty origin-bound
    list; on one line, as the claim has it, the [cond] line ends at the hook
    for the parser, the rest of the line is not read, and both lists are
    empty.  Whatever the remap text is. *)
Theorem makeModHdrs_response_hook (remapTXT : string) :
  makeModHdrs "cond %{SEND_RESPONSE_HDR_HOOK}__RETURN__set-header X-Test foo" remapTXT
  = Ok (web.mkModHdrs [web.mkHdr "X-Test" "foo"] [], web.noModHdrs)
  /\ makeModHdrs "cond %{SEND_RESPONSE_HDR_HOOK} set-header X-Test foo" remapTXT
     = Ok (web.noModHdrs, web.noModHdrs).
Proof. split; vm_compute; reflexivity. Qed.

(** C4 as stated fails: the client-bound list of the one-line input has no
    set operation. *)
Lemma makeModHdrs_one_line_counterexample :
  makeModHdrs "cond %{SEND_RESPONSE_HDR_HOOK} set-header X-Test foo" ""
  <> Ok (web.mkModHdrs [web.mkHdr "X-Test" "foo"] [], web.noModHdrs)
  /\ exists toClient toOrigin,
       makeModHdrs "cond %{SEND_RESPONSE_HDR_HOOK} set-header X-Test foo" ""
       = Ok (toClient, toOrigin)
       /\ web.Set_ toClient = [].
Proof.
  split; [vm_compute; discriminate|].
  exists web.noModHdrs, web.noModHdrs. split; vm_compute; reflexivity.
Qed.

(** C7, as amended.  A line of the policy (the lines are the pieces of the
    normalized text between [__RETURN__] terminators) that, once a trailing
    [[L]] is cut off, starts with [set-header] or [add-header] and has exactly
    two tokens makes [makeModHdrs] fail with the malformed-line error of some
    line of the policy; so does a line with exactly one token, when the
    normalized text contains [-header] (when it does not, no line is read).
    A line without any token is stepped over. *)
Theorem makeModHdrs_malformed (edgeHRW remapTXT line : string) :
  line ∈ Split (Join (Fields edgeHRW) " ") "__RETURN__" ->
  ((length (Fields (TrimSuffix line "[L]")) = 1%nat
    /\ Contains (Join (Fields edgeHRW) " ") "-header" = true)
   \/ (length (Fields (TrimSuffix line "[L]")) = 2%nat
       /\ (Fields (TrimSuffix line "[L]") !! 0%nat = Some "set-header"
           \/ Fields (TrimSuffix line "[L]") !! 0%nat = Some "add-header"))) ->
  exists bad,
    bad ∈ Split (Join (Fields edgeHRW) " ") "__RETURN__"
    /\ makeModHdrs edgeHRW remapTXT = Err (malformedLine (TrimSuffix bad "[L]")).
Proof.
  intros Hin Hshape.
  assert (Hgate : Contains (Join (Fields edgeHRW) " ") "-header" = true).
  { destruct Hshape as [[_ Hgate] | [_ Hfirst]]; [done|].
    apply isSubstringOf_Contains.
    assert (Htok : exists tok, In tok (Fields (TrimSuffix line "[L]"))
                               /\ isSubstringOf "-header" tok).
    { destruct (Fields (TrimSuffix line "[L]")) as [|part0 parts]; simpl in Hfirst;
        [by destruct Hfirst|].
      exists part0. split; [by left|].
      destruct Hfirst as [[= ->] | [= ->]]; [by exists "set", ""|by exists "add", ""]. }
    destruct Htok as (tok & Htok & Hsub).
    eapply isSubstringOf_trans; [exact Hsub|].
    eapply line_token_substring; [|exact Htok]. by apply list_elem_of_In. }
  assert (Hbad : malformed line = true).
  { unfold malformed.
    destruct (Fields (TrimSuffix line "[L]")) as [|part0 [|part1 [|part2 more]]];
      simpl in Hshape; try (destruct Hshape as [[? _] | [? _]]; discriminate); [done|].
    destruct Hshape as [[? _] | [_ [[= ->] | [= ->]]]]; done. }
  destruct (hdrLines_malformed _ _ Hin Hbad (mkHdrState true web.noModHdrs web.noModHdrs))
    as (bad & Hb & Herr).
  exists bad. split; [done|]. unfold makeModHdrs.
  destruct edgeHRW as [|c edgeHRW]; [discriminate Hgate|].
  cbn [String.eqb andb]. rewrite Hgate, Herr. done.
Qed.

Lemma makeModHdrs_malformed_witness :
  exists bad,
    bad ∈ Split (Join (Fields "rm-header  A __RETURN__ set-header X-Only [L]") " ") "__RETURN__"
    /\ makeModHdrs "rm-header  A __RETURN__ set-header X-Only [L]" "@action=allow 10.0.0.1"
       = Err (malformedLine (TrimSuffix bad "[L]")).
Proof.
  apply (makeModHdrs_malformed "rm-header  A __RETURN__ set-header X-Only [L]"
           "@action=allow 10.0.0.1" " set-header X-Only [L]").
  - vm_compute. right; left.
  - right. split; [|left]; vm_compute; reflexivity.
Defined.

(** C7 as stated fails: a policy whose only line has one token but no
    [-header] in it compiles, and so does a policy with a line without
    tokens. *)
Lemma makeModHdrs_short_line_counterexample :
  (Split (Join (Fields "cond") " ") "__RETURN__" = ["cond"]
   /\ length (Fields "cond") = 1%nat
   /\ makeModHdrs "cond" "" = Ok (web.noModHdrs, web.noModHdrs))
  /\ (Split (Join (Fields "rm-header A__RETURN__") " ") "__RETURN__" = ["rm-header A"; ""]
      /\ length (Fields "") = 0%nat
      /\ makeModHdrs "rm-header A__RETURN__" "" = Ok (web.mkModHdrs [] [], web.mkModHdrs [] ["A"])).
Proof. repeat split; vm_compute; reflexivity. Qed.

End makeModHdrs_claims.

(** ** The rule assembler *)

Section assembler_facts.
Import strings grovetccfg.
Context `{External}.
Variable hostname : string.
Variable parents : list tc.Server.
Variable dsRegexes : gmap string (list tc.DeliveryServiceRegex).
Variable cdns : gmap string tc.CDN.
Variable dsCerts : gmap string tc.CDNSSLKeys.
Variable certDir : string.

Local Abbreviation dsRules := (dsRules hostname parents dsRegexes cdns dsCerts certDir).
Local Abbreviation dsLoop := (dsLoop hostname parents dsRegexes cdns dsCerts certDir).
Local Abbreviation run := (fun dses hostParams =>
  createRulesOld hostname dses parents dsRegexes cdns hostParams dsCerts certDir).

(** *** The delivery-service loop *)

Lemma dsLoop_acc (dses : list tc.DeliveryService) :
  forall rules,
    dsLoop dses rules = obind (dsLoop dses []) (fun new => Ok (rules ++ new)).
Proof.
  induction dses as [|ds rest IH]; intros rules; cbn [grovetccfg.dsLoop].
  - simpl. by rewrite app_nil_r.
  - unfold mbind, outcome_bind.
    destruct (dsRules ds) as [new| | |]; simpl; try done.
    rewrite (IH (rules ++ new)), (IH new).
    destruct (dsLoop rest []) as [more| | |]; simpl; try done.
    by rewrite app_assoc.
Qed.

Lemma dsLoop_app (pre post : list tc.DeliveryService) :
  forall rules,
    dsLoop (pre ++ post) rules = obind (dsLoop pre rules) (dsLoop post).
Proof.
  induction pre as [|ds pre IH]; intros rules; [done|].
  cbn [app grovetccfg.dsLoop]. unfold mbind, outcome_bind.
  destruct (dsRules ds) as [new| | |]; simpl; [apply IH|done..].
Qed.

(** A delivery service for which the loop body appends no rule leaves the
    loop as it is without it. *)
Lemma dsLoop_skip (pre post : list tc.DeliveryService) (ds : tc.DeliveryService) :
  dsRules ds = Ok [] ->
  forall rules, dsLoop (pre ++ ds :: post) rules = dsLoop (pre ++ post) rules.
Proof.
  intros Hskip rules. rewrite !dsLoop_app.
  destruct (dsLoop pre rules) as [mid| | |]; simpl; try done.
  unfold mbind, outcome_bind. rewrite Hskip. simpl. by rewrite app_nil_r.
Qed.

(** A delivery service on which the loop body fails makes the loop fail. *)
Lemma dsLoop_fails (pre post : list tc.DeliveryService) (ds : tc.DeliveryService) :
  isOk (dsRules ds) = false ->
  forall rules, isOk (dsLoop (pre ++ ds :: post) rules) = false.
Proof.
  intros Hfail rules. rewrite dsLoop_app.
  destruct (dsLoop pre rules) as [mid| | |]; simpl; try done.
  unfold mbind, outcome_bind. by destruct (dsRules ds).
Qed.

Lemma dsLoop_Err (pre post : list tc.DeliveryService) (ds : tc.DeliveryService)
    (msg : string) (before : list remapdata.RemapRule) :
  dsLoop pre [] = Ok before -> dsRules ds = Err msg ->
  dsLoop (pre ++ ds :: post) [] = Err msg.
Proof.
  intros Hpre Herr. rewrite dsLoop_app, Hpre. simpl.
  unfold mbind, outcome_bind. by rewrite Herr.
Qed.

(** The rules of a successful loop: those of the delivery services before
    [ds], those of [ds], those of the delivery services after it. *)
Lemma dsLoop_Ok_inv (pre post : list tc.DeliveryService) (ds : tc.DeliveryService)
    (rules : list remapdata.RemapRule) :
  dsLoop (pre ++ ds :: post) [] = Ok rules ->
  exists before new after,
    dsLoop pre [] = Ok before /\ dsRules ds = Ok new /\ dsLoop post [] = Ok after
    /\ rules = before ++ new ++ after.
Proof.
  rewrite dsLoop_app.
  destruct (dsLoop pre []) as [before| | |]; simpl; try done.
  unfold mbind, outcome_bind.
  destruct (dsRules ds) as [new| | |]; simpl; try done.
  rewrite dsLoop_acc.
  destruct (dsLoop post []) as [after| | |]; simpl; try done.
  intros [= <-]. exists before, new, after. by rewrite app_assoc.
Qed.

(** *** From the loop to [createRulesOld] *)

Lemma createRulesOld_skip (pre post : list tc.DeliveryService) (ds : tc.DeliveryService)
    (hostParams : list tc.Parameter_) :
  dsRules ds = Ok [] ->
  run (pre ++ ds :: post) hostParams = run (pre ++ post) hostParams.
Proof.
  intros Hskip. unfold createRulesOld, createRulesOld_.
  destruct (getAllowIP hostParams); try done.
  by rewrite dsLoop_skip.
Qed.

Lemma createRulesOld_fails (pre post : list tc.DeliveryService) (ds : tc.DeliveryService)
    (hostParams : list tc.Parameter_) :
  isOk (dsRules ds) = false ->
  forall R, run (pre ++ ds :: post) hostParams <> Ok R.
Proof.
  intros Hfail R. unfold createRulesOld, createRulesOld_.
  destruct (getAllowIP hostParams); try done.
  pose proof (dsLoop_fails pre post ds Hfail []) as Hl.
  unfold mbind, outcome_bind.
  by destruct (dsLoop (pre ++ ds :: post) []).
Qed.

Lemma createRulesOld_Err (pre post : list tc.DeliveryService) (ds : tc.DeliveryService)
    (hostParams : list tc.Parameter_) (allowedIPs : list net.IPNet)
    (before : list remapdata.RemapRule) (msg : string) :
  getAllowIP hostParams = Ok allowedIPs ->
  dsLoop pre [] = Ok before ->
  dsRules ds = Err msg ->
  run (pre ++ ds :: post) hostParams = Err msg.
Proof.
  intros Hallow Hpre Herr. unfold createRulesOld, createRulesOld_.
  rewrite Hallow. unfold mbind, outcome_bind.
  by rewrite (dsLoop_Err pre post ds msg before Hpre Herr).
Qed.

Lemma createRulesOld_Ok_inv (pre post : list tc.DeliveryService) (ds : tc.DeliveryService)
    (hostParams : list tc.Parameter_) (R : remapdata.RemapRules) :
  run (pre ++ ds :: post) hostParams = Ok R ->
  exists before new after,
    dsLoop pre [] = Ok before /\ dsRules ds = Ok new /\ dsLoop post [] = Ok after
    /\ remapdata.Rules R = before ++ new ++ after.
Proof.
  unfold createRulesOld, createRulesOld_.
  destruct (getAllowIP hostParams); try done.
  unfold mbind, outcome_bind.
  destruct (grovetccfg.dsLoop _ _ _ _ _ _ (pre ++ ds :: post) []) as [rules| | |] eqn:Hl;
    simpl; try done.
  intros [= <-]. simpl. by apply dsLoop_Ok_inv.
Qed.

(** *** The body of the loop, case by case, in the order of its tests *)

Lemma dsRules_qstring_error (ds : tc.DeliveryService) (msg : string) :
  getQueryStringRule (tc.QStringIgnore ds) = Err msg ->
  dsRules ds
  = Err ("getting deliveryservice " +:+ tc.XMLID ds +:+ " Query String Rule: " +:+ msg).
Proof. intros Hq. unfold grovetccfg.dsRules. by rewrite Hq. Qed.

Lemma dsRules_cdn_missing (ds : tc.DeliveryService) (q : remapdata.QueryStringRule) :
  getQueryStringRule (tc.QStringIgnore ds) = Ok q ->
  cdns !! tc.CDNName ds = None ->
  dsRules ds
  = Err ("deliveryservice '" +:+ tc.XMLID ds +:+ "' CDN '" +:+ tc.CDNName ds +:+ "' not found").
Proof. intros Hq Hc. unfold grovetccfg.dsRules. by rewrite Hq, Hc. Qed.

Lemma dsRules_unrecognized (ds : tc.DeliveryService) (q : remapdata.QueryStringRule)
    (cdn : tc.CDN) :
  getQueryStringRule (tc.QStringIgnore ds) = Ok q ->
  cdns !! tc.CDNName ds = Some cdn ->
  typeRecognized (ToLower (tc.Type_ ds)) = false ->
  dsRules ds = Ok [].
Proof. intros Hq Hc Ht. unfold grovetccfg.dsRules. by rewrite Hq, Hc, Ht. Qed.

Lemma dsRules_header_error (ds : tc.DeliveryService) (q : remapdata.QueryStringRule)
    (cdn : tc.CDN) (msg : string) :
  getQueryStringRule (tc.QStringIgnore ds) = Ok q ->
  cdns !! tc.CDNName ds = Some cdn ->
  typeRecognized (ToLower (tc.Type_ ds)) = true ->
  makeModHdrs (tc.EdgeHeaderRewrite ds) (tc.RemapText ds) = Err msg ->
  dsRules ds = Err ("Making headers for delivery service '" +:+ tc.XMLID ds +:+ "':" +:+ msg).
Proof. intros Hq Hc Ht Hh. unfold grovetccfg.dsRules. by rewrite Hq, Hc, Ht, Hh. Qed.

Lemma dsRules_acl_error (ds : tc.DeliveryService) (q : remapdata.QueryStringRule)
    (cdn : tc.CDN) (hdrs : web.ModHdrs * web.ModHdrs) (msg : string) :
  getQueryStringRule (tc.QStringIgnore ds) = Ok q ->
  cdns !! tc.CDNName ds = Some cdn ->
  typeRecognized (ToLower (tc.Type_ ds)) = true ->
  makeModHdrs (tc.EdgeHeaderRewrite ds) (tc.RemapText ds) = Ok hdrs ->
  makeACL (tc.RemapText ds) = Err msg ->
  dsRules ds = Ok [].
Proof.
  intros Hq Hc Ht Hh Ha. unfold grovetccfg.dsRules.
  rewrite Hq, Hc, Ht, Hh, Ha. by destruct hdrs.
Qed.

Lemma dsRules_compiled (ds : tc.DeliveryService) (q : remapdata.QueryStringRule)
    (cdn : tc.CDN) (toClient toOrigin : web.ModHdrs) (acl : list net.IPNet) :
  getQueryStringRule (tc.QStringIgnore ds) = Ok q ->
  cdns !! tc.CDNName ds = Some cdn ->
  typeRecognized (ToLower (tc.Type_ ds)) = true ->
  makeModHdrs (tc.EdgeHeaderRewrite ds) (tc.RemapText ds) = Ok (toClient, toOrigin) ->
  makeACL (tc.RemapText ds) = Ok acl ->
  dsRules ds
  = protocolLoop hostname parents dsRegexes certDir
      (mkDsContext ds q cdn (dsCerts !! tc.XMLID ds) (ToLower (tc.Type_ ds))
                   toClient toOrigin acl)
      (protocolStrs (tc.Protocol ds)).
Proof.
  intros Hq Hc Ht Hh Ha. unfold grovetccfg.dsRules. by rewrite Hq, Hc, Ht, Hh, Ha.
Qed.

(** If the body of the loop appends rules at all, every test before the
    protocol loop has passed. *)
Lemma dsRules_Ok_cons (ds : tc.DeliveryService) (rule : remapdata.RemapRule)
    (rules : list remapdata.RemapRule) :
  dsRules ds = Ok (rule :: rules) ->
  exists q cdn toClient toOrigin acl,
    getQueryStringRule (tc.QStringIgnore ds) = Ok q
    /\ cdns !! tc.CDNName ds = Some cdn
    /\ typeRecognized (ToLower (tc.Type_ ds)) = true
    /\ makeModHdrs (tc.EdgeHeaderRewrite ds) (tc.RemapText ds) = Ok (toClient, toOrigin)
    /\ makeACL (tc.RemapText ds) = Ok acl
    /\ protocolLoop hostname parents dsRegexes certDir
         (mkDsContext ds q cdn (dsCerts !! tc.XMLID ds) (ToLower (tc.Type_ ds))
                      toClient toOrigin acl)
         (protocolStrs (tc.Protocol ds)) = Ok (rule :: rules).
Proof.
  unfold grovetccfg.dsRules.
  destruct (getQueryStringRule _) as [q| | |]; try done.
  destruct (cdns !! _) as [cdn|]; try done.
  destruct (typeRecognized _); try done.
  destruct (makeModHdrs _ _) as [[toClient toOrigin]| | |]; try done.
  destruct (makeACL _) as [acl| | |]; try done.
  intros Hp. by exists q, cdn, toClient, toOrigin, acl.
Qed.

End assembler_facts.

Section rule_facts.
Import strings grovetccfg.
Context `{External}.
Variable hostname : string.
Variable parents : list tc.Server.
Variable dsRegexes : gmap string (list tc.DeliveryServiceRegex).
Variable certDir : string.

Local Abbreviation regexRule := (regexRule hostname parents certDir).
Local Abbreviation regexLoop := (regexLoop hostname parents certDir).
Local Abbreviation protocolLoop := (protocolLoop hostname parents dsRegexes certDir).

(** The parent loop leaves the name of the rule alone, and sets its
    query-string policy in every iteration. *)
Lemma parentLoop_Ok (ctx : dsContext) (protocolStr : ProtocolStr) (ps : list tc.Server) :
  forall rule rule',
    parentLoop ctx protocolStr ps rule = Ok rule' ->
    remapdata.Name rule' = remapdata.Name rule
    /\ remapdata.QueryString rule'
       = match ps with [] => remapdata.QueryString rule | _ => ctxQueryStringRule ctx end.
Proof.
  induction ps as [|parent rest IH]; intros rule rule'; cbn [parentLoop].
  - by intros [= <-].
  - destruct (buildTo _ _ _ _) as [to proxyURLStr].
    destruct (url_Parse proxyURLStr) as [proxyURL|]; [|done].
    intros [Hname Hq]%IH. split; [done|].
    rewrite Hq. by destruct rest.
Qed.

Lemma regexRule_Ok (ctx : dsContext) (protocolStr : ProtocolStr)
    (dsRegex : tc.DeliveryServiceRegex) (rule : remapdata.RemapRule) :
  regexRule ctx protocolStr dsRegex = Ok rule ->
  exists pattern patternLiteralRegex,
    trimLiteralRegex (tc.Pattern dsRegex) = Ok (pattern, patternLiteralRegex)
    /\ remapdata.Name rule
       = tc.XMLID (ctxDs ctx) +:+ "." +:+ PFrom protocolStr +:+ "." +:+ PTo protocolStr
         +:+ "." +:+ pattern
    /\ remapdata.QueryString rule
       = match parents with
         | [] => remapdata.mkQueryStringRule false false
         | _ => ctxQueryStringRule ctx
         end.
Proof.
  unfold grovetccfg.regexRule, mbind, outcome_bind.
  destruct (trimLiteralRegex _) as [[pattern lit]| | |]; simpl; try done.
  intros [Hname Hq]%parentLoop_Ok. by exists pattern, lit.
Qed.

(** The parent loop returns a rule when every proxy URL parses. *)
Lemma parentLoop_succeeds (ctx : dsContext) (protocolStr : ProtocolStr) (ps : list tc.Server) :
  (forall parent,
      parent ∈ ps ->
      is_Some (url_Parse (buildTo parent (PTo protocolStr) (tc.OrgServerFQDN (ctxDs ctx))
                                  (ctxDsType ctx)).2)) ->
  forall rule, exists rule', parentLoop ctx protocolStr ps rule = Ok rule'.
Proof.
  induction ps as [|parent rest IH]; intros Hurl rule; cbn [parentLoop]; [by eexists|].
  destruct (Hurl parent) as [proxyURL Hp]; [left|].
  destruct (buildTo _ _ _ _) as [to proxyURLStr]. simpl in Hp. rewrite Hp.
  apply IH. intros parent' Hin. apply Hurl. by right.
Qed.

Lemma regexRule_succeeds (ctx : dsContext) (protocolStr : ProtocolStr)
    (dsRegex : tc.DeliveryServiceRegex) (pattern : string) (patternLiteralRegex : bool) :
  trimLiteralRegex (tc.Pattern dsRegex) = Ok (pattern, patternLiteralRegex) ->
  (forall parent,
      parent ∈ parents ->
      is_Some (url_Parse (buildTo parent (PTo protocolStr) (tc.OrgServerFQDN (ctxDs ctx))
                                  (ctxDsType ctx)).2)) ->
  exists rule, regexRule ctx protocolStr dsRegex = Ok rule.
Proof.
  intros Ht Hurl. unfold grovetccfg.regexRule, mbind, outcome_bind. rewrite Ht. simpl.
  by apply parentLoop_succeeds.
Qed.

Lemma regexLoop_Ok (ctx : dsContext) (protocolStr : ProtocolStr)
    (regexes : list tc.DeliveryServiceRegex) :
  forall rules,
    regexLoop ctx protocolStr regexes = Ok rules ->
    Forall2 (fun dsRegex rule => regexRule ctx protocolStr dsRegex = Ok rule) regexes rules.
Proof.
  induction regexes as [|dsRegex rest IH]; intros rules; cbn [grovetccfg.regexLoop].
  - intros [= <-]. constructor.
  - unfold mbind, outcome_bind.
    destruct (regexRule ctx protocolStr dsRegex) as [rule| | |] eqn:Hr; simpl; try done.
    destruct (regexLoop ctx protocolStr rest) as [more| | |]; simpl; try done.
    intros [= <-]. constructor; [done|]. by apply IH.
Qed.

(** A successful protocol loop has found the regexes of the delivery
    service (unless there is no protocol pair) and appended the rules of the
    regex loop once per protocol pair, in order. *)
Lemma protocolLoop_Ok (ctx : dsContext) (pstrs : list ProtocolStr) :
  forall rules,
    protocolLoop ctx pstrs = Ok rules ->
    exists rss,
      rules = concat rss
      /\ Forall2 (fun protocolStr rs =>
                    exists regexes,
                      dsRegexes !! tc.XMLID (ctxDs ctx) = Some regexes
                      /\ regexLoop ctx protocolStr regexes = Ok rs)
                 pstrs rss.
Proof.
  induction pstrs as [|protocolStr rest IH]; intros rules; cbn [grovetccfg.protocolLoop].
  - intros [= <-]. exists []. split; [done|constructor].
  - destruct (dsRegexes !! _) as [regexes|] eqn:Hre; [|done].
    unfold mbind, outcome_bind.
    destruct (regexLoop ctx protocolStr regexes) as [rs| | |] eqn:Hrs; simpl; try done.
    destruct (protocolLoop ctx rest) as [more| | |] eqn:Hmore; simpl; try done.
    intros [= <-]. destruct (IH more eq_refl) as (rss & -> & Hall).
    exists (rs :: rss). split; [done|]. constructor; [|done]. by exists regexes.
Qed.

Lemma protocolLoop_QueryString (ctx : dsContext) (pstrs : list ProtocolStr)
    (rules : list remapdata.RemapRule) :
  protocolLoop ctx pstrs = Ok rules ->
  Forall (fun rule =>
            remapdata.QueryString rule
            = match parents with
              | [] => remapdata.mkQueryStringRule false false
              | _ => ctxQueryStringRule ctx
              end) rules.
Proof.
  intros (rss & -> & Hall)%protocolLoop_Ok.
  induction Hall as [|protocolStr rs pstrs rss (regexes & _ & Hrs) _ IH]; simpl; [constructor|].
  apply Forall_app. split; [|done].
  apply regexLoop_Ok in Hrs. clear -Hrs.
  induction Hrs as [|dsRegex rule regexes rs Hr _ IH]; constructor; [|done].
  by apply regexRule_Ok in Hr as (? & ? & _ & _ & ?).
Qed.

End rule_facts.

(** ** What createRulesOld does with one delivery service of the batch *)

Section assembler_claims.
Import strings grovetccfg.
Context `{External}.
Variable hostname : string.
Variable parents : list tc.Server.
Variable dsRegexes : gmap string (list tc.DeliveryServiceRegex).
Variable cdns : gmap string tc.CDN.
Variable dsCerts : gmap string tc.CDNSSLKeys.
Variable certDir : string.

Local Abbreviation dsRules := (dsRules hostname parents dsRegexes cdns dsCerts certDir).
Local Abbreviation dsLoop := (dsLoop hostname parents dsRegexes cdns dsCerts certDir).
Local Abbreviation run := (fun dses hostParams =>
  createRulesOld hostname dses parents dsRegexes cdns hostParams dsCerts certDir).

Lemma dsRules_header_fails (ds : tc.DeliveryService) (msg : string) :
  typeRecognized (ToLower (tc.Type_ ds)) = true ->
  makeModHdrs (tc.EdgeHeaderRewrite ds) (tc.RemapText ds) = Err msg ->
  isOk (dsRules ds) = false.
Proof.
  intros Ht Hh. unfold grovetccfg.dsRules.
  destruct (getQueryStringRule _); try done.
  destruct (cdns !! _); try done.
  by rewrite Ht, Hh.
Qed.

Lemma dsRules_no_regexes (ds : tc.DeliveryService) (q : remapdata.QueryStringRule)
    (cdn : tc.CDN) (hdrs : web.ModHdrs * web.ModHdrs) (acl : list net.IPNet) :
  getQueryStringRule (tc.QStringIgnore ds) = Ok q ->
  cdns !! tc.CDNName ds = Some cdn ->
  typeRecognized (ToLower (tc.Type_ ds)) = true ->
  makeModHdrs (tc.EdgeHeaderRewrite ds) (tc.RemapText ds) = Ok hdrs ->
  makeACL (tc.RemapText ds) = Ok acl ->
  protocolStrs (tc.Protocol ds) <> [] ->
  dsRegexes !! tc.XMLID ds = None ->
  dsRules ds = Err ("deliveryservice '" +:+ tc.XMLID ds +:+ "' has no regexes").
Proof.
  intros Hq Hc Ht Hh Ha Hp Hre. destruct hdrs as [toClient toOrigin].
  rewrite (dsRules_compiled _ _ _ _ _ _ _ _ _ _ _ _ Hq Hc Ht Hh Ha).
  destruct (protocolStrs (tc.Protocol ds)) as [|protocolStr rest]; [done|].
  cbn [protocolLoop ctxDs]. by rewrite Hre.
Qed.

Lemma dsRules_QueryString (ds : tc.DeliveryService) (q : remapdata.QueryStringRule)
    (rules : list remapdata.RemapRule) :
  getQueryStringRule (tc.QStringIgnore ds) = Ok q ->
  dsRules ds = Ok rules ->
  Forall (fun rule =>
            remapdata.QueryString rule
            = match parents with [] => remapdata.mkQueryStringRule false false | _ => q end)
         rules.
Proof.
  intros Hq Hr. destruct rules as [|rule rules]; [constructor|].
  apply dsRules_Ok_cons in Hr as (q' & cdn & toClient & toOrigin & acl & Hq' & _ & _ & _ & _ & Hp).
  rewrite Hq in Hq'. injection Hq' as <-.
  by apply protocolLoop_QueryString in Hp.
Qed.

(** C1, as amended.  The protocol policy expands to its scheme pairs: HTTP
    to (http,http), HTTPS to (https,https), dual to (http,http) and
    (https,https), upgrade to (http,https) and (https,https).  A delivery
    service with the dual policy, a recognized type prefix, ACL and header
    policies that compile, and exactly two regex patterns gets exactly 4
    rules, one per protocol pair and pattern (named after (http,http) with
    the first and the second pattern, then (https,https) with the first and
    the second pattern), provided that nothing else about it stops the loop
    body: its query-string setting and its CDN are known, its two patterns
    can be trimmed, and the proxy URLs of the parents parse.  Without these
    provisos the body returns an error and no rule is emitted.  In every
    rule set that [createRulesOld] returns, the 4 rules stand between the
    rules of the delivery services before it and those of the delivery
    services after it. *)
Theorem createRulesOld_dual_two_regexes :
  (protocolStrs ProtocolHTTP = [mkProtocolStr "http" "http"]
   /\ protocolStrs ProtocolHTTPS = [mkProtocolStr "https" "https"]
   /\ protocolStrs ProtocolHTTPAndHTTPS
      = [mkProtocolStr "http" "http"; mkProtocolStr "https" "https"]
   /\ protocolStrs ProtocolHTTPToHTTPS
      = [mkProtocolStr "http" "https"; mkProtocolStr "https" "https"])
  /\ forall (ds : tc.DeliveryService) (hdrs : web.ModHdrs * web.ModHdrs)
            (acl : list net.IPNet) (regex1 regex2 : tc.DeliveryServiceRegex),
      tc.Protocol ds = ProtocolHTTPAndHTTPS ->
      typeRecognized (ToLower (tc.Type_ ds)) = true ->
      makeModHdrs (tc.EdgeHeaderRewrite ds) (tc.RemapText ds) = Ok hdrs ->
      makeACL (tc.RemapText ds) = Ok acl ->
      dsRegexes !! tc.XMLID ds = Some [regex1; regex2] ->
      (forall q cdn pattern1 literal1 pattern2 literal2,
          getQueryStringRule (tc.QStringIgnore ds) = Ok q ->
          cdns !! tc.CDNName ds = Some cdn ->
          trimLiteralRegex (tc.Pattern regex1) = Ok (pattern1, literal1) ->
          trimLiteralRegex (tc.Pattern regex2) = Ok (pattern2, literal2) ->
          (forall parent protocol,
              parent ∈ parents ->
              is_Some (url_Parse (buildTo parent protocol (tc.OrgServerFQDN ds)
                                          (ToLower (tc.Type_ ds))).2)) ->
          exists four,
            dsRules ds = Ok four
            /\ length four = 4%nat
            /\ map remapdata.Name four
               = [tc.XMLID ds +:+ ".http.http." +:+ pattern1;
                  tc.XMLID ds +:+ ".http.http." +:+ pattern2;
                  tc.XMLID ds +:+ ".https.https." +:+ pattern1;
                  tc.XMLID ds +:+ ".https.https." +:+ pattern2])
      /\ (forall (pre post : list tc.DeliveryService) (hostParams : list tc.Parameter_)
                 (R : remapdata.RemapRules),
             run (pre ++ ds :: post) hostParams = Ok R ->
             exists before four after pattern1 literal1 pattern2 literal2,
               remapdata.Rules R = before ++ four ++ after
               /\ dsLoop pre [] = Ok before
               /\ dsRules ds = Ok four
               /\ dsLoop post [] = Ok after
               /\ length four = 4%nat
               /\ trimLiteralRegex (tc.Pattern regex1) = Ok (pattern1, literal1)
               /\ trimLiteralRegex (tc.Pattern regex2) = Ok (pattern2, literal2)
               /\ map remapdata.Name four
                  = [tc.XMLID ds +:+ ".http.http." +:+ pattern1;
                     tc.XMLID ds +:+ ".http.http." +:+ pattern2;
                     tc.XMLID ds +:+ ".https.https." +:+ pattern1;
                     tc.XMLID ds +:+ ".https.https." +:+ pattern2]).
Proof.
  split; [by repeat split|].
  intros ds [toClient toOrigin] acl regex1 regex2 Hdual Htype Hhdr Hacl Hregexes.
  assert (Hshape : forall four,
             dsRules ds = Ok four ->
             exists pattern1 literal1 pattern2 literal2,
               length four = 4%nat
               /\ trimLiteralRegex (tc.Pattern regex1) = Ok (pattern1, literal1)
               /\ trimLiteralRegex (tc.Pattern regex2) = Ok (pattern2, literal2)
               /\ map remapdata.Name four
                  = [tc.XMLID ds +:+ ".http.http." +:+ pattern1;
                     tc.XMLID ds +:+ ".http.http." +:+ pattern2;
                     tc.XMLID ds +:+ ".https.https." +:+ pattern1;
                     tc.XMLID ds +:+ ".https.https." +:+ pattern2]).
  { intros four Hds.
    assert (Hctx : exists ctx, tc.XMLID (ctxDs ctx) = tc.XMLID ds
                     /\ protocolLoop hostname parents dsRegexes certDir ctx
                          [mkProtocolStr "http" "http"; mkProtocolStr "https" "https"]
                        = Ok four).
    { destruct (getQueryStringRule (tc.QStringIgnore ds)) as [q| | |] eqn:Hq;
        [|unfold grovetccfg.dsRules in Hds; by rewrite Hq in Hds..].
      destruct (cdns !! tc.CDNName ds) as [cdn|] eqn:Hc;
        [|by rewrite (dsRules_cdn_missing _ _ _ _ _ _ _ _ Hq Hc) in Hds].
      rewrite (dsRules_compiled _ _ _ _ _ _ _ _ _ _ _ _ Hq Hc Htype Hhdr Hacl), Hdual in Hds.
      eexists. split; [|exact Hds]. done. }
    destruct Hctx as (ctx & Hid & Hloop).
    apply protocolLoop_Ok in Hloop as (rss & -> & Hall).
    apply Forall2_cons_inv_l in Hall as (rs1 & rss' & (regexes & Hre & Hrs1) & Hall & ->).
    rewrite Hid, Hregexes in Hre. injection Hre as <-.
    apply Forall2_cons_inv_l in Hall as (rs2 & rss'' & (regexes & Hre & Hrs2) & Hall & ->).
    rewrite Hid, Hregexes in Hre. injection Hre as <-.
    apply Forall2_nil_inv_l in Hall as ->.
    apply regexLoop_Ok in Hrs1, Hrs2.
    apply Forall2_cons_inv_l in Hrs1 as (a & rs1' & Ha & Hrs1 & ->).
    apply Forall2_cons_inv_l in Hrs1 as (b & rs1'' & Hb & Hrs1 & ->).
    apply Forall2_nil_inv_l in Hrs1 as ->.
    apply Forall2_cons_inv_l in Hrs2 as (c & rs2' & Hc & Hrs2 & ->).
    apply Forall2_cons_inv_l in Hrs2 as (d & rs2'' & Hd & Hrs2 & ->).
    apply Forall2_nil_inv_l in Hrs2 as ->.
    apply regexRule_Ok in Ha as (pattern1 & literal1 & Hp1 & Hna & _).
    apply regexRule_Ok in Hb as (pattern2 & literal2 & Hp2 & Hnb & _).
    apply regexRule_Ok in Hc as (pattern1' & literal1' & Hp1' & Hnc & _).
    apply regexRule_Ok in Hd as (pattern2' & literal2' & Hp2' & Hnd & _).
    rewrite Hp1 in Hp1'. injection Hp1' as <- <-.
    rewrite Hp2 in Hp2'. injection Hp2' as <- <-.
    exists pattern1, literal1, pattern2, literal2.
    repeat split; try done.
    simpl. rewrite Hna, Hnb, Hnc, Hnd, Hid. reflexivity. }
  split.
  - intros q cdn pattern1 literal1 pattern2 literal2 Hq Hc Hp1 Hp2 Hurl.
    assert (Hsome : exists four, dsRules ds = Ok four).
    { rewrite (dsRules_compiled _ _ _ _ _ _ _ _ _ _ _ _ Hq Hc Htype Hhdr Hacl), Hdual.
      change (protocolStrs ProtocolHTTPAndHTTPS)
        with [mkProtocolStr "http" "http"; mkProtocolStr "https" "https"].
      set (ctx := mkDsContext ds q cdn _ _ _ _ _).
      cbn [protocolLoop]. change (tc.XMLID (ctxDs ctx)) with (tc.XMLID ds).
      rewrite Hregexes. cbn [regexLoop]. unfold mbind, outcome_bind.
      destruct (regexRule_succeeds hostname parents certDir ctx (mkProtocolStr "http" "http")
                  regex1 _ _ Hp1) as [a ->]; [intros; by apply Hurl|].
      destruct (regexRule_succeeds hostname parents certDir ctx (mkProtocolStr "http" "http")
                  regex2 _ _ Hp2) as [b ->]; [intros; by apply Hurl|].
      destruct (regexRule_succeeds hostname parents certDir ctx (mkProtocolStr "https" "https")
                  regex1 _ _ Hp1) as [c ->]; [intros; by apply Hurl|].
      destruct (regexRule_succeeds hostname parents certDir ctx (mkProtocolStr "https" "https")
                  regex2 _ _ Hp2) as [d ->]; [intros; by apply Hurl|].
      simpl. by eexists. }
    destruct Hsome as [four Hds]. exists four. split; [done|].
    destruct (Hshape four Hds) as (p1 & l1 & p2 & l2 & Hlen & Hp1' & Hp2' & Hnames).
    rewrite Hp1 in Hp1'. injection Hp1' as <- <-.
    rewrite Hp2 in Hp2'. injection Hp2' as <- <-. done.
  - intros pre post hostParams R Hrun.
    apply createRulesOld_Ok_inv in Hrun
      as (before & four & after & Hpre & Hds & Hpost & Hrules).
    destruct (Hshape four Hds) as (p1 & l1 & p2 & l2 & Hlen & Hp1 & Hp2 & Hnames).
    by exists before, four, after, p1, l1, p2, l2.
Qed.

(** C2, as amended.  Two kinds of failure of one delivery service are
    skipped: an unrecognized type and an ACL that does not parse;
    [createRulesOld] then returns what it returns for the batch without that
    delivery service.  The other kinds abort the whole compilation, like a
    header-policy failure: an unknown query-string value, a CDN that is not
    in the CDN map, and a missing regex entry (for a delivery service that
    has a protocol pair). *)
Theorem createRulesOld_failure_kinds (pre post : list tc.DeliveryService)
    (ds : tc.DeliveryService) (hostParams : list tc.Parameter_) :
  (forall q cdn,
      getQueryStringRule (tc.QStringIgnore ds) = Ok q ->
      cdns !! tc.CDNName ds = Some cdn ->
      typeRecognized (ToLower (tc.Type_ ds)) = false ->
      run (pre ++ ds :: post) hostParams = run (pre ++ post) hostParams)
  /\ (forall q cdn hdrs msg,
         getQueryStringRule (tc.QStringIgnore ds) = Ok q ->
         cdns !! tc.CDNName ds = Some cdn ->
         typeRecognized (ToLower (tc.Type_ ds)) = true ->
         makeModHdrs (tc.EdgeHeaderRewrite ds) (tc.RemapText ds) = Ok hdrs ->
         makeACL (tc.RemapText ds) = Err msg ->
         run (pre ++ ds :: post) hostParams = run (pre ++ post) hostParams)
  /\ (forall msg,
         getQueryStringRule (tc.QStringIgnore ds) = Err msg ->
         forall R, run (pre ++ ds :: post) hostParams <> Ok R)
  /\ (forall q,
         getQueryStringRule (tc.QStringIgnore ds) = Ok q ->
         cdns !! tc.CDNName ds = None ->
         forall R, run (pre ++ ds :: post) hostParams <> Ok R)
  /\ (forall q cdn hdrs acl,
         getQueryStringRule (tc.QStringIgnore ds) = Ok q ->
         cdns !! tc.CDNName ds = Some cdn ->
         typeRecognized (ToLower (tc.Type_ ds)) = true ->
         makeModHdrs (tc.EdgeHeaderRewrite ds) (tc.RemapText ds) = Ok hdrs ->
         makeACL (tc.RemapText ds) = Ok acl ->
         protocolStrs (tc.Protocol ds) <> [] ->
         dsRegexes !! tc.XMLID ds = None ->
         forall R, run (pre ++ ds :: post) hostParams <> Ok R).
Proof.
  repeat split.
  - intros q cdn Hq Hc Ht. apply createRulesOld_skip. by eapply dsRules_unrecognized.
  - intros q cdn hdrs msg Hq Hc Ht Hh Ha. apply createRulesOld_skip.
    by eapply dsRules_acl_error.
  - intros msg Hq. apply createRulesOld_fails.
    by rewrite (dsRules_qstring_error _ _ _ _ _ _ _ _ Hq).
  - intros q Hq Hc. apply createRulesOld_fails.
    by rewrite (dsRules_cdn_missing _ _ _ _ _ _ _ _ Hq Hc).
  - intros q cdn hdrs acl Hq Hc Ht Hh Ha Hp Hre. apply createRulesOld_fails.
    by rewrite (dsRules_no_regexes _ _ _ _ _ Hq Hc Ht Hh Ha Hp Hre).
Qed.

(** C3, as amended.  The two policies of a delivery service are compiled
    only when its type prefix is recognized.  For such a delivery service:
    if [makeACL] returns a parse error on its remap text, the loop body
    appends no rule for it, and when the tests before have passed (its
    query-string setting and its CDN are known) and its header policy
    compiles, the body is left by [continue]: [createRulesOld] returns what
    it returns for the batch without it, so no error on its account.  If
    [makeModHdrs] returns an error on its header-rewrite text,
    [createRulesOld] returns no rule set, and when the run has come as far
    as this delivery service's header policy it returns the error of that
    policy.  A delivery service whose type prefix is not recognized is
    stepped over before either policy is compiled: whatever [makeACL] and
    [makeModHdrs] return on its texts, [createRulesOld] returns what it
    returns for the batch without it (its query-string setting and its CDN
    being known). *)
Theorem createRulesOld_policy_errors (pre post : list tc.DeliveryService)
    (ds : tc.DeliveryService) (hostParams : list tc.Parameter_) :
  (typeRecognized (ToLower (tc.Type_ ds)) = true ->
   (forall msg,
       makeACL (tc.RemapText ds) = Err msg ->
       (forall rules, dsRules ds = Ok rules -> rules = [])
       /\ (forall q cdn hdrs,
              getQueryStringRule (tc.QStringIgnore ds) = Ok q ->
              cdns !! tc.CDNName ds = Some cdn ->
              makeModHdrs (tc.EdgeHeaderRewrite ds) (tc.RemapText ds) = Ok hdrs ->
              dsRules ds = Ok []
              /\ run (pre ++ ds :: post) hostParams = run (pre ++ post) hostParams))
   /\ (forall msg,
          makeModHdrs (tc.EdgeHeaderRewrite ds) (tc.RemapText ds) = Err msg ->
          (forall R, run (pre ++ ds :: post) hostParams <> Ok R)
          /\ (forall q cdn allowedIPs before,
                 getQueryStringRule (tc.QStringIgnore ds) = Ok q ->
                 cdns !! tc.CDNName ds = Some cdn ->
                 getAllowIP hostParams = Ok allowedIPs ->
                 dsLoop pre [] = Ok before ->
                 run (pre ++ ds :: post) hostParams
                 = Err ("Making headers for delivery service '" +:+ tc.XMLID ds +:+ "':"
                        +:+ msg))))
  /\ (typeRecognized (ToLower (tc.Type_ ds)) = false ->
      forall q cdn,
        getQueryStringRule (tc.QStringIgnore ds) = Ok q ->
        cdns !! tc.CDNName ds = Some cdn ->
        dsRules ds = Ok []
        /\ run (pre ++ ds :: post) hostParams = run (pre ++ post) hostParams).
Proof.
  split.
  - intros Ht. split.
    + intros msg Ha. split.
      * intros [|rule rules] Hr; [done|].
        apply dsRules_Ok_cons in Hr as (? & ? & ? & ? & acl & _ & _ & _ & _ & Hacl & _).
        by rewrite Ha in Hacl.
      * intros q cdn hdrs Hq Hc Hh.
        assert (Hskip : dsRules ds = Ok []) by by eapply dsRules_acl_error.
        split; [done|]. by apply createRulesOld_skip.
    + intros msg Hh. split.
      * apply createRulesOld_fails. by eapply dsRules_header_fails.
      * intros q cdn allowedIPs before Hq Hc Hallow Hpre.
        eapply createRulesOld_Err; [done..|]. by eapply dsRules_header_error.
  - intros Ht q cdn Hq Hc.
    assert (Hskip : dsRules ds = Ok []) by by eapply dsRules_unrecognized.
    split; [done|]. by apply createRulesOld_skip.
Qed.

(** C8, as amended.  The query-string policy of a delivery service is
    decided by its setting: 0 (cache and remap) and 1 (no cache, remap)
    compile to [{remap:true, cache:true}], 2 (no cache, no remap) to
    [{remap:false, cache:false}], and every other integer is rejected by
    [getQueryStringRule] with an error, on which [createRulesOld] returns no
    rule set.  The compiled policy is attached to every rule of the delivery
    service: for setting 2 always, for settings 0 and 1 when the edge has at
    least one parent. *)
Theorem getQueryStringRule_tristate (ds : tc.DeliveryService) :
  (tc.QStringIgnore ds = DeliveryServiceQueryStringCacheAndRemap
   \/ tc.QStringIgnore ds = DeliveryServiceQueryStringNoCacheRemap ->
   getQueryStringRule (tc.QStringIgnore ds) = Ok (remapdata.mkQueryStringRule true true)
   /\ (parents <> [] ->
       forall rules,
         dsRules ds = Ok rules ->
         Forall (fun rule => remapdata.QueryString rule = remapdata.mkQueryStringRule true true)
                rules))
  /\ (tc.QStringIgnore ds = DeliveryServiceQueryStringNoCacheNoRemap ->
      getQueryStringRule (tc.QStringIgnore ds) = Ok (remapdata.mkQueryStringRule false false)
      /\ forall rules,
           dsRules ds = Ok rules ->
           Forall (fun rule =>
                     remapdata.QueryString rule = remapdata.mkQueryStringRule false false)
                  rules)
  /\ (tc.QStringIgnore ds <> DeliveryServiceQueryStringCacheAndRemap ->
      tc.QStringIgnore ds <> DeliveryServiceQueryStringNoCacheRemap ->
      tc.QStringIgnore ds <> DeliveryServiceQueryStringNoCacheNoRemap ->
      getQueryStringRule (tc.QStringIgnore ds)
      = Err ("unknown delivery service qstringIgnore value '"
             +:+ Itoa (tc.QStringIgnore ds) +:+ "'")
      /\ forall pre post hostParams R, run (pre ++ ds :: post) hostParams <> Ok R).
Proof.
  split; [|split].
  - intros Hv.
    assert (Hq : getQueryStringRule (tc.QStringIgnore ds)
                 = Ok (remapdata.mkQueryStringRule true true)).
    { by destruct Hv as [-> | ->]. }
    split; [done|]. intros Hparents rules Hr.
    pose proof (dsRules_QueryString ds _ rules Hq Hr) as Hall.
    by destruct parents.
  - intros Hv.
    assert (Hq : getQueryStringRule (tc.QStringIgnore ds)
                 = Ok (remapdata.mkQueryStringRule false false)).
    { by rewrite Hv. }
    split; [done|]. intros rules Hr.
    pose proof (dsRules_QueryString ds _ rules Hq Hr) as Hall.
    by destruct parents.
  - intros H0 H1 H2.
    assert (Hq : getQueryStringRule (tc.QStringIgnore ds)
                 = Err ("unknown delivery service qstringIgnore value '"
                        +:+ Itoa (tc.QStringIgnore ds) +:+ "'")).
    { unfold getQueryStringRule.
      apply Z.eqb_neq in H0, H1, H2. by rewrite H0, H1, H2. }
    split; [done|]. intros pre post hostParams R.
    apply createRulesOld_fails.
    by rewrite (dsRules_qstring_error _ _ _ _ _ _ _ _ Hq).
Qed.

End assembler_claims.

(** ** The assembler on the sample batch *)

Section assembler_witnesses.
Import strings grovetccfg.

Lemma createRulesOld_dual_two_regexes_witness :
  (exists four,
      sample.dsRules [sample.mid] sample.dual = Ok four
      /\ length four = 4%nat
      /\ map remapdata.Name four
         = ["ds1" +:+ ".http.http." +:+ "one"; "ds1" +:+ ".http.http." +:+ "two.example";
            "ds1" +:+ ".https.https." +:+ "one"; "ds1" +:+ ".https.https." +:+ "two.example"])
  /\ exists R,
       sample.run ([] ++ sample.dual :: [sample.upgrade]) [sample.mid] = Ok R
       /\ exists before four after pattern1 literal1 pattern2 literal2,
            remapdata.Rules R = before ++ four ++ after
            /\ sample.dsLoop [sample.mid] [] = Ok before
            /\ sample.dsRules [sample.mid] sample.dual = Ok four
            /\ sample.dsLoop [sample.mid] [sample.upgrade] = Ok after
            /\ length four = 4%nat
            /\ trimLiteralRegex ".*\.one\..*" = Ok (pattern1, literal1)
            /\ trimLiteralRegex "two.example" = Ok (pattern2, literal2)
            /\ map remapdata.Name four
               = ["ds1" +:+ ".http.http." +:+ pattern1;
                  "ds1" +:+ ".http.http." +:+ pattern2;
                  "ds1" +:+ ".https.https." +:+ pattern1;
                  "ds1" +:+ ".https.https." +:+ pattern2].
Proof.
  destruct (proj2 (@createRulesOld_dual_two_regexes sample.external "edge0" [sample.mid]
                     sample.regexes sample.cdns ∅ sample.dir)
              sample.dual (web.noModHdrs, web.noModHdrs) []
              (tc.mkDeliveryServiceRegex ".*\.one\..*")
              (tc.mkDeliveryServiceRegex "two.example")
              eq_refl eq_refl eq_refl eq_refl eq_refl) as [Hbody Hrun].
  split.
  - apply (Hbody (remapdata.mkQueryStringRule true true) (tc.mkCDN "cdn.example")
             "one" true "two.example" false); try (vm_compute; reflexivity).
    intros parent protocol Hin. by eexists.
  - eexists. split; [vm_compute; reflexivity|].
    apply (Hrun [] [sample.upgrade] []). vm_compute; reflexivity.
Defined.

(** C2 as stated fails: the delivery service [ds1] names a CDN that is not
    in the CDN map (its header policy compiles), and [createRulesOld] returns
    an error for the whole batch, although the remaining delivery service
    compiles on its own. *)
Lemma createRulesOld_cdn_counterexample :
  makeModHdrs (tc.EdgeHeaderRewrite sample.noCDN) (tc.RemapText sample.noCDN)
  = Ok (web.noModHdrs, web.noModHdrs)
  /\ sample.run [sample.noCDN; sample.upgrade] [sample.mid]
     = Err "deliveryservice 'ds1' CDN 'nocdn' not found"
  /\ isOk (sample.run [sample.upgrade] [sample.mid]) = true.
Proof. repeat split; vm_compute; reflexivity. Qed.

Lemma createRulesOld_failure_kinds_witness :
  sample.run ([] ++ sample.unknownType :: [sample.upgrade]) [sample.mid]
  = sample.run ([] ++ [sample.upgrade]) [sample.mid]
  /\ sample.run ([] ++ sample.badACL :: [sample.upgrade]) [sample.mid]
     = sample.run ([] ++ [sample.upgrade]) [sample.mid]
  /\ (forall R, sample.run ([] ++ sample.badQString :: [sample.upgrade]) [sample.mid] <> Ok R)
  /\ (forall R, sample.run ([] ++ sample.noCDN :: [sample.upgrade]) [sample.mid] <> Ok R)
  /\ (forall R, sample.run ([] ++ sample.noRegexes :: [sample.upgrade]) [sample.mid] <> Ok R).
Proof.
  split; [|split; [|split; [|split]]].
  - eapply (proj1 (@createRulesOld_failure_kinds sample.external "edge0" [sample.mid]
                     sample.regexes sample.cdns ∅ sample.dir
                     [] [sample.upgrade] sample.unknownType []));
      vm_compute; reflexivity.
  - eapply (proj1 (proj2 (@createRulesOld_failure_kinds sample.external "edge0" [sample.mid]
                            sample.regexes sample.cdns ∅ sample.dir
                            [] [sample.upgrade] sample.badACL [])));
      vm_compute; reflexivity.
  - eapply (proj1 (proj2 (proj2 (@createRulesOld_failure_kinds sample.external "edge0"
                                   [sample.mid] sample.regexes sample.cdns ∅ sample.dir
                                   [] [sample.upgrade] sample.badQString []))));
      vm_compute; reflexivity.
  - eapply (proj1 (proj2 (proj2 (proj2 (@createRulesOld_failure_kinds sample.external "edge0"
                                   [sample.mid] sample.regexes sample.cdns ∅ sample.dir
                                   [] [sample.upgrade] sample.noCDN [])))));
      vm_compute; reflexivity.
  - eapply (proj2 (proj2 (proj2 (proj2 (@createRulesOld_failure_kinds sample.external "edge0"
                                   [sample.mid] sample.regexes sample.cdns ∅ sample.dir
                                   [] [sample.upgrade] sample.noRegexes [])))));
      vm_compute; first [reflexivity | discriminate].
Defined.

(** C1 as stated fails: the delivery service [ds1] has the dual policy, a
    recognized type prefix, ACL and header policies that compile and exactly
    two regexes, but its query-string setting is 3, which
    [getQueryStringRule] rejects: the loop body returns an error,
    [createRulesOld] returns no rule set, and no rule is emitted for it. *)
Lemma createRulesOld_dual_counterexample :
  tc.Protocol sample.badQString = ProtocolHTTPAndHTTPS
  /\ @typeRecognized (@ToLower sample.external (tc.Type_ sample.badQString)) = true
  /\ makeACL (tc.RemapText sample.badQString) = Ok []
  /\ makeModHdrs (tc.EdgeHeaderRewrite sample.badQString) (tc.RemapText sample.badQString)
     = Ok (web.noModHdrs, web.noModHdrs)
  /\ sample.regexes !! tc.XMLID sample.badQString
     = Some [tc.mkDeliveryServiceRegex ".*\.one\..*"; tc.mkDeliveryServiceRegex "two.example"]
  /\ sample.dsRules [sample.mid] sample.badQString
     = Err "getting deliveryservice ds1 Query String Rule: unknown delivery service qstringIgnore value '3'"
  /\ sample.run [sample.badQString] [sample.mid]
     = Err "getting deliveryservice ds1 Query String Rule: unknown delivery service qstringIgnore value '3'".
Proof. repeat split; vm_compute; reflexivity. Qed.

(** C3 as stated fails on both sides.  The header policy of the first
    delivery service does not compile, but its type prefix is not
    recognized, so the policy is never compiled: the run is not aborted and
    returns the rule set of the rest of the batch.  And the ACL of a
    delivery service with the query-string setting 3 does not parse, but the
    delivery service is not skipped: the query-string test, which comes
    first, aborts the run. *)
Lemma createRulesOld_policy_counterexample :
  (makeModHdrs (tc.EdgeHeaderRewrite sample.unknownTypeBadHeader)
               (tc.RemapText sample.unknownTypeBadHeader)
   = Err "edge header rewrite: malformed line 'set-header X-Only'"
   /\ sample.run [sample.unknownTypeBadHeader; sample.upgrade] [sample.mid]
      = sample.run [sample.upgrade] [sample.mid]
   /\ isOk (sample.run [sample.unknownTypeBadHeader; sample.upgrade] [sample.mid]) = true)
  /\ (makeACL "@action=allow 10.0.0.300"
      = Err "error parsing allow string: 10.0.0.300, @action=allow 10.0.0.300"
      /\ sample.run [sample.ds "ds1" "cdn1" 2 3 "HTTP" "" "@action=allow 10.0.0.300";
                     sample.upgrade] [sample.mid]
         = Err "getting deliveryservice ds1 Query String Rule: unknown delivery service qstringIgnore value '3'"
      /\ isOk (sample.run [sample.upgrade] [sample.mid]) = true).
Proof. repeat split; vm_compute; reflexivity. Qed.

Lemma createRulesOld_policy_errors_witness :
  ((forall rules, sample.dsRules [sample.mid] sample.badACL = Ok rules -> rules = [])
   /\ sample.dsRules [sample.mid] sample.badACL = Ok []
   /\ sample.run ([sample.dual] ++ sample.badACL :: [sample.upgrade]) [sample.mid]
      = sample.run ([sample.dual] ++ [sample.upgrade]) [sample.mid])
  /\ (forall R,
         sample.run ([sample.dual] ++ sample.badHeader :: [sample.upgrade]) [sample.mid] <> Ok R)
  /\ sample.run ([sample.dual] ++ sample.badHeader :: [sample.upgrade]) [sample.mid]
     = Err ("Making headers for delivery service '" +:+ "ds1" +:+ "':"
            +:+ "edge header rewrite: malformed line 'set-header X-Only'")
  /\ (sample.dsRules [sample.mid] sample.unknownTypeBadHeader = Ok []
      /\ sample.run ([sample.dual] ++ sample.unknownTypeBadHeader :: [sample.upgrade])
           [sample.mid]
         = sample.run ([sample.dual] ++ [sample.upgrade]) [sample.mid]).
Proof.
  split; [|split; [|split]].
  - assert (Ha : makeACL (tc.RemapText sample.badACL)
                 = Err "error parsing allow string: 10.0.0.300, @action=allow 10.0.0.300")
      by (vm_compute; reflexivity).
    destruct (proj1 (proj1 (@createRulesOld_policy_errors sample.external "edge0" [sample.mid]
                              sample.regexes sample.cdns ∅ sample.dir
                              [sample.dual] [sample.upgrade] sample.badACL []) eq_refl)
                _ Ha)
      as [Hnone Hskip].
    split; [exact Hnone|].
    apply (Hskip (remapdata.mkQueryStringRule true true) (tc.mkCDN "cdn.example")
             (web.noModHdrs, web.noModHdrs)); vm_compute; reflexivity.
  - assert (Hh : makeModHdrs (tc.EdgeHeaderRewrite sample.badHeader)
                   (tc.RemapText sample.badHeader)
                 = Err "edge header rewrite: malformed line 'set-header X-Only'")
      by (vm_compute; reflexivity).
    exact (proj1 (proj2 (proj1 (@createRulesOld_policy_errors sample.external "edge0"
                                  [sample.mid] sample.regexes sample.cdns ∅ sample.dir
                                  [sample.dual] [sample.upgrade] sample.badHeader [])
                           eq_refl)
                    _ Hh)).
  - assert (Hh : makeModHdrs (tc.EdgeHeaderRewrite sample.badHeader)
                   (tc.RemapText sample.badHeader)
                 = Err "edge header rewrite: malformed line 'set-header X-Only'")
      by (vm_compute; reflexivity).
    eapply (proj2 (proj2 (proj1 (@createRulesOld_policy_errors sample.external "edge0"
                                   [sample.mid] sample.regexes sample.cdns ∅ sample.dir
                                   [sample.dual] [sample.upgrade] sample.badHeader [])
                            eq_refl)
                     _ Hh));
      vm_compute; reflexivity.
  - apply (proj2 (@createRulesOld_policy_errors sample.external "edge0" [sample.mid]
                    sample.regexes sample.cdns ∅ sample.dir
                    [sample.dual] [sample.upgrade] sample.unknownTypeBadHeader [])
             eq_refl (remapdata.mkQueryStringRule true true) (tc.mkCDN "cdn.example"));
      vm_compute; reflexivity.
Defined.

(** C8 as stated fails at the setting 3, which is not the no-cache-no-remap
    value 2 and does not compile to [{remap:true, cache:true}]: it is an
    error. *)
Lemma getQueryStringRule_counterexample :
  3 <> DeliveryServiceQueryStringNoCacheNoRemap
  /\ getQueryStringRule 3 <> Ok (remapdata.mkQueryStringRule true true)
  /\ getQueryStringRule 3 = Err "unknown delivery service qstringIgnore value '3'".
Proof. repeat split; vm_compute; congruence. Qed.

Lemma getQueryStringRule_tristate_witness :
  (getQueryStringRule 0 = Ok (remapdata.mkQueryStringRule true true)
   /\ forall rules,
        sample.dsRules [sample.mid] sample.dual = Ok rules ->
        Forall (fun rule => remapdata.QueryString rule = remapdata.mkQueryStringRule true true)
               rules)
  /\ (getQueryStringRule 2 = Ok (remapdata.mkQueryStringRule false false)
      /\ forall rules,
           sample.dsRules [sample.mid] sample.upgrade = Ok rules ->
           Forall (fun rule =>
                     remapdata.QueryString rule = remapdata.mkQueryStringRule false false)
                  rules)
  /\ (getQueryStringRule 3 = Err ("unknown delivery service qstringIgnore value '" +:+ Itoa 3 +:+ "'")
      /\ forall pre post hostParams R,
           @createRulesOld sample.external "edge0" (pre ++ sample.badQString :: post)
             [sample.mid] sample.regexes sample.cdns hostParams ∅ sample.dir <> Ok R).
Proof.
  split; [|split].
  - destruct (proj1 (@getQueryStringRule_tristate sample.external "edge0" [sample.mid]
                       sample.regexes sample.cdns ∅ sample.dir sample.dual)
                (or_introl eq_refl)) as [Hq Hrules].
    split; [exact Hq|]. apply Hrules. discriminate.
  - exact (proj1 (proj2 (@getQueryStringRule_tristate sample.external "edge0" [sample.mid]
                           sample.regexes sample.cdns ∅ sample.dir sample.upgrade))
             eq_refl).
  - apply (proj2 (proj2 (@getQueryStringRule_tristate sample.external "edge0" [sample.mid]
                           sample.regexes sample.cdns ∅ sample.dir sample.badQString)));
      vm_compute; discriminate.
Defined.

End assembler_witnesses.

(** ** The entity index *)

Section index_facts.
Import grovetccfg.

(** A map filled by [m[key x] = val x] over a list has, at each key, the
    value of the last element with that key. *)
Lemma foldl_insert_lookup {K A B : Type} `{Countable K} (key : B -> K) (val : B -> A)
    (xs : list B) :
  forall (m0 : gmap K A) (k : K),
    foldl (fun m x => <[key x := val x]> m) m0 xs !! k
    = match last (filter (fun x => key x = k) xs) with
      | Some x => Some (val x)
      | None => m0 !! k
      end.
Proof.
  induction xs as [|x xs IH]; intros m0 k; [done|].
  cbn [foldl]. rewrite IH, filter_cons.
  destruct (decide (key x = k)) as [Hk|Hk].
  - rewrite last_cons. destruct (last _); [done|].
    by rewrite Hk, lookup_insert_eq.
  - destruct (last _); [done|]. by rewrite lookup_insert_ne.
Qed.

Lemma makeServersHostnameMap_lookup (servers : list tc.Server) (h : string) :
  makeServersHostnameMap servers !! h
  = last (filter (fun server => tc.HostName server = h) servers).
Proof.
  unfold makeServersHostnameMap.
  rewrite foldl_insert_lookup, lookup_empty. by destruct (last _).
Qed.

Lemma last_filter_Some {A : Type} (P : A -> Prop) `{!forall x, Decision (P x)}
    (l : list A) (x : A) :
  last (filter P l) = Some x -> P x /\ x ∈ l.
Proof. intros Hl%last_Some_elem_of. by apply list_elem_of_filter in Hl. Qed.

Lemma last_filter_is_Some {A : Type} (P : A -> Prop) `{!forall x, Decision (P x)}
    (l : list A) :
  is_Some (last (filter P l)) <-> exists x, x ∈ l /\ P x.
Proof.
  split.
  - intros [x [HP Hin]%last_filter_Some]. eauto.
  - intros (x & Hin & HP). destruct (last (filter P l)) eqn:Hl; [done|].
    apply last_None in Hl.
    assert (x ∈ filter P l) as Hf by by apply list_elem_of_filter.
    rewrite Hl in Hf. by apply elem_of_nil in Hf.
Qed.

(** X1.  Each index built from a list of records has, at a key, the last
    record of the list with that key (a later record overwrites an earlier
    one), and nothing at a key that no record has; the regex index has the
    regex list of that record. *)
Theorem index_last_wins :
  (forall servers h,
      makeServersHostnameMap servers !! h
      = last (filter (fun server => tc.HostName server = h) servers))
  /\ (forall cgs name,
         makeCachegroupsNameMap cgs !! name
         = last (filter (fun cg => tc.CacheGroupName cg = name) cgs))
  /\ (forall dses xmlid,
         makeDeliveryservicesXMLIDMap dses !! xmlid
         = last (filter (fun ds => tc.XMLID ds = xmlid) dses))
  /\ (forall dsrs name,
         makeDeliveryserviceRegexMap dsrs !! name
         = tc.Regexes <$> last (filter (fun dsr => tc.DSName dsr = name) dsrs))
  /\ (forall (DS : Type) (ID : DS -> Z) dses id,
         makeDeliveryservicesIDMap ID dses !! id = last (filter (fun ds => ID ds = id) dses))
  /\ (forall (CDN : Type) (Name : CDN -> string) cdns name,
         makeCDNMap Name cdns !! name = last (filter (fun cdn => Name cdn = name) cdns))
  /\ (forall (Keys : Type) (DeliveryService : Keys -> string) sslKeys xmlid,
         makeDSCertMap DeliveryService sslKeys !! xmlid
         = last (filter (fun sslkey => DeliveryService sslkey = xmlid) sslKeys)).
Proof.
  repeat split; intros;
    match goal with
    | |- ?f _ !! _ = _ => unfold f
    | |- ?f _ _ _ !! _ = _ => unfold f
    end;
    rewrite foldl_insert_lookup, lookup_empty; by destruct (last _).
Qed.

(** X2.  Every entry of the server index is stored under its own hostname
    and comes from the list; a hostname is in the index exactly when some
    server of the list has it. *)
Theorem makeServersHostnameMap_entries (servers : list tc.Server) (h : string) :
  (forall server,
      makeServersHostnameMap servers !! h = Some server ->
      tc.HostName server = h /\ server ∈ servers)
  /\ (is_Some (makeServersHostnameMap servers !! h)
      <-> exists server, server ∈ servers /\ tc.HostName server = h).
Proof.
  rewrite makeServersHostnameMap_lookup. split.
  - intros server Hl. by apply last_filter_Some in Hl.
  - apply last_filter_is_Some.
Qed.

Lemma makeServersHostnameMap_entries_witness :
  (tc.HostName sample.mid = "mid0" /\ sample.mid ∈ [sample.edge; sample.mid])
  /\ is_Some (makeServersHostnameMap [sample.edge; sample.mid] !! "mid0").
Proof.
  split.
  - apply (proj1 (makeServersHostnameMap_entries [sample.edge; sample.mid] "mid0")).
    vm_compute; reflexivity.
  - apply (proj2 (makeServersHostnameMap_entries [sample.edge; sample.mid] "mid0")).
    exists sample.mid. split; [right; left|reflexivity].
Defined.

(** X3.  When [getParents] returns, the parents are exactly the servers of
    the map whose cache group is the parent name of the target's cache group
    (no server is left out, no other server is added). *)
Theorem getParents_members (hostname : string) (servers : gmap string tc.Server)
    (cachegroups : gmap string tc.CacheGroup) (parents : list tc.Server) :
  getParents hostname servers cachegroups = Ok parents ->
  exists server cachegroup,
    servers !! hostname = Some server
    /\ cachegroups !! tc.Cachegroup server = Some cachegroup
    /\ forall parent,
         parent ∈ parents
         <-> (exists h, servers !! h = Some parent)
             /\ tc.Cachegroup parent = tc.ParentName cachegroup.
Proof.
  unfold getParents.
  destruct (servers !! hostname) as [server|] eqn:Hs; [|done].
  destruct (cachegroups !! tc.Cachegroup server) as [cachegroup|] eqn:Hc; [|done].
  intros [= <-]. exists server, cachegroup. split; [done|]. split; [done|].
  intros parent. split.
  - intros [Hcg [[h s] [Heq Hin]]%list_elem_of_fmap]%list_elem_of_filter.
    simpl in Heq. subst s. split; [|done]. exists h. by apply elem_of_map_to_list in Hin.
  - intros [[h Hl] Hcg]. apply list_elem_of_filter. split; [done|].
    apply list_elem_of_fmap. exists (h, parent). split; [done|].
    by apply elem_of_map_to_list.
Qed.

Lemma getParents_members_witness :
  exists server cachegroup,
    sample.servers !! "edge0" = Some server
    /\ sample.cachegroups !! tc.Cachegroup server = Some cachegroup
    /\ forall parent,
         parent ∈ [sample.mid]
         <-> (exists h, sample.servers !! h = Some parent)
             /\ tc.Cachegroup parent = tc.ParentName cachegroup.
Proof.
  apply (getParents_members "edge0" sample.servers sample.cachegroups [sample.mid]).
  vm_compute; reflexivity.
Defined.

Lemma makeDeliveryservicesIDMap_lookup {DS : Type} (ID : DS -> Z) (dses : list DS) (id : Z) :
  makeDeliveryservicesIDMap ID dses !! id = last (filter (fun ds => ID ds = id) dses).
Proof.
  unfold makeDeliveryservicesIDMap.
  rewrite foldl_insert_lookup, lookup_empty. by destruct (last _).
Qed.

Lemma filterParents_elem_of (parents : list tc.Server) (include : tc.Server -> bool)
    (s : tc.Server) :
  s ∈ filterParents parents include <-> s ∈ parents /\ include s = true.
Proof.
  unfold filterParents. rewrite !list_elem_of_In. apply filter_In.
Qed.

(** X4.  The two filters that [createRulesOldAPI] applies to the parents
    keep exactly the parents in the CDN of the target host whose status,
    in lower case, is [reported] or [online]; and two filters applied one
    after the other give the same list in either order. *)
Theorem filterParents_pipeline `{External} (hostServer : tc.Server) (parents : list tc.Server) :
  (forall s,
      s ∈ filterParents (filterParents parents (sameCDN hostServer)) serverAvailable
      <-> s ∈ parents
          /\ tc.ServerCDNName s = tc.ServerCDNName hostServer
          /\ (ToLower (tc.Status s) = "reported" \/ ToLower (tc.Status s) = "online"))
  /\ (forall include include' : tc.Server -> bool,
         filterParents (filterParents parents include) include'
         = filterParents (filterParents parents include') include).
Proof.
  split.
  - intros s. rewrite !filterParents_elem_of. unfold sameCDN, serverAvailable.
    rewrite String.eqb_eq, bool_decide_eq_true. unfold AvailableStatuses.
    rewrite elem_of_union, !elem_of_singleton. tauto.
  - intros include include'. unfold filterParents.
    induction parents as [|p ps IH]; [done|]. simpl.
    destruct (include p) eqn:Hi, (include' p) eqn:Hi'; simpl;
      rewrite ?Hi, ?Hi'; by rewrite IH.
Qed.

Lemma filterParents_pipeline_witness :
  sample.mid
  ∈ filterParents (filterParents [sample.edge; sample.mid] (sameCDN sample.edge))
                  (@serverAvailable sample.external).
Proof.
  apply (proj1 (@filterParents_pipeline sample.external sample.edge [sample.edge; sample.mid])).
  split; [right; left|]. split; [reflexivity|]. left. reflexivity.
Defined.

(** The assignment loop: what it appends, one delivery service per
    assignment to the server, in order. *)
Lemma serverDsesLoop_Ok {DS : Type} (pointerText : tc.DeliveryServiceServer -> string)
    (dsByID : gmap Z DS) (serverID : Z) (dssrvs : list tc.DeliveryServiceServer) :
  forall serverDses result,
    serverDsesLoop pointerText dsByID serverID dssrvs serverDses = Ok result ->
    exists new,
      result = serverDses ++ new
      /\ Forall2 (fun dssrv ds =>
                    exists id, tc.DssDeliveryService dssrv = Some id /\ dsByID !! id = Some ds)
                 (filter (assignedTo serverID) dssrvs) new.
Proof.
  induction dssrvs as [|dssrv rest IH]; intros serverDses result; cbn [serverDsesLoop].
  - intros [= <-]. exists []. split; [by rewrite app_nil_r|constructor].
  - rewrite filter_cons.
    destruct (tc.DssServer dssrv) as [srv|] eqn:Hsrv.
    + destruct (tc.DssDeliveryService dssrv) as [id|] eqn:Hid.
      * destruct (srv =? serverID) eqn:Heq; cbn [negb].
        -- apply Z.eqb_eq in Heq as ->.
           destruct (dsByID !! id) as [ds|] eqn:Hds; [|done].
           intros (new & -> & Hall)%IH. exists (ds :: new).
           rewrite decide_True by (unfold assignedTo; by rewrite Hsrv, Hid).
           split; [by rewrite <- app_assoc|]. constructor; [|done]. by exists id.
        -- apply Z.eqb_neq in Heq.
           rewrite decide_False
             by (unfold assignedTo; rewrite Hsrv; intros [[= ?] _]; done).
           apply IH.
      * rewrite decide_False by (unfold assignedTo; rewrite Hid; by intros [_ ?]). apply IH.
    + rewrite decide_False by (unfold assignedTo; rewrite Hsrv; by intros [? _]). apply IH.
Qed.

Lemma serverDsesLoop_Err {DS : Type} (pointerText : tc.DeliveryServiceServer -> string)
    (dsByID : gmap Z DS) (serverID : Z) (dssrvs : list tc.DeliveryServiceServer)
    (dssrv : tc.DeliveryServiceServer) (id : Z) :
  dssrv ∈ dssrvs ->
  tc.DssServer dssrv = Some serverID ->
  tc.DssDeliveryService dssrv = Some id ->
  dsByID !! id = None ->
  forall serverDses,
    exists failed,
      failed ∈ dssrvs
      /\ serverDsesLoop pointerText dsByID serverID dssrvs serverDses
         = Err ("delivery service ID " +:+ pointerText failed
                +:+ " not found in Traffic Ops DeliveryServices").
Proof.
  intros Hin Hsrv Hid Hnone.
  induction Hin as [dssrv rest|dssrv other rest Hin IH]; intros serverDses;
    cbn [serverDsesLoop].
  - exists dssrv. split; [left|]. by rewrite Hsrv, Hid, Z.eqb_refl, Hnone.
  - specialize (IH Hsrv Hid).
    assert (Hrest : forall acc,
               exists failed,
                 failed ∈ other :: rest
                 /\ serverDsesLoop pointerText dsByID serverID rest acc
                    = Err ("delivery service ID " +:+ pointerText failed
                           +:+ " not found in Traffic Ops DeliveryServices")).
    { intros acc. destruct (IH acc) as (failed & Hf & ->). exists failed.
      split; [by right|done]. }
    destruct (tc.DssServer other) as [srv|]; [|apply Hrest].
    destruct (tc.DssDeliveryService other) as [id'|]; [|apply Hrest].
    destruct (negb (srv =? serverID)); [apply Hrest|].
    destruct (dsByID !! id'); [apply Hrest|].
    exists other. split; [left|done].
Qed.

(** X5.  [getServerDeliveryservices] fails when the host is not a server;
    when it returns, it returns one delivery service of the list per
    assignment that names the server and a delivery service (assignments
    with a nil field or for another server are stepped over), in the
    order of the assignments, each with the ID the assignment names; and it
    fails, on some assignment of the list, when such an assignment names an
    ID that no delivery service has. *)
Theorem getServerDeliveryservices_assigned {Server DS : Type} (ServerID : Server -> Z)
    (ID : DS -> Z) (pointerText : tc.DeliveryServiceServer -> string) (hostname : string)
    (servers : gmap string Server) (dssrvs : list tc.DeliveryServiceServer) (dses : list DS) :
  (servers !! hostname = None ->
   getServerDeliveryservices ServerID ID pointerText hostname servers dssrvs dses
   = Err ("server " +:+ hostname +:+ " not found in Traffic Ops Servers"))
  /\ (forall server result,
         servers !! hostname = Some server ->
         getServerDeliveryservices ServerID ID pointerText hostname servers dssrvs dses
         = Ok result ->
         Forall2 (fun dssrv ds =>
                    tc.DssDeliveryService dssrv = Some (ID ds) /\ ds ∈ dses)
                 (filter (assignedTo (ServerID server)) dssrvs) result)
  /\ (forall server dssrv id,
         servers !! hostname = Some server ->
         dssrv ∈ dssrvs ->
         tc.DssServer dssrv = Some (ServerID server) ->
         tc.DssDeliveryService dssrv = Some id ->
         (forall ds, ds ∈ dses -> ID ds <> id) ->
         exists failed,
           failed ∈ dssrvs
           /\ getServerDeliveryservices ServerID ID pointerText hostname servers dssrvs dses
              = Err ("delivery service ID " +:+ pointerText failed
                     +:+ " not found in Traffic Ops DeliveryServices")).
Proof.
  unfold getServerDeliveryservices. split; [|split].
  - by intros ->.
  - intros server result -> (new & -> & Hall)%serverDsesLoop_Ok. simpl.
    eapply Forall2_impl; [exact Hall|].
    intros dssrv ds (id & Hid & Hds). rewrite makeDeliveryservicesIDMap_lookup in Hds.
    apply last_filter_Some in Hds as [<- Hin]. done.
  - intros server dssrv id -> Hin Hsrv Hid Hnone.
    eapply serverDsesLoop_Err; [done..|].
    rewrite makeDeliveryservicesIDMap_lookup.
    destruct (last _) as [ds|] eqn:Hl; [|done].
    apply last_filter_Some in Hl as [Heq Hds]. by destruct (Hnone ds Hds).
Qed.

Lemma getServerDeliveryservices_assigned_witness :
  getServerDeliveryservices tc.TCPPort tc.DSCP (fun _ => "0xc000012345") "nohost"
    sample.servers [tc.mkDeliveryServiceServer (Some 80) (Some 0)] [sample.dual]
  = Err ("server " +:+ "nohost" +:+ " not found in Traffic Ops Servers")
  /\ Forall2 (fun dssrv ds =>
                tc.DssDeliveryService dssrv = Some (tc.DSCP ds) /\ ds ∈ [sample.dual])
             (filter (assignedTo (tc.TCPPort sample.edge))
                     [tc.mkDeliveryServiceServer None (Some 0);
                      tc.mkDeliveryServiceServer (Some 80) (Some 0);
                      tc.mkDeliveryServiceServer (Some 81) (Some 7)])
             [sample.dual]
  /\ exists failed,
       failed ∈ [tc.mkDeliveryServiceServer (Some 80) (Some 7)]
       /\ getServerDeliveryservices tc.TCPPort tc.DSCP (fun _ => "0xc000012345") "edge0"
            sample.servers [tc.mkDeliveryServiceServer (Some 80) (Some 7)] [sample.dual]
          = Err ("delivery service ID " +:+ "0xc000012345"
                 +:+ " not found in Traffic Ops DeliveryServices").
Proof.
  split; [|split].
  - apply (proj1 (getServerDeliveryservices_assigned tc.TCPPort tc.DSCP
                    (fun _ => "0xc000012345") "nohost" sample.servers
                    [tc.mkDeliveryServiceServer (Some 80) (Some 0)] [sample.dual])).
    vm_compute; reflexivity.
  - apply (proj1 (proj2 (getServerDeliveryservices_assigned tc.TCPPort tc.DSCP
                           (fun _ => "0xc000012345") "edge0" sample.servers
                           [tc.mkDeliveryServiceServer None (Some 0);
                            tc.mkDeliveryServiceServer (Some 80) (Some 0);
                            tc.mkDeliveryServiceServer (Some 81) (Some 7)] [sample.dual]))
             sample.edge [sample.dual]); vm_compute; reflexivity.
  - apply (proj2 (proj2 (getServerDeliveryservices_assigned tc.TCPPort tc.DSCP
                           (fun _ => "0xc000012345") "edge0" sample.servers
                           [tc.mkDeliveryServiceServer (Some 80) (Some 7)] [sample.dual]))
             sample.edge (tc.mkDeliveryServiceServer (Some 80) (Some 7)) 7);
      try (vm_compute; reflexivity); [left|].
    intros ds [->|[]%elem_of_nil]%elem_of_cons. discriminate.
Defined.

End index_facts.

(** ** Prefixes, suffixes and reversal *)

Section shape_facts.
Import strings.

Lemma append_length (a b : string) :
  String.length (a +:+ b) = (String.length a + String.length b)%nat.
Proof. induction a as [|c a IH]; [done|]. rewrite append_cons. simpl. by rewrite IH. Qed.

Lemma drop_append (a b : string) : drop (String.length a) (a +:+ b) = b.
Proof. induction a as [|c a IH]; [by destruct b|]. by rewrite append_cons. Qed.

Lemma take_append (a b : string) : take (String.length a) (a +:+ b) = a.
Proof.
  induction a as [|c a IH]; [by destruct b|]. rewrite append_cons. simpl. by rewrite IH.
Qed.

Lemma HasPrefix_inv (s p : string) :
  HasPrefix s p = true -> s = p +:+ drop (String.length p) s.
Proof.
  revert s. induction p as [|c p IH]; intros s; [by destruct s|].
  destruct s as [|a s]; [done|]. cbn [HasPrefix].
  intros [Hc Hp]%andb_true_iff. apply Ascii.eqb_eq in Hc as ->.
  rewrite append_cons. simpl. f_equal. by apply IH.
Qed.

Lemma rev_onto_append (s acc : string) : rev_onto s acc = reverse s +:+ acc.
Proof.
  unfold reverse. revert acc. induction s as [|c s IH]; intros acc; [done|].
  cbn [rev_onto]. rewrite (IH (String c acc)), (IH (String c "")).
  by rewrite append_assoc.
Qed.

Lemma reverse_cons (c : ascii) (s : string) : reverse (String c s) = reverse s +:+ String c "".
Proof. unfold reverse at 1. cbn [rev_onto]. apply rev_onto_append. Qed.

Lemma reverse_append (a b : string) : reverse (a +:+ b) = reverse b +:+ reverse a.
Proof.
  induction a as [|c a IH]; [by rewrite append_nil_l, append_nil_r|].
  by rewrite append_cons, !reverse_cons, IH, append_assoc.
Qed.

Lemma reverse_involutive (s : string) : reverse (reverse s) = s.
Proof.
  induction s as [|c s IH]; [done|].
  by rewrite reverse_cons, reverse_append, IH.
Qed.

Lemma reverse_length (s : string) : String.length (reverse s) = String.length s.
Proof.
  induction s as [|c s IH]; [done|].
  rewrite reverse_cons, append_length, IH. simpl. lia.
Qed.

Lemma HasSuffix_app (a x : string) : HasSuffix (a +:+ x) x = true.
Proof. unfold HasSuffix. rewrite reverse_append. apply HasPrefix_app. Qed.

Lemma HasSuffix_inv (s x : string) :
  HasSuffix s x = true ->
  exists t, s = t +:+ x /\ String.length s = (String.length t + String.length x)%nat.
Proof.
  unfold HasSuffix. intros Hp%HasPrefix_inv.
  exists (reverse (drop (String.length (reverse x)) (reverse s))).
  assert (Hs : s = reverse (drop (String.length (reverse x)) (reverse s)) +:+ x).
  { rewrite <- (reverse_involutive s) at 1. rewrite Hp at 1.
    by rewrite reverse_append, reverse_involutive. }
  split; [done|]. rewrite Hs at 1. apply append_length.
Qed.

Lemma drop_append_le (n : nat) (a b : string) :
  (n <= String.length a)%nat -> drop n (a +:+ b) = drop n a +:+ b.
Proof.
  revert a. induction n as [|n IH]; intros a Hn; [done|].
  destruct a as [|c a]; [simpl in Hn; lia|].
  rewrite append_cons. simpl. apply IH. simpl in Hn. lia.
Qed.

Lemma drop_length (n : nat) (s : string) :
  String.length (drop n s) = (String.length s - n)%nat.
Proof.
  revert s. induction n as [|n IH]; intros s; [simpl; lia|].
  destruct s as [|c s]; [done|]. simpl. apply IH.
Qed.

(** A separator whose first byte does not occur in the text does not split
    it. *)
Lemma splitFrom_no_first (c : ascii) (sep s : string) :
  occurs c s = false -> splitFrom (String c sep) 0 s = [s].
Proof.
  induction s as [|a s IH]; [done|]. simpl.
  intros [Ha Hs]%orb_false_elim. rewrite Ha. simpl. by rewrite IH.
Qed.

End shape_facts.

(** ** Literal patterns and certificate file names *)

Section pattern_facts.
Import strings grovetccfg.

(** The only pattern on which the slice of [trimLiteralRegex] is out of
    range. *)
Lemma trimLiteralRegex_Panic_inv (s msg : string) :
  trimLiteralRegex s = Panic msg -> s = ".*\..*".
Proof.
  intros Hp. unfold trimLiteralRegex in Hp.
  destruct (HasPrefix s ".*\.") eqn:Hpre; [|done].
  destruct (HasSuffix s "\..*") eqn:Hsuf; [|done]. cbn [andb] in Hp.
  destruct (_ <? _)%nat eqn:Hlen; [|done].
  apply Nat.ltb_lt in Hlen. change (String.length ".*\.") with 4%nat in *.
  change (String.length "\..*") with 4%nat in *.
  apply HasPrefix_inv in Hpre. change (String.length ".*\.") with 4%nat in Hpre.
  assert (Hshort : (String.length (drop 4 s) < 4)%nat) by (rewrite drop_length; lia).
  rewrite Hpre in Hsuf |- *. clear Hpre Hlen Hp.
  destruct (drop 4 s) as [|a [|b [|c [|d r]]]]; simpl in Hshort; try lia; clear Hshort;
    lazy [HasSuffix reverse rev_onto String.append HasPrefix] in Hsuf;
    repeat match goal with
           | H : (_ && _) = true |- _ => apply andb_true_iff in H as [? ?]
           | H : Ascii.eqb _ _ = true |- _ => apply Ascii.eqb_eq in H
           end;
    try discriminate.
  by subst.
Qed.

(** X6.  [trimLiteralRegex] is the inverse of wrapping a fragment in the
    literal convention: a fragment between the prefix [.*\.] and the suffix
    [\..*] comes back, marked literal; a pattern that comes back marked
    literal is its result between the prefix and the suffix; a pattern that
    comes back unmarked comes back unchanged; and the function panics on
    exactly one pattern, [.*\..*], in which the prefix and the suffix
    overlap. *)
Theorem trimLiteralRegex_inverse :
  (forall x, trimLiteralRegex (".*\." +:+ x +:+ "\..*") = Ok (x, true))
  /\ (forall s pattern,
         trimLiteralRegex s = Ok (pattern, true) -> s = ".*\." +:+ pattern +:+ "\..*")
  /\ (forall s pattern, trimLiteralRegex s = Ok (pattern, false) -> pattern = s)
  /\ (forall s, (exists msg, trimLiteralRegex s = Panic msg) <-> s = ".*\..*").
Proof.
  split; [|split; [|split]].
  - intros x. unfold trimLiteralRegex.
    rewrite HasPrefix_app.
    replace (".*\." +:+ x +:+ "\..*") with ((".*\." +:+ x) +:+ "\..*")
      by apply append_assoc.
    rewrite HasSuffix_app. cbn [andb].
    rewrite !append_length. change (String.length ".*\.") with 4%nat.
    change (String.length "\..*") with 4%nat.
    replace (4 + String.length x + 4 - 4 <? 4)%nat with false
      by (symmetry; apply Nat.ltb_ge; lia).
    replace (4 + String.length x + 4 - 4 - 4)%nat with (String.length x) by lia.
    rewrite append_assoc. change 4%nat with (String.length ".*\.") at 1.
    by rewrite drop_append, take_append.
  - intros s pattern. unfold trimLiteralRegex.
    destruct (HasPrefix s ".*\.") eqn:Hpre; [|done].
    destruct (HasSuffix s "\..*") eqn:Hsuf; [|done]. cbn [andb].
    destruct (_ <? _)%nat eqn:Hlen; [done|]. intros [= <-].
    apply Nat.ltb_ge in Hlen. change (String.length ".*\.") with 4%nat in *.
    change (String.length "\..*") with 4%nat in *.
    apply HasSuffix_inv in Hsuf as (t & Hs & Hl).
    change (String.length "\..*") with 4%nat in Hl.
    apply HasPrefix_inv in Hpre. change (String.length ".*\.") with 4%nat in Hpre.
    assert (Hr : drop 4 s = drop 4 t +:+ "\..*")
      by (rewrite Hs at 1; apply drop_append_le; lia).
    assert (Hn : (String.length s - 4 - 4)%nat = String.length (drop 4 t))
      by (rewrite drop_length; lia).
    change (s = ".*\." +:+ take (String.length s - 4 - 4) (drop 4 s) +:+ "\..*").
    rewrite Hn, Hr, take_append, <- Hr. exact Hpre.
  - intros s pattern. unfold trimLiteralRegex.
    destruct (HasPrefix s ".*\." && HasSuffix s "\..*"); [|by intros [= <-]].
    by destruct (_ <? _)%nat.
  - intros s. split; [|intros ->; by eexists].
    intros [msg Hp]. by eapply trimLiteralRegex_Panic_inv.
Qed.

Lemma trimLiteralRegex_inverse_witness :
  ".*\.one\..*" = ".*\." +:+ "one" +:+ "\..*" /\ "two.example" = "two.example".
Proof.
  split.
  - apply (proj1 (proj2 trimLiteralRegex_inverse) ".*\.one\..*" "one").
    vm_compute; reflexivity.
  - apply (proj1 (proj2 (proj2 trimLiteralRegex_inverse)) "two.example" "two.example").
    vm_compute; reflexivity.
Defined.

(** X7.  The certificate and key file names of a certificate stand in the
    certificate directory and differ only in their extension; a wildcard
    prefix [*.] of the host name is left out of the file name, and a host
    name without an asterisk is used as it is. *)
Theorem getCertFileName_wildcard (cert : tc.CDNSSLKeys) (dir host : string) :
  occurs "*"%char host = false ->
  (tc.Hostname cert = "*." +:+ host \/ tc.Hostname cert = host) ->
  getCertFileName cert dir = dir +:+ "/" +:+ host +:+ ".crt"
  /\ getCertKeyFileName cert dir = dir +:+ "/" +:+ host +:+ ".key".
Proof.
  intros Hno Hhost. unfold getCertFileName, getCertKeyFileName.
  assert (Hr : ReplaceAll (tc.Hostname cert) "*." "" = host).
  { unfold ReplaceAll, Split.
    destruct Hhost as [-> | ->].
    - rewrite !append_cons, append_nil_l. cbn [splitFrom HasPrefix String.length].
      rewrite !Ascii.eqb_refl. cbn [andb Nat.sub].
      assert (HasPrefix host "" = true) as -> by by destruct host.
      change (splitFrom "*." 0 host) with (splitFrom (String "*" ".") 0 host).
      rewrite splitFrom_no_first by done. cbn [Join]. done.
    - change (splitFrom "*." 0 host) with (splitFrom (String "*" ".") 0 host).
      by rewrite splitFrom_no_first. }
  by rewrite Hr.
Qed.

Lemma getCertFileName_wildcard_witness :
  getCertFileName (tc.mkCDNSSLKeys "*.ds1.cdn.example" "" "") "/etc/grove/ssl"
  = "/etc/grove/ssl" +:+ "/" +:+ "ds1.cdn.example" +:+ ".crt"
  /\ getCertKeyFileName (tc.mkCDNSSLKeys "*.ds1.cdn.example" "" "") "/etc/grove/ssl"
     = "/etc/grove/ssl" +:+ "/" +:+ "ds1.cdn.example" +:+ ".key".
Proof.
  apply (getCertFileName_wildcard (tc.mkCDNSSLKeys "*.ds1.cdn.example" "" "")
           "/etc/grove/ssl" "ds1.cdn.example").
  - vm_compute; reflexivity.
  - left. reflexivity.
Defined.

End pattern_facts.

(** ** The rules of a delivery service, one by one *)

Section rule_shape.
Import strings grovetccfg.
Context `{External}.
Variable hostname : string.
Variable parents : list tc.Server.
Variable dsRegexes : gmap string (list tc.DeliveryServiceRegex).
Variable cdns : gmap string tc.CDN.
Variable dsCerts : gmap string tc.CDNSSLKeys.
Variable certDir : string.

Local Abbreviation dsRules := (dsRules hostname parents dsRegexes cdns dsCerts certDir).
Local Abbreviation dsLoop := (dsLoop hostname parents dsRegexes cdns dsCerts certDir).
Local Abbreviation regexRule := (regexRule hostname parents certDir).
Local Abbreviation regexLoop := (regexLoop hostname parents certDir).
Local Abbreviation protocolLoop := (protocolLoop hostname parents dsRegexes certDir).
Local Abbreviation run := (fun dses hostParams =>
  createRulesOld hostname dses parents dsRegexes cdns hostParams dsCerts certDir).

(** The loop over the delivery services succeeds exactly when its body
    does on every one of them, and then appends their rules in order. *)
Lemma dsLoop_Ok_concat (dses : list tc.DeliveryService) :
  forall rules result,
    dsLoop dses rules = Ok result
    <-> exists rss,
          Forall2 (fun ds rs => dsRules ds = Ok rs) dses rss
          /\ result = rules ++ concat rss.
Proof.
  induction dses as [|ds rest IH]; intros rules result; cbn [grovetccfg.dsLoop].
  - split.
    + intros [= <-]. exists []. split; [constructor|by rewrite app_nil_r].
    + intros (rss & Hall & ->). apply Forall2_nil_inv_l in Hall as ->.
      by rewrite app_nil_r.
  - unfold mbind, outcome_bind. split.
    + destruct (dsRules ds) as [new| | |] eqn:Hds; simpl; try done.
      intros (rss & Hall & ->)%IH. exists (new :: rss).
      split; [by constructor|]. simpl. by rewrite app_assoc.
    + intros (rss & Hall & ->).
      apply Forall2_cons_inv_l in Hall as (new & rss' & Hds & Hall & ->).
      rewrite Hds. simpl. apply IH. exists rss'. split; [done|].
      simpl. by rewrite app_assoc.
Qed.

(** What the parent loop does to a rule: it appends one destination per
    parent, in order, sets the policy fields when there is a parent, and
    leaves the name, the match expression and the certificate files
    alone. *)
Lemma parentLoop_effect (ctx : dsContext) (protocolStr : ProtocolStr) (ps : list tc.Server) :
  forall rule rule',
    parentLoop ctx protocolStr ps rule = Ok rule' ->
    remapdata.Name rule' = remapdata.Name rule
    /\ remapdata.From rule' = remapdata.From rule
    /\ remapdata.CertificateFile rule' = remapdata.CertificateFile rule
    /\ remapdata.CertificateKeyFile rule' = remapdata.CertificateKeyFile rule
    /\ (exists tos,
           remapdata.To rule' = remapdata.To rule ++ tos
           /\ Forall2 (fun parent to =>
                         remapdata.ToURL to = tc.OrgServerFQDN (ctxDs ctx)
                         /\ url_Parse (buildTo parent (PTo protocolStr)
                                         (tc.OrgServerFQDN (ctxDs ctx)) (ctxDsType ctx)).2
                            = Some (remapdata.ToProxyURL to)
                         /\ remapdata.ToWeight to = Some DefaultRuleWeight
                         /\ remapdata.ToRetryNum to = Some DefaultRetryNum
                         /\ remapdata.ToTimeout to = Some DefaultTimeout)
                      ps tos)
    /\ match ps with
       | [] => rule' = rule
       | _ =>
           remapdata.Allow rule' = ctxAcl ctx
           /\ remapdata.Plugins rule' !! "modify_headers" = Some (ctxToClientHeaders ctx)
           /\ remapdata.Plugins rule' !! "modify_parent_request_headers"
              = Some (ctxToOriginHeaders ctx)
           /\ remapdata.PluginsShared rule' !! RemapTextKey
              = Some (json_Marshal (tc.RemapText (ctxDs ctx)))
           /\ remapdata.DSCP rule' = tc.DSCP (ctxDs ctx)
           /\ remapdata.RetryNum rule' = Some DefaultRetryNum
           /\ remapdata.Timeout rule' = Some DefaultTimeout
           /\ remapdata.ConnectionClose rule' = false
           /\ remapdata.ParentSelection rule' = Some DefaultRuleParentSelection
       end.
Proof.
  induction ps as [|parent rest IH]; intros rule rule'; cbn [parentLoop].
  - intros [= <-]. repeat split; try done. exists []. split; [by rewrite app_nil_r|constructor].
  - destruct (buildTo parent _ _ _) as [to proxyURLStr] eqn:Hb.
    destruct (url_Parse proxyURLStr) as [proxyURL|] eqn:Hu; [|done].
    intros (Hn & Hf & Hc & Hk & (tos & Hto & Hall) & Hpol)%IH.
    split; [done|]. split; [done|]. split; [done|]. split; [done|]. split.
    + eexists (_ :: tos). split; [rewrite Hto; simpl; by rewrite <- app_assoc|].
      constructor; [|done].
      assert (to = tc.OrgServerFQDN (ctxDs ctx)) as ->
        by (unfold buildTo in Hb; by injection Hb as <- _).
      rewrite Hb. cbn [snd remapdata.ToURL remapdata.ToProxyURL remapdata.ToWeight
                       remapdata.ToRetryNum remapdata.ToTimeout]. by rewrite Hu.
    + destruct rest as [|next rest].
      * subst rule'. simpl. rewrite lookup_insert_ne by done.
        by rewrite !lookup_insert_eq.
      * done.
Qed.

(** The rule that one protocol pair and one regex give. *)
Lemma regexRule_effect (ctx : dsContext) (protocolStr : ProtocolStr)
    (dsRegex : tc.DeliveryServiceRegex) (rule : remapdata.RemapRule) :
  regexRule ctx protocolStr dsRegex = Ok rule ->
  exists pattern patternLiteralRegex,
    trimLiteralRegex (tc.Pattern dsRegex) = Ok (pattern, patternLiteralRegex)
    /\ parentLoop ctx protocolStr parents
         (newRule hostname certDir ctx protocolStr pattern patternLiteralRegex) = Ok rule.
Proof.
  unfold grovetccfg.regexRule, mbind, outcome_bind.
  destruct (trimLiteralRegex _) as [[pattern lit]| | |]; simpl; try done.
  intros Hp. by exists pattern, lit.
Qed.

(** Every rule of a delivery service comes from one of its protocol pairs
    and one of its regexes, with the policies the loop body compiled. *)
Lemma dsRules_rule_inv (ds : tc.DeliveryService) (rules : list remapdata.RemapRule)
    (rule : remapdata.RemapRule) :
  dsRules ds = Ok rules ->
  rule ∈ rules ->
  exists q cdn toClient toOrigin acl regexes protocolStr dsRegex,
    getQueryStringRule (tc.QStringIgnore ds) = Ok q
    /\ cdns !! tc.CDNName ds = Some cdn
    /\ makeModHdrs (tc.EdgeHeaderRewrite ds) (tc.RemapText ds) = Ok (toClient, toOrigin)
    /\ makeACL (tc.RemapText ds) = Ok acl
    /\ dsRegexes !! tc.XMLID ds = Some regexes
    /\ protocolStr ∈ protocolStrs (tc.Protocol ds)
    /\ dsRegex ∈ regexes
    /\ regexRule
         (mkDsContext ds q cdn (dsCerts !! tc.XMLID ds) (ToLower (tc.Type_ ds))
                      toClient toOrigin acl)
         protocolStr dsRegex = Ok rule.
Proof.
  intros Hds Hin. destruct rules as [|r0 rules0]; [by apply elem_of_nil in Hin|].
  apply dsRules_Ok_cons in Hds
    as (q & cdn & toClient & toOrigin & acl & Hq & Hc & _ & Hh & Ha & Hloop).
  exists q, cdn, toClient, toOrigin, acl.
  apply protocolLoop_Ok in Hloop as (rss & Heq & Hall). rewrite Heq in Hin.
  apply list_elem_of_In, in_concat in Hin as (rs & Hrs & Hrule).
  apply list_elem_of_In in Hrs, Hrule.
  apply list_elem_of_lookup in Hrs as [i Hi].
  destruct (Forall2_lookup_r _ _ _ _ _ Hall Hi) as (protocolStr & Hp & regexes & Hre & Hrs).
  apply regexLoop_Ok in Hrs.
  apply list_elem_of_lookup in Hrule as [j Hj].
  destruct (Forall2_lookup_r _ _ _ _ _ Hrs Hj) as (dsRegex & Hd & Hrule).
  exists regexes, protocolStr, dsRegex. simpl in Hre.
  repeat split; try done; by eapply list_elem_of_lookup_2.
Qed.

(** All the regexes of a successful regex loop can be trimmed, and the
    rules are named after the trimmed patterns, in order. *)
Lemma regexLoop_names (ctx : dsContext) (protocolStr : ProtocolStr)
    (regexes : list tc.DeliveryServiceRegex) :
  forall rules,
    regexLoop ctx protocolStr regexes = Ok rules ->
    exists patterns,
      Forall2 (fun dsRegex pattern =>
                 exists literal, trimLiteralRegex (tc.Pattern dsRegex) = Ok (pattern, literal))
              regexes patterns
      /\ map remapdata.Name rules
         = map (fun pattern =>
                  tc.XMLID (ctxDs ctx) +:+ "." +:+ PFrom protocolStr +:+ "."
                  +:+ PTo protocolStr +:+ "." +:+ pattern) patterns.
Proof.
  intros rules Hall%regexLoop_Ok.
  induction Hall as [|dsRegex rule regexes rules Hr _ (patterns & Hp & Hn)].
  - exists []. split; [constructor|done].
  - apply regexRule_Ok in Hr as (pattern & literal & Ht & Hname & _).
    exists (pattern :: patterns). split; [constructor; [by exists literal|done]|].
    simpl. by rewrite Hname, Hn.
Qed.

Lemma trimmed_unique (regexes : list tc.DeliveryServiceRegex) (patterns patterns' : list string) :
  Forall2 (fun dsRegex pattern =>
             exists literal, trimLiteralRegex (tc.Pattern dsRegex) = Ok (pattern, literal))
          regexes patterns ->
  Forall2 (fun dsRegex pattern =>
             exists literal, trimLiteralRegex (tc.Pattern dsRegex) = Ok (pattern, literal))
          regexes patterns' ->
  patterns = patterns'.
Proof.
  intros Hp. revert patterns'.
  induction Hp as [|dsRegex pattern regexes patterns [lit Ht] _ IH]; intros patterns' Hp'.
  - by apply Forall2_nil_inv_l in Hp'.
  - apply Forall2_cons_inv_l in Hp' as (pattern' & rest & [lit' Ht'] & Hrest & ->).
    rewrite Ht in Ht'. injection Ht' as <- _. f_equal. by apply IH.
Qed.

(** X8.  [createRulesOld] returns a rule set exactly when the allow-list
    of the host parameters compiles and the loop body succeeds on every
    delivery service; the rules are then those of the delivery services in
    the order of the list, the allow-list is the compiled one, and the
    global block carries the fixed [Server] header. *)
Theorem createRulesOld_rules_in_order (dses : list tc.DeliveryService)
    (hostParams : list tc.Parameter_) (R : remapdata.RemapRules) :
  run dses hostParams = Ok R
  <-> exists allowedIPs rss,
        getAllowIP hostParams = Ok allowedIPs
        /\ Forall2 (fun ds rs => dsRules ds = Ok rs) dses rss
        /\ R = {| remapdata.Rules := concat rss;
                  remapdata.RulesRetryCodes := ∅;
                  remapdata.RulesTimeout := Some DefaultTimeout;
                  remapdata.RulesParentSelection :=
                    Some remapdata.ParentSelectionTypeConsistentHash;
                  remapdata.StatsAllow := allowedIPs;
                  remapdata.RulesPlugins :=
                    {[ "modify_response_headers_global"
                       := web.mkModHdrs [web.mkHdr "Server" "Grove/0.33"] [] ]} |}.
Proof.
  unfold createRulesOld, createRulesOld_. split.
  - destruct (getAllowIP hostParams) as [allowedIPs| | |]; try done.
    unfold mbind, outcome_bind.
    destruct (grovetccfg.dsLoop _ _ _ _ _ _ dses []) as [rules| | |] eqn:Hl; simpl; try done.
    apply dsLoop_Ok_concat in Hl as (rss & Hall & ->). intros [= <-].
    by exists allowedIPs, rss.
  - intros (allowedIPs & rss & -> & Hall & ->).
    assert (Hl : dsLoop dses [] = Ok (concat rss)).
    { apply dsLoop_Ok_concat. by exists rss. }
    unfold mbind, outcome_bind. by rewrite Hl.
Qed.

(** X9.  The rules of one delivery service are named after its protocol
    pairs and its trimmed patterns, pair by pair and, within a pair, regex by
    regex: there are as many as protocol pairs times regexes. *)
Theorem dsRules_names (ds : tc.DeliveryService) (rules : list remapdata.RemapRule) :
  dsRules ds = Ok rules ->
  rules <> [] ->
  exists regexes patterns,
    dsRegexes !! tc.XMLID ds = Some regexes
    /\ Forall2 (fun dsRegex pattern =>
                  exists literal,
                    trimLiteralRegex (tc.Pattern dsRegex) = Ok (pattern, literal))
               regexes patterns
    /\ map remapdata.Name rules
       = flat_map (fun protocolStr =>
                     map (fun pattern =>
                            tc.XMLID ds +:+ "." +:+ PFrom protocolStr +:+ "."
                            +:+ PTo protocolStr +:+ "." +:+ pattern) patterns)
                  (protocolStrs (tc.Protocol ds))
    /\ length rules = (length (protocolStrs (tc.Protocol ds)) * length regexes)%nat.
Proof.
  intros Hds Hne. destruct rules as [|r0 rules0]; [done|].
  apply dsRules_Ok_cons in Hds
    as (q & cdn & toClient & toOrigin & acl & _ & _ & _ & _ & _ & Hloop).
  set (ctx := mkDsContext ds q cdn _ _ _ _ _) in Hloop.
  apply protocolLoop_Ok in Hloop as (rss & Heq & Hall).
  change (tc.XMLID (ctxDs ctx)) with (tc.XMLID ds) in Hall.
  destruct Hall as [|protocolStr rs pstrs rss (regexes & Hre & Hrs) Hall]; [done|].
  destruct (regexLoop_names _ _ _ _ Hrs) as (patterns & Hpat & _).
  exists regexes, patterns. split; [done|]. split; [done|].
  assert (Hall' : Forall2 (fun protocolStr rs => regexLoop ctx protocolStr regexes = Ok rs)
                          (protocolStr :: pstrs) (rs :: rss)).
  { constructor; [done|]. eapply Forall2_impl; [exact Hall|].
    intros p rs' (regexes' & Hre' & Hrs'). rewrite Hre in Hre'. by injection Hre' as <-. }
  rewrite Heq. clear Heq Hall Hrs Hne.
  induction Hall' as [|p rs' ps rss' Hrs' _ [IHn IHl]]; [done|].
  destruct (regexLoop_names _ _ _ _ Hrs') as (patterns' & Hpat' & Hnames).
  rewrite (trimmed_unique _ _ _ Hpat' Hpat) in Hnames.
  apply regexLoop_Ok, Forall2_length in Hrs'.
  split.
  - simpl. by rewrite map_app, Hnames, IHn.
  - simpl. rewrite length_app, IHl. lia.
Qed.

(** X10.  A protocol value outside 0..3 gives no protocol pair: such a
    delivery service never has a rule, and when the tests before the
    protocol loop pass it is stepped over without an error, whether it has
    regexes or not. *)
Theorem dsRules_protocol_out_of_range (ds : tc.DeliveryService) :
  tc.Protocol ds < 0 \/ 3 < tc.Protocol ds ->
  (forall rules, dsRules ds = Ok rules -> rules = [])
  /\ (forall q cdn hdrs acl,
         getQueryStringRule (tc.QStringIgnore ds) = Ok q ->
         cdns !! tc.CDNName ds = Some cdn ->
         typeRecognized (ToLower (tc.Type_ ds)) = true ->
         makeModHdrs (tc.EdgeHeaderRewrite ds) (tc.RemapText ds) = Ok hdrs ->
         makeACL (tc.RemapText ds) = Ok acl ->
         dsRules ds = Ok []).
Proof.
  intros Hrange.
  assert (Hnone : protocolStrs (tc.Protocol ds) = []).
  { unfold protocolStrs, ProtocolHTTP, ProtocolHTTPS, ProtocolHTTPAndHTTPS,
      ProtocolHTTPToHTTPS.
    destruct Hrange; by rewrite !(proj2 (Z.eqb_neq _ _)) by lia. }
  split.
  - intros [|rule rules] Hr; [done|].
    apply dsRules_Ok_cons in Hr as (? & ? & ? & ? & ? & _ & _ & _ & _ & _ & Hloop).
    by rewrite Hnone in Hloop.
  - intros q cdn [toClient toOrigin] acl Hq Hc Ht Hh Ha.
    by rewrite (dsRules_compiled _ _ _ _ _ _ _ _ _ _ _ _ Hq Hc Ht Hh Ha), Hnone.
Qed.

(** X11.  Every rule of a delivery service has one destination per parent,
    in the order of the parents: its URL is the origin of the delivery
    service, its proxy is what [url.Parse] makes of the parent's
    [http://host.domain:port], or of the empty string for a type that skips
    the mid tier, and its weight, retries and timeout are the defaults. *)
Theorem dsRules_destinations (ds : tc.DeliveryService) (rules : list remapdata.RemapRule)
    (rule : remapdata.RemapRule) :
  dsRules ds = Ok rules ->
  rule ∈ rules ->
  Forall2 (fun parent to =>
             remapdata.ToURL to = tc.OrgServerFQDN ds
             /\ url_Parse (if dsTypeSkipsMid (ToLower (tc.Type_ ds)) then ""
                           else "http://" +:+ tc.HostName parent +:+ "."
                                +:+ tc.DomainName parent +:+ ":"
                                +:+ Itoa (tc.TCPPort parent))
                = Some (remapdata.ToProxyURL to)
             /\ remapdata.ToWeight to = Some 1
             /\ remapdata.ToRetryNum to = Some 5
             /\ remapdata.ToTimeout to = Some 5000000000)
          parents (remapdata.To rule).
Proof.
  intros Hds Hin.
  destruct (dsRules_rule_inv _ _ _ Hds Hin)
    as (q & cdn & toClient & toOrigin & acl & regexes & protocolStr & dsRegex
        & _ & _ & _ & _ & _ & _ & _ & Hrule).
  apply regexRule_effect in Hrule as (pattern & lit & _ & Hloop).
  apply parentLoop_effect in Hloop as (_ & _ & _ & _ & (tos & Hto & Hall) & _).
  rewrite Hto. simpl. eapply Forall2_impl; [exact Hall|].
  intros parent to (Hu & Hp & Hw & Hr & Ht). split; [done|]. split; [|done].
  rewrite <- Hp. unfold buildTo. simpl. by destruct (dsTypeSkipsMid _).
Qed.

Lemma protocolStrs_From (protocol : Z) (protocolStr : ProtocolStr) :
  protocolStr ∈ protocolStrs protocol ->
  PFrom protocolStr = "http" \/ PFrom protocolStr = "https".
Proof.
  unfold protocolStrs. intros Hin.
  repeat case_match;
    repeat (apply elem_of_cons in Hin as [->|Hin]);
    try (by apply elem_of_nil in Hin); auto.
Qed.

Lemma buildFrom_scheme (protocol pattern : string) (patternLiteralRegex : bool)
    (host dsType cdnDomain : string) :
  HasPrefix (buildFrom protocol pattern patternLiteralRegex host dsType cdnDomain)
            (protocol +:+ "://") = true.
Proof.
  unfold buildFrom.
  destruct patternLiteralRegex; [destruct (HasPrefix dsType "http")|]; cbn [negb];
    rewrite <- append_assoc; apply HasPrefix_app.
Qed.

(** X12.  Certificate files are bound to the [https] routes only: a rule
    that matches [http://] requests never names certificate files, and a rule
    that matches [https://] requests names the two files of the delivery
    service's SSL key record when [dsCerts] has one for its XMLID, and none
    when it has not (the route is emitted all the same). *)
Theorem dsRules_certificates (ds : tc.DeliveryService) (rules : list remapdata.RemapRule)
    (rule : remapdata.RemapRule) :
  dsRules ds = Ok rules ->
  rule ∈ rules ->
  (HasPrefix (remapdata.From rule) "http://" = true
   /\ remapdata.CertificateFile rule = ""
   /\ remapdata.CertificateKeyFile rule = "")
  \/ (HasPrefix (remapdata.From rule) "https://" = true
      /\ match dsCerts !! tc.XMLID ds with
         | Some cert =>
             remapdata.CertificateFile rule = getCertFileName cert certDir
             /\ remapdata.CertificateKeyFile rule = getCertKeyFileName cert certDir
         | None =>
             remapdata.CertificateFile rule = ""
             /\ remapdata.CertificateKeyFile rule = ""
         end).
Proof.
  intros Hds Hin.
  destruct (dsRules_rule_inv _ _ _ Hds Hin)
    as (q & cdn & toClient & toOrigin & acl & regexes & protocolStr & dsRegex
        & _ & _ & _ & _ & _ & Hp & _ & Hrule).
  apply regexRule_effect in Hrule as (pattern & lit & _ & Hloop).
  apply parentLoop_effect in Hloop as (_ & -> & -> & -> & _).
  cbn [newRule remapdata.From remapdata.CertificateFile remapdata.CertificateKeyFile
       ctxCert ctxDsType ctxCdn].
  destruct (protocolStrs_From _ _ Hp) as [Hf|Hf]; rewrite Hf; [left|right].
  - split; [apply (buildFrom_scheme "http")|]. by destruct (dsCerts !! _).
  - split; [apply (buildFrom_scheme "https")|]. by destruct (dsCerts !! _).
Qed.

(** X13.  The policy of a delivery service reaches its rules through the
    parent loop only.  With at least one parent, every rule carries the
    compiled ACL, the two compiled header lists, the JSON of the remap text,
    the DSCP of the delivery service and the default retries, timeout and
    parent selection.  With no parent, every rule is emitted bare: no
    destination, no ACL, no plugin, DSCP 0, and no retries, timeout or parent
    selection. *)
Theorem dsRules_policy_needs_parent (ds : tc.DeliveryService)
    (rules : list remapdata.RemapRule) (rule : remapdata.RemapRule) :
  dsRules ds = Ok rules ->
  rule ∈ rules ->
  match parents with
  | [] =>
      remapdata.To rule = []
      /\ remapdata.Allow rule = []
      /\ remapdata.Plugins rule = ∅
      /\ remapdata.PluginsShared rule = ∅
      /\ remapdata.DSCP rule = 0
      /\ remapdata.RetryNum rule = None
      /\ remapdata.Timeout rule = None
      /\ remapdata.ParentSelection rule = None
  | _ =>
      makeACL (tc.RemapText ds) = Ok (remapdata.Allow rule)
      /\ (exists toClient toOrigin,
             makeModHdrs (tc.EdgeHeaderRewrite ds) (tc.RemapText ds) = Ok (toClient, toOrigin)
             /\ remapdata.Plugins rule !! "modify_headers" = Some toClient
             /\ remapdata.Plugins rule !! "modify_parent_request_headers" = Some toOrigin)
      /\ remapdata.PluginsShared rule !! RemapTextKey = Some (json_Marshal (tc.RemapText ds))
      /\ remapdata.DSCP rule = tc.DSCP ds
      /\ remapdata.RetryNum rule = Some 5
      /\ remapdata.Timeout rule = Some 5000000000
      /\ remapdata.ParentSelection rule = Some remapdata.ParentSelectionTypeConsistentHash
  end.
Proof.
  intros Hds Hin.
  destruct (dsRules_rule_inv _ _ _ Hds Hin)
    as (q & cdn & toClient & toOrigin & acl & regexes & protocolStr & dsRegex
        & _ & _ & Hh & Ha & _ & _ & _ & Hrule).
  apply regexRule_effect in Hrule as (pattern & lit & _ & Hloop).
  apply parentLoop_effect in Hloop as (_ & _ & _ & _ & _ & Hpol).
  destruct parents as [|parent rest].
  - by subst rule.
  - destruct Hpol as (Hallow & Hc & Ho & Hs & Hd & Hr & Ht & _ & Hsel).
    simpl in *. rewrite Hallow. split; [done|].
    split; [by exists toClient, toOrigin|done].
Qed.

(** *** What can go wrong beyond an error *)

Lemma makeAllowIPLoop_cases (ips : list string) :
  (exists nets, makeAllowIPLoop ips = Ok nets) \/ (exists msg, makeAllowIPLoop ips = Err msg).
Proof.
  induction ips as [|ip rest IH]; cbn [makeAllowIPLoop]; [eauto|].
  destruct (net.ParseCIDR _); [|eauto].
  destruct IH as [[nets ->] | [msg ->]]; simpl; eauto.
Qed.

Lemma hdrLines_cases (lines : list string) :
  forall st, (exists st', hdrLines lines st = Ok st') \/ (exists msg, hdrLines lines st = Err msg).
Proof.
  induction lines as [|line rest IH]; intros st; cbn [hdrLines]; [eauto|].
  destruct (hdrLine_cases line st) as [[st' ->] | ->]; simpl; eauto.
Qed.

Lemma makeModHdrs_cases (edgeHRW remapTXT : string) :
  (exists hdrs, makeModHdrs edgeHRW remapTXT = Ok hdrs)
  \/ (exists msg, makeModHdrs edgeHRW remapTXT = Err msg).
Proof.
  unfold makeModHdrs. destruct (_ && _); [eauto|].
  destruct (strings.Contains _ _); [|eauto].
  destruct (hdrLines_cases (Split (Join (Fields edgeHRW) " ") "__RETURN__")
              (mkHdrState true web.noModHdrs web.noModHdrs)) as [[st' ->] | [msg ->]];
    simpl; eauto.
Qed.

Lemma makeACL_cases (remapTxt : string) :
  (exists nets, makeACL remapTxt = Ok nets) \/ (exists msg, makeACL remapTxt = Err msg).
Proof.
  unfold makeACL, makeACLWithin. destruct (HasPrefix _ _); [|eauto].
  destruct (_ <? _)%nat; [eauto|].
  by destruct (aclLoop_fuel maskLoopBound (Join (Fields remapTxt) " ")
                 (skipn 1 (Split (Join (Fields remapTxt) " ") " ")) (Nat.le_refl _) [])
    as [_ ?].
Qed.

Lemma parentLoop_cases (ctx : dsContext) (protocolStr : ProtocolStr) (ps : list tc.Server) :
  forall rule,
    (exists rule', parentLoop ctx protocolStr ps rule = Ok rule')
    \/ (exists msg, parentLoop ctx protocolStr ps rule = Err msg).
Proof.
  induction ps as [|parent rest IH]; intros rule; cbn [parentLoop]; [eauto|].
  destruct (buildTo _ _ _ _) as [to proxyURLStr].
  destruct (url_Parse proxyURLStr); [apply IH|eauto].
Qed.

Lemma regexLoop_cases (ctx : dsContext) (protocolStr : ProtocolStr)
    (regexes : list tc.DeliveryServiceRegex) :
  (exists rules, regexLoop ctx protocolStr regexes = Ok rules)
  \/ (exists msg, regexLoop ctx protocolStr regexes = Err msg)
  \/ ((exists msg, regexLoop ctx protocolStr regexes = Panic msg) /\ overlapping regexes).
Proof.
  induction regexes as [|dsRegex rest IH]; cbn [grovetccfg.regexLoop]; [eauto|].
  unfold grovetccfg.regexRule.
  destruct (trimLiteralRegex (tc.Pattern dsRegex)) as [[pattern lit]|msg|msg|] eqn:Ht.
  - simpl.
    destruct (parentLoop_cases ctx protocolStr parents
                (newRule hostname certDir ctx protocolStr pattern lit)) as [[rule ->] | [msg ->]];
      simpl; [|eauto].
    destruct IH as [[rules ->] | [[msg ->] | [[msg ->] (re & Hin & Hre)]]]; simpl; eauto.
    right. right. split; [eauto|]. exists re. split; [by right|done].
  - unfold trimLiteralRegex in Ht. by repeat case_match.
  - simpl. right. right. split; [eauto|]. exists dsRegex. split; [left|].
    by eapply trimLiteralRegex_Panic_inv.
  - unfold trimLiteralRegex in Ht. by repeat case_match.
Qed.

Lemma protocolLoop_cases (ctx : dsContext) (pstrs : list ProtocolStr) :
  (exists rules, protocolLoop ctx pstrs = Ok rules)
  \/ (exists msg, protocolLoop ctx pstrs = Err msg)
  \/ ((exists msg, protocolLoop ctx pstrs = Panic msg)
      /\ exists regexes,
           dsRegexes !! tc.XMLID (ctxDs ctx) = Some regexes /\ overlapping regexes).
Proof.
  induction pstrs as [|protocolStr rest IH]; cbn [grovetccfg.protocolLoop]; [eauto|].
  destruct (dsRegexes !! _) as [regexes|] eqn:Hre; [|eauto].
  destruct (regexLoop_cases ctx protocolStr regexes)
    as [[rules ->] | [[msg ->] | [[msg ->] Hover]]]; simpl; [|eauto|eauto 7].
  destruct IH as [[rules' ->] | [[msg ->] | [[msg ->] Hover]]]; simpl; eauto.
Qed.

Lemma dsRules_cases (ds : tc.DeliveryService) :
  (exists rules, dsRules ds = Ok rules)
  \/ (exists msg, dsRules ds = Err msg)
  \/ ((exists msg, dsRules ds = Panic msg)
      /\ exists regexes, dsRegexes !! tc.XMLID ds = Some regexes /\ overlapping regexes).
Proof.
  unfold grovetccfg.dsRules.
  assert (Hq : (exists q, getQueryStringRule (tc.QStringIgnore ds) = Ok q)
               \/ (exists msg, getQueryStringRule (tc.QStringIgnore ds) = Err msg))
    by (unfold getQueryStringRule; repeat case_match; eauto).
  destruct Hq as [[q ->] | [msg ->]]; [|eauto].
  destruct (cdns !! _) as [cdn|]; [|eauto].
  destruct (typeRecognized _); cbn [negb]; [|eauto].
  destruct (makeModHdrs_cases (tc.EdgeHeaderRewrite ds) (tc.RemapText ds))
    as [[[toClient toOrigin] ->] | [msg ->]]; [|eauto].
  destruct (makeACL_cases (tc.RemapText ds)) as [[acl ->] | [msg ->]]; [|eauto].
  apply protocolLoop_cases.
Qed.

Lemma dsLoop_cases (dses : list tc.DeliveryService) :
  forall rules,
    (exists result, dsLoop dses rules = Ok result)
    \/ (exists msg, dsLoop dses rules = Err msg)
    \/ ((exists msg, dsLoop dses rules = Panic msg)
        /\ exists ds regexes,
             ds ∈ dses /\ dsRegexes !! tc.XMLID ds = Some regexes /\ overlapping regexes).
Proof.
  induction dses as [|ds rest IH]; intros rules; cbn [grovetccfg.dsLoop]; [eauto|].
  destruct (dsRules_cases ds) as [[new ->] | [[msg ->] | [[msg ->] (regexes & Hre & Hover)]]];
    simpl; [|eauto|].
  - destruct (IH (rules ++ new)) as [? | [? | [? (ds' & regexes & Hin & Hre & Hover)]]]; auto.
    right. right. split; [done|]. exists ds', regexes. split; [by right|done].
  - right. right. split; [eauto|]. exists ds, regexes. split; [left|done].
Qed.

(** X14.  [createRulesOld] always comes back: with a rule set, with an
    error, or with the run-time panic of [trimLiteralRegex]'s slice, which
    needs a delivery service of the batch with the regex [.*\..*] (the
    literal prefix and suffix overlapping on one dot).  Nothing else in the
    assembler panics, and the mask loop of [makeACL] never runs past its
    bound. *)
Theorem createRulesOld_panics_only_on_overlap (dses : list tc.DeliveryService)
    (hostParams : list tc.Parameter_) :
  (exists R, run dses hostParams = Ok R)
  \/ (exists msg, run dses hostParams = Err msg)
  \/ ((exists msg, run dses hostParams = Panic msg)
      /\ exists ds regexes dsRegex,
           ds ∈ dses
           /\ dsRegexes !! tc.XMLID ds = Some regexes
           /\ dsRegex ∈ regexes
           /\ tc.Pattern dsRegex = ".*\..*").
Proof.
  unfold createRulesOld, createRulesOld_, getAllowIP, makeAllowIP.
  destruct (makeAllowIPLoop_cases
              (flat_map
                 (fun param =>
                    if ((tc.ParamName param =? "allow_ip")%string
                        || (tc.ParamName param =? "allow_ip6")%string)
                       && (tc.ConfigFile param =? "astats.config")%string
                    then Split (tc.Value param) ","
                    else []) hostParams)) as [[nets ->] | [msg ->]]; [|eauto].
  destruct (dsLoop_cases dses [])
    as [[rules Hl] | [[msg Hl] | [[msg Hl] (ds & regexes & Hin & Hre & re & Hrin & Hpat)]]];
    unfold mbind, outcome_bind; rewrite Hl; simpl; eauto.
  right. right. split; [eauto|]. by exists ds, regexes, re.
Qed.

(** X23.  The match expression of every rule is built from one protocol
    pair and one regex of the delivery service: the scheme of the pair, then
    the regex as it is when it is not of the literal form, and otherwise the
    trimmed fragment between the host name of the cache (for an HTTP type;
    [edge] for a DNS type) and the domain of the delivery service's CDN.  The
    name of the rule joins the XMLID, the pair and the trimmed pattern. *)
Theorem dsRules_from (ds : tc.DeliveryService) (rules : list remapdata.RemapRule)
    (rule : remapdata.RemapRule) :
  dsRules ds = Ok rules ->
  rule ∈ rules ->
  exists cdn regexes protocolStr dsRegex pattern literal,
    cdns !! tc.CDNName ds = Some cdn
    /\ dsRegexes !! tc.XMLID ds = Some regexes
    /\ protocolStr ∈ protocolStrs (tc.Protocol ds)
    /\ dsRegex ∈ regexes
    /\ trimLiteralRegex (tc.Pattern dsRegex) = Ok (pattern, literal)
    /\ remapdata.Name rule
       = tc.XMLID ds +:+ "." +:+ PFrom protocolStr +:+ "." +:+ PTo protocolStr
         +:+ "." +:+ pattern
    /\ remapdata.From rule
       = PFrom protocolStr +:+ "://"
         +:+ (if literal
              then (if HasPrefix (ToLower (tc.Type_ ds)) "http" then hostname else "edge")
                   +:+ "." +:+ pattern +:+ "." +:+ tc.CDNDomainName cdn
              else pattern).
Proof.
  intros Hds Hin.
  destruct (dsRules_rule_inv _ _ _ Hds Hin)
    as (q & cdn & toClient & toOrigin & acl & regexes & protocolStr & dsRegex
        & _ & Hc & _ & _ & Hre & Hp & Hd & Hrule).
  apply regexRule_effect in Hrule as (pattern & literal & Ht & Hloop).
  apply parentLoop_effect in Hloop as (Hname & Hfrom & _).
  exists cdn, regexes, protocolStr, dsRegex, pattern, literal.
  rewrite Hname, Hfrom. cbn [newRule remapdata.Name remapdata.From ctxDs ctxDsType ctxCdn].
  unfold buildFrom. do 6 (split; [done|]).
  destruct literal; [|done]. cbn [negb]. by destruct (HasPrefix _ "http").
Qed.

End rule_shape.

(** ** The rule-shape theorems on the sample batch *)

Section rule_shape_witnesses.
Import strings grovetccfg.

Lemma createRulesOld_rules_in_order_witness :
  exists R, sample.run [sample.unknownType; sample.upgrade] [sample.mid] = Ok R.
Proof.
  destruct (sample.dsRules [sample.mid] sample.upgrade) as [rules| | |] eqn:Hr;
    try (vm_compute in Hr; discriminate).
  eexists.
  apply (proj2 (@createRulesOld_rules_in_order sample.external "edge0" [sample.mid]
                  sample.regexes sample.cdns ∅ sample.dir
                  [sample.unknownType; sample.upgrade] [] _)).
  exists [], [[]; rules]. split; [reflexivity|]. split; [|reflexivity].
  constructor; [vm_compute; reflexivity|]. constructor; [exact Hr|constructor].
Defined.

Lemma dsRules_names_witness :
  exists regexes patterns,
    sample.regexes !! tc.XMLID sample.upgrade = Some regexes
    /\ Forall2 (fun dsRegex pattern =>
                  exists literal,
                    trimLiteralRegex (tc.Pattern dsRegex) = Ok (pattern, literal))
               regexes patterns
    /\ ["ds2.http.https.three"; "ds2.https.https.three"]
       = flat_map (fun protocolStr =>
                     map (fun pattern =>
                            tc.XMLID sample.upgrade +:+ "." +:+ PFrom protocolStr +:+ "."
                            +:+ PTo protocolStr +:+ "." +:+ pattern) patterns)
                  (protocolStrs (tc.Protocol sample.upgrade))
    /\ 2%nat = (length (protocolStrs (tc.Protocol sample.upgrade)) * length regexes)%nat.
Proof.
  destruct (sample.dsRules [sample.mid] sample.upgrade) as [rules| | |] eqn:Hr;
    try (vm_compute in Hr; discriminate).
  assert (Hnames : map remapdata.Name rules = ["ds2.http.https.three"; "ds2.https.https.three"]).
  { vm_compute in Hr. injection Hr as <-. reflexivity. }
  assert (Hne : rules <> []) by (intros ->; discriminate Hnames).
  destruct (@dsRules_names sample.external "edge0" [sample.mid] sample.regexes sample.cdns ∅
              sample.dir sample.upgrade rules Hr Hne)
    as (regexes & patterns & Hre & Hpat & Hn & Hl).
  exists regexes, patterns. rewrite <- Hnames at 1.
  replace 2%nat with (length rules) by (by rewrite <- (length_map remapdata.Name), Hnames).
  done.
Defined.

Lemma dsRules_protocol_out_of_range_witness :
  sample.dsRules [sample.mid] (sample.ds "ds9" "cdn1" 4 0 "HTTP" "" "") = Ok [].
Proof.
  apply (proj2 (@dsRules_protocol_out_of_range sample.external "edge0" [sample.mid]
                  sample.regexes sample.cdns ∅ sample.dir
                  (sample.ds "ds9" "cdn1" 4 0 "HTTP" "" "") (or_intror eq_refl))
           (remapdata.mkQueryStringRule true true) (tc.mkCDN "cdn.example")
           (web.noModHdrs, web.noModHdrs) []); vm_compute; reflexivity.
Defined.

Lemma dsRules_destinations_witness :
  exists rule : remapdata.RemapRule,
    map remapdata.ToURL (remapdata.To rule) = ["http://origin.example"]
    /\ map remapdata.ToProxyURL (remapdata.To rule) = ["http://mid0.example:80"].
Proof.
  destruct (sample.dsRules [sample.mid] sample.upgrade) as [[|rule rules]| | |] eqn:Hr;
    try (vm_compute in Hr; discriminate).
  exists rule.
  pose proof (@dsRules_destinations sample.external "edge0" [sample.mid] sample.regexes
                sample.cdns ∅ sample.dir sample.upgrade (rule :: rules) rule Hr
                (list_elem_of_here _ _)) as Hall.
  apply Forall2_cons_inv_l in Hall as (to & tos & (Hu & Hp & _) & Hnil & ->).
  apply Forall2_nil_inv_l in Hnil as ->.
  cbn [map]. rewrite Hu. split; [done|].
  cbv [url_Parse sample.external] in Hp. injection Hp as <-.
  vm_compute; reflexivity.
Defined.

Lemma dsRules_certificates_witness :
  exists rule : remapdata.RemapRule,
    remapdata.From rule = "https://edge.three.cdn.example"
    /\ remapdata.CertificateFile rule = "/etc/grove/ssl/three.cdn.example.crt"
    /\ remapdata.CertificateKeyFile rule = "/etc/grove/ssl/three.cdn.example.key".
Proof.
  set (cert := tc.mkCDNSSLKeys "*.three.cdn.example" "crt" "key").
  destruct (@grovetccfg.dsRules sample.external "edge0" [sample.mid] sample.regexes
              sample.cdns {[ "ds2" := cert ]} sample.dir sample.upgrade)
    as [[|r0 [|rule rules]]| | |] eqn:Hr; try (vm_compute in Hr; discriminate).
  exists rule.
  assert (Hfrom : remapdata.From rule = "https://edge.three.cdn.example")
    by (vm_compute in Hr; by injection Hr as _ <- _).
  split; [done|].
  destruct (@dsRules_certificates sample.external "edge0" [sample.mid] sample.regexes
              sample.cdns {[ "ds2" := cert ]} sample.dir sample.upgrade
              (r0 :: rule :: rules) rule Hr
              (list_elem_of_further _ _ _ (list_elem_of_here _ _)))
    as [(Hp & _) | (_ & Hc)].
  - rewrite Hfrom in Hp. vm_compute in Hp. discriminate.
  - exact Hc.
Defined.

Lemma dsRules_policy_needs_parent_witness :
  exists rule : remapdata.RemapRule,
    remapdata.Name rule = "ds2.http.https.three"
    /\ remapdata.To rule = [] /\ remapdata.Allow rule = [] /\ remapdata.Plugins rule = ∅.
Proof.
  destruct (sample.dsRules [] sample.upgrade) as [[|rule rules]| | |] eqn:Hr;
    try (vm_compute in Hr; discriminate).
  exists rule.
  split; [vm_compute in Hr; by injection Hr as <- _|].
  destruct (@dsRules_policy_needs_parent sample.external "edge0" [] sample.regexes
              sample.cdns ∅ sample.dir sample.upgrade (rule :: rules) rule Hr
              (list_elem_of_here _ _)) as (Hto & Hallow & Hplug & _).
  done.
Defined.

Lemma dsRules_from_witness :
  exists rule : remapdata.RemapRule,
    remapdata.Name rule = "ds1.http.http.one"
    /\ remapdata.From rule = "http://edge0.one.cdn.example".
Proof.
  destruct (sample.dsRules [sample.mid] sample.dual) as [[|rule rules]| | |] eqn:Hr;
    try (vm_compute in Hr; discriminate).
  exists rule.
  destruct (@dsRules_from sample.external "edge0" [sample.mid] sample.regexes
              sample.cdns ∅ sample.dir sample.dual (rule :: rules) rule Hr
              (list_elem_of_here _ _))
    as (cdn & regexes & protocolStr & dsRegex & pattern & literal & _).
  vm_compute in Hr. by injection Hr as <- _.
Defined.

End rule_shape_witnesses.

(** ** The header policy compiler, line by line *)

Section header_facts.
Import strings grovetccfg.

Lemma hdrLine_well_formed (line : string) (st : hdrState) :
  malformed line = false -> exists st', hdrLine line st = Ok st'.
Proof.
  unfold malformed, hdrLine.
  destruct (Fields (TrimSuffix line "[L]")) as [|part0 [|part1 [|part2 more]]]; [eauto|done| |].
  - intros ->. repeat case_match; eauto.
  - intros _. repeat case_match; eauto.
Qed.

(** The line loop fails at its first malformed line, with the message
    that quotes this line. *)
Lemma hdrLines_first_malformed (lines : list string) (msg : string) :
  forall st,
    hdrLines lines st = Err msg
    <-> exists pre bad post,
          lines = pre ++ bad :: post
          /\ Forall (fun line => malformed line = false) pre
          /\ malformed bad = true
          /\ msg = malformedLine (TrimSuffix bad "[L]").
Proof.
  induction lines as [|line rest IH]; intros st; cbn [hdrLines].
  - split; [done|]. intros (pre & bad & post & Heq & _). by destruct pre.
  - destruct (malformed line) eqn:Hm.
    + rewrite (hdrLine_malformed line st Hm). simpl. split.
      * intros [= <-]. exists [], line, rest. split; [done|]. split; [constructor|done].
      * intros (pre & bad & post & Heq & Hpre & Hbad & ->).
        destruct pre as [|x pre]; simpl in Heq; injection Heq as <- _; [done|].
        apply Forall_cons in Hpre as [Hx _]. congruence.
    + destruct (hdrLine_well_formed line st Hm) as [st' ->]. simpl. rewrite IH. split.
      * intros (pre & bad & post & -> & Hpre & Hbad & ->).
        exists (line :: pre), bad, post. split; [done|]. split; [by constructor|done].
      * intros (pre & bad & post & Heq & Hpre & Hbad & ->).
        destruct pre as [|x pre]; simpl in Heq; injection Heq as <- ->; [congruence|].
        apply Forall_cons in Hpre as [_ Hpre]. by exists pre, bad, post.
Qed.

(** X15.  The remap text never reaches the header lists: [makeModHdrs]
    normalizes it and then does not read it, and the early return for two
    empty arguments gives what an empty policy gives anyway. *)
Theorem makeModHdrs_ignores_remap_text (edgeHRW remapTXT remapTXT' : string) :
  makeModHdrs edgeHRW remapTXT = makeModHdrs edgeHRW remapTXT'.
Proof.
  unfold makeModHdrs. destruct edgeHRW as [|c edgeHRW]; [|done].
  cbn [String.eqb andb]. by destruct (remapTXT =? "")%string, (remapTXT' =? "")%string.
Qed.

(** X16.  [makeModHdrs] fails in one way only: the normalized policy
    contains [-header], and one of its [__RETURN__]-separated lines is
    malformed.  The error then quotes the first such line, with its trailing
    [[L]] cut off; the lines before it are well formed, the lines after it
    are not read. *)
Theorem makeModHdrs_first_malformed (edgeHRW remapTXT msg : string) :
  makeModHdrs edgeHRW remapTXT = Err msg
  <-> strings.Contains (Join (Fields edgeHRW) " ") "-header" = true
      /\ exists pre bad post,
           Split (Join (Fields edgeHRW) " ") "__RETURN__" = pre ++ bad :: post
           /\ Forall (fun line => malformed line = false) pre
           /\ malformed bad = true
           /\ msg = "edge header rewrite: malformed line '" +:+ TrimSuffix bad "[L]" +:+ "'".
Proof.
  rewrite <- (hdrLines_first_malformed _ msg (mkHdrState true web.noModHdrs web.noModHdrs)).
  unfold makeModHdrs. destruct edgeHRW as [|c edgeHRW].
  - cbn [String.eqb andb]. split; [by destruct (remapTXT =? "")%string|by intros [? _]].
  - cbn [String.eqb andb]. destruct (strings.Contains _ _); [|split; [done|by intros [? _]]].
    unfold mbind, outcome_bind.
    destruct (hdrLines _ _) as [st'| | |]; simpl; intuition congruence.
Qed.

Lemma hdrLine_origin_only (line : string) (st st' : hdrState) :
  responseHook line = false ->
  toOrigin st = true ->
  hdrLine line st = Ok st' ->
  toOrigin st' = true /\ toClientList st' = toClientList st.
Proof.
  unfold responseHook, hdrLine. intros Hr Ho.
  destruct (Fields (TrimSuffix line "[L]")) as [|part0 [|part1 more]]; [by intros [= <-]|done|].
  destruct (part0 =? "cond")%string.
  - cbn [andb] in Hr. rewrite Hr. intros [= <-].
    by destruct (part1 =? "%{SEND_REQUEST_HDR_HOOK}")%string.
  - rewrite Ho. repeat case_match; try done; by intros [= <-]; simpl.
Qed.

Lemma hdrLines_origin_only (lines : list string) :
  Forall (fun line => responseHook line = false) lines ->
  forall st st',
    toOrigin st = true ->
    hdrLines lines st = Ok st' ->
    toOrigin st' = true /\ toClientList st' = toClientList st.
Proof.
  induction 1 as [|line rest Hline _ IH]; intros st st' Ho; cbn [hdrLines].
  - by intros [= <-].
  - destruct (hdrLine line st) as [st1| | |] eqn:Hl; simpl; try done.
    destruct (hdrLine_origin_only _ _ _ Hline Ho Hl) as [Ho1 <-]. by apply IH.
Qed.

(** X17.  Directives are origin-bound until a [cond] line names the
    response hook: a policy none of whose lines is
    [cond %{SEND_RESPONSE_HDR_HOOK}] compiles to an empty client-bound
    list. *)
Theorem makeModHdrs_client_needs_response_hook (edgeHRW remapTXT : string)
    (toClientHeaders toOriginHeaders : web.ModHdrs) :
  makeModHdrs edgeHRW remapTXT = Ok (toClientHeaders, toOriginHeaders) ->
  Forall (fun line => responseHook line = false)
         (Split (Join (Fields edgeHRW) " ") "__RETURN__") ->
  toClientHeaders = web.mkModHdrs [] [].
Proof.
  unfold makeModHdrs. intros Hm Hlines.
  destruct (_ && _); [by injection Hm as <- _|].
  destruct (strings.Contains _ _); [|by injection Hm as <- _].
  unfold mbind, outcome_bind in Hm.
  destruct (hdrLines _ _) as [st'| | |] eqn:Hl; simpl in Hm; try done.
  injection Hm as <- _.
  by destruct (hdrLines_origin_only _ Hlines (mkHdrState true web.noModHdrs web.noModHdrs)
                 st' eq_refl Hl) as [_ ->].
Qed.

Lemma makeModHdrs_client_needs_response_hook_witness :
  exists toClientHeaders toOriginHeaders,
    makeModHdrs
      "cond %{SEND_REQUEST_HDR_HOOK}__RETURN__set-header X-Origin 1 [L]__RETURN__rm-header Via"
      "" = Ok (toClientHeaders, toOriginHeaders)
    /\ toOriginHeaders = web.mkModHdrs [web.mkHdr "X-Origin" "1"] ["Via"]
    /\ toClientHeaders = web.mkModHdrs [] [].
Proof.
  destruct (makeModHdrs
              "cond %{SEND_REQUEST_HDR_HOOK}__RETURN__set-header X-Origin 1 [L]__RETURN__rm-header Via"
              "") as [[toClientHeaders toOriginHeaders]| | |] eqn:Hm;
    try (vm_compute in Hm; discriminate).
  exists toClientHeaders, toOriginHeaders. split; [done|].
  split; [vm_compute in Hm; by injection Hm as _ <-|].
  apply (makeModHdrs_client_needs_response_hook _ _ _ _ Hm).
  vm_compute. repeat constructor.
Defined.

End header_facts.

(** ** The allow-list of the stats endpoint *)

Section allow_facts.
Import strings net grovetccfg.

Lemma makeAllowIPLoop_cons (ip : string) (rest : list string) :
  makeAllowIPLoop (ip :: rest)
  = match ParseCIDR (cidrText ip) with
    | None =>
        Err ("error parsing CIDR '" +:+ cidrText ip +:+ "': invalid CIDR address: "
             +:+ cidrText ip)
    | Some cidrnet => cidrs ← makeAllowIPLoop rest; Ok (cidrnet :: cidrs)
    end.
Proof. reflexivity. Qed.

(** The entry loop succeeds exactly when every entry parses, and then
    returns one network per entry, in order. *)
Lemma makeAllowIPLoop_Ok (ips : list string) :
  forall nets,
    makeAllowIPLoop ips = Ok nets
    <-> Forall2 (fun ip ipnet => ParseCIDR (cidrText ip) = Some ipnet) ips nets.
Proof.
  induction ips as [|ip rest IH]; intros nets.
  - simpl. split; [intros [= <-]; constructor|by intros ->%Forall2_nil_inv_l].
  - rewrite makeAllowIPLoop_cons. split.
    + destruct (ParseCIDR (cidrText ip)) as [cidrnet|] eqn:Hp; [|done].
      unfold mbind, outcome_bind.
      destruct (makeAllowIPLoop rest) as [cidrs| | |]; simpl; try done.
      intros [= <-]. constructor; [done|]. by apply IH.
    + intros (cidrnet & cidrs & Hp & Hrest & ->)%Forall2_cons_inv_l.
      rewrite Hp. apply IH in Hrest. by rewrite Hrest.
Qed.

Lemma allow_entries_filter (params : list tc.Parameter_) :
  flat_map (fun param => if allowParam param then Split (tc.Value param) "," else [])
           (List.filter allowParam params)
  = flat_map (fun param => if allowParam param then Split (tc.Value param) "," else [])
             params.
Proof.
  induction params as [|param rest IH]; [done|]. simpl.
  destruct (allowParam param) eqn:Ha; simpl; [by rewrite Ha, IH|done].
Qed.

(** X18.  [getAllowIP] reads the [allow_ip] and [allow_ip6] parameters of
    [astats.config] and no other: leaving the others out changes nothing.
    The networks of a parameter list are those of its front followed by those
    of its back, and the list compiles exactly when both parts do. *)
Theorem getAllowIP_reads_allow_parameters (params more : list tc.Parameter_)
    (nets : list IPNet) :
  getAllowIP (List.filter allowParam params) = getAllowIP params
  /\ (getAllowIP (params ++ more) = Ok nets
      <-> exists front back,
            getAllowIP params = Ok front /\ getAllowIP more = Ok back
            /\ nets = front ++ back).
Proof.
  unfold getAllowIP, makeAllowIP. fold allowParam. split.
  - f_equal. apply allow_entries_filter.
  - rewrite flat_map_app, makeAllowIPLoop_Ok. split.
    + intros (front & back & Hf & Hb & ->)%Forall2_app_inv_l.
      exists front, back. by rewrite !makeAllowIPLoop_Ok.
    + intros (front & back & Hf%makeAllowIPLoop_Ok & Hb%makeAllowIPLoop_Ok & ->).
      by apply Forall2_app.
Qed.

(** X19.  A blank entry in an allow-list parameter (an empty value, two
    commas in a row, a comma at either end) is not stepped over: it reaches
    [net.ParseCIDR] as [/32], which is no CIDR, and [getAllowIP] fails. *)
Theorem getAllowIP_blank_entry (params : list tc.Parameter_) (param : tc.Parameter_)
    (entry : string) :
  param ∈ params ->
  allowParam param = true ->
  entry ∈ Split (tc.Value param) "," ->
  TrimSpace entry = "" ->
  exists msg, getAllowIP params = Err msg.
Proof.
  intros Hparam Hallow Hentry Hblank.
  unfold getAllowIP, makeAllowIP. fold allowParam.
  destruct (makeAllowIPLoop_cases
              (flat_map (fun param => if allowParam param then Split (tc.Value param) "," else [])
                        params)) as [[nets Hok] | Herr]; [|done].
  apply makeAllowIPLoop_Ok in Hok.
  assert (Hin : entry ∈ flat_map (fun param => if allowParam param
                                               then Split (tc.Value param) "," else []) params).
  { apply list_elem_of_In, in_flat_map. exists param.
    split; [by apply list_elem_of_In|]. rewrite Hallow. by apply list_elem_of_In. }
  apply list_elem_of_lookup in Hin as [i Hi].
  destruct (Forall2_lookup_l _ _ _ _ _ Hok Hi) as (ipnet & _ & Hp).
  unfold cidrText in Hp. rewrite Hblank in Hp. vm_compute in Hp. discriminate.
Qed.

Lemma getAllowIP_blank_entry_witness :
  exists msg,
    getAllowIP [tc.mkParameter "allow_ip" "astats.config" "10.0.0.0/8, "] = Err msg.
Proof.
  apply (getAllowIP_blank_entry _ (tc.mkParameter "allow_ip" "astats.config" "10.0.0.0/8, ")
           " ").
  - left.
  - reflexivity.
  - vm_compute. right. left.
  - vm_compute; reflexivity.
Defined.

End allow_facts.

(** ** Dotted addresses, host routes and the blocks of ranges *)

Section address_facts.
Import strings net grovetccfg.

Lemma dtoiFrom_spec (s : string) :
  forall n seen m rest ok,
    0 <= n ->
    dtoiFrom n seen s = (m, rest, ok) ->
    0 <= m
    /\ exists ds, s = ds +:+ rest /\ forall ch, occurs ch ds = true -> isDigit ch = true.
Proof.
  induction s as [|c s IH]; intros n seen m rest ok Hn; cbn [dtoiFrom].
  - destruct seen; intros [= <- <- <-]; (split; [lia|]); by exists "".
  - destruct ((48 <=? byteOf c) && (byteOf c <=? 57)) eqn:Hd.
    + destruct (big <=? _) eqn:Hbig.
      * intros [= <- <- <-]. split; [done|]. by exists "".
      * intros Hrec. apply IH in Hrec as (Hm & ds & -> & Hds).
        -- split; [done|]. exists (String c ds). split; [done|].
           intros ch. simpl. intros [Hc|Hc]%orb_true_iff; [|by apply Hds].
           by apply Ascii.eqb_eq in Hc as <-.
        -- apply andb_true_iff in Hd as [Hd%Z.leb_le _]. lia.
    + destruct seen; intros [= <- <- <-]; (split; [lia|]); by exists "".
Qed.

Lemma parseIPv4Loop_spec (k : nat) :
  forall i s p rest p',
    parseIPv4Loop k i s p = Some (rest, p') ->
    Forall octet p ->
    Forall octet p'
    /\ length p' = length p
    /\ exists used, s = used +:+ rest /\ forall ch, occurs ch used = true -> ipv4Byte ch = true.
Proof.
  induction k as [|k IH]; intros i s p rest p'; cbn [parseIPv4Loop].
  - intros [= <- <-] Hp. split; [done|]. split; [done|]. by exists "".
  - destruct s as [|c s1]; [done|].
    assert (Hstep : forall s2,
               (let '(n, rest0, ok) := dtoi s2 in
                if negb ok || (255 <? n) then None
                else parseIPv4Loop k (S i) rest0 (<[i := n]> p)) = Some (rest, p') ->
               Forall octet p ->
               Forall octet p' /\ length p' = length p
               /\ exists used, s2 = used +:+ rest
                               /\ forall ch, occurs ch used = true -> ipv4Byte ch = true).
    { intros s2. destruct (dtoi s2) as [[n rest0] ok] eqn:Hd.
      destruct (negb ok || (255 <? n)) eqn:Hc; [done|]. intros Hrec Hp.
      apply orb_false_elim in Hc as [_ Hn%Z.ltb_ge].
      apply dtoiFrom_spec in Hd as (Hn0 & ds & -> & Hds); [|done].
      apply IH in Hrec as (Hp' & Hlen & used & -> & Hused);
        [|by apply Forall_insert].
      split; [done|]. split; [by rewrite Hlen, length_insert|].
      exists (ds +:+ used). split; [by rewrite append_assoc|].
      intros ch Hch. unfold ipv4Byte.
      destruct (occurs ch ds) eqn:Hin; [by rewrite (Hds ch Hin)|].
      apply Hused. clear -Hch Hin. induction ds as [|x ds IHds]; [done|].
      rewrite append_cons in Hch. simpl in *.
      apply orb_false_elim in Hin as [Hx Hin]. rewrite Hx in Hch. by apply IHds. }
    destruct i as [|i].
    + apply Hstep.
    + destruct (Ascii.eqb c "."%char) eqn:Hdot; [|done]. intros Hrec Hp.
      apply Hstep in Hrec as (Hp' & Hlen & used & -> & Hused); [|done].
      split; [done|]. split; [done|]. exists (String c used). split; [done|].
      intros ch. simpl. intros [Hc|Hc]%orb_true_iff; [|by apply Hused].
      apply Ascii.eqb_eq in Hc as <-. unfold ipv4Byte. by rewrite Hdot, orb_true_r.
Qed.

(** An address that [parseIPv4] accepts is written with digits and dots
    only, and its four numbers are bytes. *)
Lemma parseIPv4_spec (s : string) (ip : IP) :
  parseIPv4 s = Some ip ->
  exists a b c d,
    ip = IPv4 a b c d /\ octet a /\ octet b /\ octet c /\ octet d
    /\ forall ch, occurs ch s = true -> ipv4Byte ch = true.
Proof.
  unfold parseIPv4.
  destruct (parseIPv4Loop 4 0 s [0; 0; 0; 0]) as [[rest p]|] eqn:Hl; [|done].
  destruct rest; [|done]. intros [= <-].
  apply parseIPv4Loop_spec in Hl as (Hp & Hlen & used & -> & Hused);
    [|repeat constructor; unfold octet; lia].
  destruct p as [|a [|b [|c [|d [|? ?]]]]]; try done.
  exists a, b, c, d.
  apply Forall_cons in Hp as [Ha Hp]. apply Forall_cons in Hp as [Hb Hp].
  apply Forall_cons in Hp as [Hc Hp]. apply Forall_cons in Hp as [Hd _].
  rewrite append_nil_r. done.
Qed.

Lemma land_octet (x : Z) : octet x -> Z.land x 255 = x.
Proof.
  intros Hx. change 255 with (Z.ones 8). rewrite Z.land_ones by lia.
  apply Z.mod_small. unfold octet in Hx. lia.
Qed.

Lemma splitFrom_byte_app (c : ascii) (t r : string) :
  occurs c t = false ->
  splitFrom (String c "") 0 (t +:+ String c r) = t :: splitFrom (String c "") 0 r.
Proof.
  induction t as [|a t IH]; intros Ho.
  - rewrite append_nil_l. cbn [splitFrom HasPrefix String.length Nat.sub].
    rewrite Ascii.eqb_refl. by destruct r.
  - simpl in Ho. apply orb_false_elim in Ho as [Ha Ho].
    rewrite append_cons. cbn [splitFrom HasPrefix]. rewrite Ha. cbn [andb].
    by rewrite IH.
Qed.

Lemma drop_past_byte (c : ascii) (t r : string) :
  drop (String.length t + 1) (t +:+ String c r) = r.
Proof. induction t as [|a t IH]; [done|]. by rewrite append_cons. Qed.

(** A dotted address followed by [/32] is the host route of the
    address. *)
Lemma ParseCIDR_host_v4 (t : string) (ip : IP) :
  parseIPv4 t = Some ip ->
  exists a b c d,
    ip = IPv4 a b c d
    /\ ParseCIDR (t +:+ "/32") = Some (mkIPNet [a; b; c; d] [255; 255; 255; 255]).
Proof.
  intros Hp. destruct (parseIPv4_spec _ _ Hp) as (a & b & c & d & -> & Ha & Hb & Hc & Hd & Hch).
  exists a, b, c, d. split; [done|].
  assert (Hslash : occurs "/"%char t = false).
  { destruct (occurs "/"%char t) eqn:Ho; [|done]. by apply Hch in Ho. }
  unfold ParseCIDR.
  assert (strings.Contains (t +:+ "/32") "/" = true) as ->
    by (apply isSubstringOf_Contains; by exists t, "32").
  cbn [negb]. unfold Split.
  change (splitFrom "/" 0 (t +:+ "/32"))
    with (splitFrom (String "/"%char "") 0 (t +:+ String "/"%char "32")).
  rewrite splitFrom_byte_app by done.
  change (t +:+ "/32") with (t +:+ String "/"%char "32").
  rewrite drop_past_byte, Hp.
  change (dtoi "32") with (32, "", true). cbn -[Mask IPv4].
  unfold Mask, IPv4. simpl. by rewrite !land_octet.
Qed.

(** X20.  An allow-list entry that is a dotted IPv4 address, with white
    space around it or not, compiles to the host route of that address: the
    address itself under the mask [255.255.255.255]. *)
Theorem makeAllowIP_bare_ipv4 (entry : string) (ip : IP) :
  parseIPv4 (TrimSpace entry) = Some ip ->
  exists a b c d,
    ip = IPv4 a b c d
    /\ makeAllowIP [entry] = Ok [mkIPNet [a; b; c; d] [255; 255; 255; 255]].
Proof.
  intros Hp.
  destruct (parseIPv4_spec _ _ Hp) as (a & b & c & d & -> & _ & _ & _ & _ & Hch).
  destruct (ParseCIDR_host_v4 _ _ Hp) as (a' & b' & c' & d' & [= <- <- <- <-] & Hcidr).
  exists a, b, c, d. split; [done|].
  unfold makeAllowIP. rewrite makeAllowIPLoop_cons.
  assert (Htext : cidrText entry = TrimSpace entry +:+ "/32").
  { unfold cidrText.
    change "/" with (String "/"%char "") at 1. change ":" with (String ":"%char "").
    rewrite !Contains_byte.
    destruct (occurs "/"%char (TrimSpace entry)) eqn:Hs; [by apply Hch in Hs|].
    destruct (occurs ":"%char (TrimSpace entry)) eqn:Hc; [by apply Hch in Hc|].
    done. }
  by rewrite Htext, Hcidr.
Qed.

Lemma makeAllowIP_bare_ipv4_witness :
  exists a b c d,
    IPv4 10 1 2 3 = IPv4 a b c d
    /\ makeAllowIP [" 10.1.2.3 "] = Ok [mkIPNet [a; b; c; d] [255; 255; 255; 255]].
Proof.
  apply (makeAllowIP_bare_ipv4 " 10.1.2.3 " (IPv4 10 1 2 3)).
  vm_compute; reflexivity.
Defined.

Lemma occurs_rev_onto (c : ascii) (s : string) :
  forall acc, occurs c (rev_onto s acc) = occurs c s || occurs c acc.
Proof.
  induction s as [|a s IH]; intros acc; simpl; [done|].
  rewrite IH. simpl. by destruct (Ascii.eqb a c), (occurs c s), (occurs c acc).
Qed.

Lemma occurs_reverse (c : ascii) (s : string) : occurs c (reverse s) = occurs c s.
Proof. unfold reverse. rewrite occurs_rev_onto. simpl. apply orb_false_r. Qed.

Lemma occurs_trimLeftCutset (c : ascii) (cutset s : string) :
  occurs c (trimLeftCutset cutset s) = true -> occurs c s = true.
Proof.
  induction s as [|a s IH]; simpl; [done|].
  destruct (inCutset cutset a); [|done]. intros Ho%IH. by rewrite Ho, orb_true_r.
Qed.

Lemma occurs_Trim (c : ascii) (s cutset : string) :
  occurs c (Trim s cutset) = true -> occurs c s = true.
Proof.
  unfold Trim. rewrite occurs_reverse. intros Ho%occurs_trimLeftCutset.
  rewrite occurs_reverse in Ho. by apply occurs_trimLeftCutset in Ho.
Qed.

Lemma Mask_host_v4 (a b c d : Z) :
  octet a -> octet b -> octet c -> octet d ->
  Mask (IPv4 a b c d) (CIDRMask 32 32) = [a; b; c; d].
Proof.
  intros Ha Hb Hc Hd. change (CIDRMask 32 32) with [255; 255; 255; 255].
  unfold Mask, IPv4. simpl. by rewrite !land_octet.
Qed.

Lemma CIDRMask_length_32 (p : Z) : 0 <= p <= 32 -> length (CIDRMask p 32) = 4%nat.
Proof.
  intros Hp. unfold CIDRMask.
  change (negb (32 =? 32) && negb (32 =? 128)) with false. cbv iota.
  replace ((p <? 0) || (32 <? p)) with false by (symmetry; apply orb_false_intro; lia).
  by rewrite cidrMaskBytes_length.
Qed.

(** X21.  A single-address token of an allow directive without a colon
    compiles to a host route: what [strings.Trim] leaves of the token is a
    dotted IPv4 address, and the network at the token's place is this
    address under the mask [255.255.255.255]. *)
Theorem makeACL_single_ipv4 (remapTxt : string) (nets : list IPNet) (i : nat)
    (allowStr : string) :
  makeACL remapTxt = Ok nets ->
  HasPrefix (Join (Fields remapTxt) " ") "@action=allow" = true ->
  skipn 1 (Split (Join (Fields remapTxt) " ") " ") !! i = Some allowStr ->
  strings.Contains allowStr "-" = false ->
  strings.Contains allowStr ":" = false ->
  exists a b c d,
    ParseIP (Trim allowStr "@src_ip=") = Some (IPv4 a b c d)
    /\ octet a /\ octet b /\ octet c /\ octet d
    /\ nets !! i = Some (mkIPNet [a; b; c; d] [255; 255; 255; 255]).
Proof.
  intros Hm Hpre Hi Hdash Hcolon.
  pose proof (makeACL_Ok_tokens _ _ Hm Hpre) as Hall.
  destruct (Forall2_lookup_l _ _ _ _ _ Hall Hi) as (ipnet & Hnet & Hentry).
  unfold aclEntry, allBitsOf in Hentry. rewrite Hdash, Hcolon in Hentry.
  destruct (ParseIP (Trim allowStr "@src_ip=")) as [addr|] eqn:Hp; [|done].
  injection Hentry as <-.
  assert (Hno : occurs ":"%char (Trim allowStr "@src_ip=") = false).
  { destruct (occurs ":"%char (Trim allowStr "@src_ip=")) eqn:Ho; [|done].
    apply occurs_Trim in Ho. rewrite <- Contains_byte in Ho. congruence. }
  pose proof (parseIPScan_no_colon _ _ _ Hno Hp) as Hv4.
  destruct (parseIPv4_spec _ _ Hv4) as (a & b & c & d & -> & Ha & Hb & Hc & Hd & _).
  exists a, b, c, d. rewrite Hnet, Mask_host_v4 by done. done.
Qed.

Lemma makeACL_single_ipv4_witness :
  exists a b c d,
    ParseIP (Trim "@src_ip=10.0.0.9" "@src_ip=") = Some (IPv4 a b c d)
    /\ octet a /\ octet b /\ octet c /\ octet d
    /\ [mkIPNet [192; 168; 1; 0] [255; 255; 255; 0]; mkIPNet [10; 0; 0; 9] [255; 255; 255; 255]]
         !! 1%nat
       = Some (mkIPNet [a; b; c; d] [255; 255; 255; 255]).
Proof.
  apply (makeACL_single_ipv4
           "@action=allow  @src_ip=192.168.1.0-192.168.1.255 @src_ip=10.0.0.9"
           [mkIPNet [192; 168; 1; 0] [255; 255; 255; 0];
            mkIPNet [10; 0; 0; 9] [255; 255; 255; 255]]
           1 "@src_ip=10.0.0.9"); vm_compute; reflexivity.
Defined.

(** X22.  The block of an IPv4 range token admits both ends of the range:
    when an allow directive compiles, a token [start-end] without a colon has
    two addresses that parse, and the network at the token's place contains
    both of them, as [IPNet.Contains] decides it. *)
Theorem makeACL_ipv4_range_contains (remapTxt : string) (nets : list IPNet) (i : nat)
    (allowStr startAddrStr endAddrStr : string) (more : list string) :
  makeACL remapTxt = Ok nets ->
  HasPrefix (Join (Fields remapTxt) " ") "@action=allow" = true ->
  skipn 1 (Split (Join (Fields remapTxt) " ") " ") !! i = Some allowStr ->
  strings.Contains allowStr "-" = true ->
  strings.Contains allowStr ":" = false ->
  Split (TrimPrefix allowStr "@src_ip=") "-" = startAddrStr :: endAddrStr :: more ->
  exists start end_ ipnet,
    ParseIP startAddrStr = Some start
    /\ ParseIP endAddrStr = Some end_
    /\ nets !! i = Some ipnet
    /\ IPNet_Contains ipnet start = true
    /\ IPNet_Contains ipnet end_ = true.
Proof.
  intros Hm Hpre Hi Hdash Hcolon Hsplit.
  pose proof (makeACL_Ok_tokens _ _ Hm Hpre) as Hall.
  destruct (Forall2_lookup_l _ _ _ _ _ Hall Hi) as (ipnet & Hnet & Hentry).
  assert (Hparse : exists start end_,
             ParseIP startAddrStr = Some start /\ ParseIP endAddrStr = Some end_).
  { unfold aclEntry in Hentry. rewrite Hdash, Hsplit in Hentry.
    destruct (ParseIP startAddrStr) as [start|]; [|done].
    destruct (ParseIP endAddrStr) as [end_|]; [|done]. by exists start, end_. }
  destruct Hparse as (start & end_ & Hs & He).
  exists start, end_, ipnet. split; [done|]. split; [done|]. split; [done|].
  destruct (aclEntry_range maskLoopBound (Join (Fields remapTxt) " ") _ _ _ _ _ _
              Hdash Hsplit Hs He (Nat.le_refl _)) as (p & Hp & Hr & Hsame & _).
  rewrite Hr in Hentry. injection Hentry as <-.
  assert (Hbits : allBitsOf allowStr = 32) by (unfold allBitsOf; by rewrite Hcolon).
  rewrite Hbits in *.
  assert (Hno : forall piece, In piece [startAddrStr; endAddrStr] ->
                  occurs ":"%char piece = false).
  { intros piece Hin. destruct (occurs ":"%char piece) eqn:Ho; [|done].
    rewrite <- Hcolon. symmetry. change ":" with (String ":"%char EmptyString).
    rewrite Contains_byte. apply occurs_TrimPrefix with (prefix := "@src_ip=").
    apply occurs_Split with (sep := "-") (piece := piece); [|done].
    rewrite Hsplit. destruct Hin as [<- | [<- | []]]; [by left|by right; left]. }
  apply ParseIP_no_colon in Hs as (a & b & c & d & ->); [|apply Hno; by left].
  apply ParseIP_no_colon in He as (a' & b' & c' & d' & ->); [|apply Hno; by right; left].
  pose proof (CIDRMask_length_32 p Hp) as Hlen. unfold sameNet in Hsame.
  destruct (CIDRMask p 32) as [|m0 [|m1 [|m2 [|m3 [|? ?]]]]]; try done.
  unfold Mask, Equal, IPv4 in Hsame. simpl in Hsame.
  apply bool_decide_eq_true in Hsame. injection Hsame as H0 H1 H2 H3.
  unfold IPNet_Contains, networkNumberAndMask, To4, Mask, IPv4. simpl.
  split; apply bool_decide_eq_true.
  - by rewrite <- !Z.land_assoc, !Z.land_diag.
  - by rewrite <- !Z.land_assoc, !Z.land_diag, H0, H1, H2, H3.
Qed.

Lemma makeACL_ipv4_range_contains_witness :
  exists start end_ ipnet,
    ParseIP "10.0.0.1" = Some start
    /\ ParseIP "10.0.0.6" = Some end_
    /\ [mkIPNet [10; 0; 0; 0] [255; 255; 255; 248]] !! 0%nat = Some ipnet
    /\ IPNet_Contains ipnet start = true
    /\ IPNet_Contains ipnet end_ = true.
Proof.
  apply (makeACL_ipv4_range_contains "@action=allow @src_ip=10.0.0.1-10.0.0.6"
           [mkIPNet [10; 0; 0; 0] [255; 255; 255; 248]] 0 "@src_ip=10.0.0.1-10.0.0.6"
           "10.0.0.1" "10.0.0.6" []); vm_compute; reflexivity.
Defined.

End address_facts.
